(** * write-it-down-backend: the Express relay and its admin facade

    A shallow embedding of [server.js] (the version with the admin
    endpoints) and the properties of its route handlers.

    Layout.
    - [Str], [Num] : strings and binary64 numbers with [Number::toString],
                  [toFixed] and [Math.max].
    - [Buffer]  : Node's [Buffer] with its [utf8] and [base64] codecs.
    - [JS]      : the fragment of ECMAScript the handlers use: [parseInt],
                  numeric literals, JSON values and the coercions.
    - [Express] : requests, the response object, [fetch], [console.error],
                  exceptions and [try]/[catch].
    - [Server]  : the route handlers, statement by statement.
    - [Demo]    : a configuration and requests to run the handlers on.
    - [Outcome] : the vocabulary for what a handler leaves behind.
    - [Page]    : the script of the dashboard served at [/admin].
    - [Site]    : the server as the page reaches it.
    - the lemmas and the theorems.

    Modelling conventions.
    - A JS string is represented by the bytes of its UTF-8 encoding (a
      Rocq [string]).  All separators and keywords the program looks for
      are ASCII, so [split], [startsWith] and [===] act on the bytes as they
      act on the UTF-16 code units.  [Buffer.from(s)] is then the identity
      on bytes, and [buf.toString()] is the replacing UTF-8 decoder
      followed by this representation.
    - A JS number is an IEEE-754 binary64 value ([spec_float] with
      precision 53 and maximal exponent 1024).
    - The clock of the world is an integer, a time value of ECMAScript
      (at most 8.64e15 in magnitude); [Date.now()] is the number that
      integer is.  The arithmetic of the verifier is binary64 arithmetic,
      and [Binary64Facts] proves that its age test is the integer test
      for every time value and every integer timestamp. *)

From Stdlib Require Import ZArith NArith Lia Bool List String Ascii.
From Stdlib Require Import Floats.SpecFloat.
Import ListNotations.

Local Open Scope string_scope.
Local Open Scope Z_scope.

(* ================================================================== *)
(** * Strings *)
(* ================================================================== *)

Module Str.

Definition code (c : ascii) : N := N_of_ascii c.

Definition in_range (lo hi : N) (c : ascii) : bool :=
  ((lo <=? code c) && (code c <=? hi))%N.

(** [s.startsWith(p)] *)
Definition startsWith (s p : string) : bool := String.prefix p s.

(** [s.split(sep)] for a one-character separator: never empty, and
    the empty string splits into one empty piece. *)
Fixpoint split (sep : ascii) (s : string) : list string :=
  match s with
  | EmptyString => [EmptyString]
  | String c t =>
      if Ascii.eqb c sep then EmptyString :: split sep t
      else match split sep t with
           | x :: r => String c x :: r
           | [] => [String c EmptyString]
           end
  end.

(** Does the character occur in the string? *)
Fixpoint mem (c : ascii) (s : string) : bool :=
  match s with
  | EmptyString => false
  | String d t => Ascii.eqb d c || mem c t
  end.

Fixpoint repeat (c : ascii) (n : nat) : string :=
  match n with
  | O => EmptyString
  | S k => String c (repeat c k)
  end.

(** The first [n] characters, and what follows them. *)
Fixpoint take (n : nat) (s : string) : string :=
  match n, s with
  | S k, String c t => String c (take k t)
  | _, _ => EmptyString
  end.

Fixpoint drop (n : nat) (s : string) : string :=
  match n, s with
  | S k, String _ t => drop k t
  | _, _ => s
  end.

(** Decimal digits of a natural number, most significant first. *)
Definition digit_char (d : N) : ascii := ascii_of_N (48 + d).

Fixpoint digits_fuel (fuel : nat) (n : N) (acc : string) : string :=
  match fuel with
  | O => acc
  | S k =>
      let acc' := String (digit_char (n mod 10)) acc in
      if (n <? 10)%N then acc' else digits_fuel k (n / 10)%N acc'
  end.

Definition of_N (n : N) : string :=
  digits_fuel (S (N.to_nat (N.log2 n))) n EmptyString.

(** The decimal text of an integer: what a template literal makes of an
    integral number. *)
Definition of_Z (z : Z) : string :=
  match z with
  | Zneg p => String "-" (of_N (Npos p))
  | _ => of_N (Z.to_N z)
  end.

(** Runs of decimal digits, and texts within ASCII. *)
Definition is_digit (c : ascii) : bool := in_range 48 57 c.

Fixpoint all_digits (s : string) : bool :=
  match s with
  | EmptyString => true
  | String c t => is_digit c && all_digits t
  end.

Fixpoint ascii_only (s : string) : bool :=
  match s with
  | EmptyString => true
  | String c t => (code c <? 128)%N && ascii_only t
  end.

End Str.

(* ================================================================== *)
(** * Numbers: IEEE-754 binary64 *)
(* ================================================================== *)

Module Num.

Definition number := spec_float.

Definition prec : Z := 53.
Definition emax : Z := 1024.

Definition NaN : number := S754_nan.
Definition zero : number := S754_zero false.

(** The number nearest to an integer (a numeric literal such as [100]). *)
Definition of_Z (z : Z) : number := binary_normalize prec emax z 0 false.

(** The number nearest to [n / d], for a literal such as [0.8]. *)
Definition of_ratio (n d : positive) : number :=
  SFdiv prec emax (S754_finite false n 0) (S754_finite false d 0).

Definition add : number -> number -> number := SFadd prec emax.
Definition sub : number -> number -> number := SFsub prec emax.
Definition mul : number -> number -> number := SFmul prec emax.
Definition div : number -> number -> number := SFdiv prec emax.
Definition ltb : number -> number -> bool := SFltb.
Definition eqb : number -> number -> bool := SFeqb.

Definition is_nan (x : number) : bool :=
  match x with S754_nan => true | _ => false end.

Definition is_zero (x : number) : bool :=
  match x with S754_zero _ => true | _ => false end.

(** The number of bits of a mantissa, and the two shapes of a number
    that is an integer: below [2^53] in magnitude it is the integer [z]
    itself, with the mantissa shifted to 53 bits; from [2^53] on it is an
    infinity or a 53-bit mantissa with an exponent of [lo] at least. *)
Definition digits (p : positive) : Z := Zpos (digits2_pos p).

Definition small (s : bool) (z : positive) (x : number) : Prop :=
  exists m,
    x = S754_finite s m (digits z - 53)
    /\ Zpos m = Zpos z * 2 ^ (53 - digits z).

Definition rounded (s : bool) (lo : Z) (x : number) : Prop :=
  x = S754_infinity s
  \/ exists m e, x = S754_finite s m e /\ digits m = 53 /\ lo <= e.

(** [Math.max(a, b)]: [NaN] is contagious and [+0] is larger than [-0]. *)
Definition max (a b : number) : number :=
  if is_nan a || is_nan b then NaN
  else if ltb a b then b
  else if ltb b a then a
  else match a, b with
       | S754_zero true, S754_zero _ => b
       | _, _ => a
       end.

(** ** Comparing [a * 2^ea * 10^ta] with [b * 2^eb * 10^tb] exactly *)
Definition cmp_scaled (a ea ta b eb tb : Z) : comparison :=
  let me := Z.min ea eb in
  let mt := Z.min ta tb in
  Z.compare (a * 2 ^ (ea - me) * 10 ^ (ta - mt))
            (b * 2 ^ (eb - me) * 10 ^ (tb - mt)).

(** ** [Number::toString]: the shortest decimal that reads back as the
    same number

    For the magnitude [m * 2^e] the decimals that round to it are those
    between the midpoints to its two neighbours; the midpoints themselves
    belong to the number with the even mantissa. *)
Section Shortest.
Variables (m : positive) (e : Z).

Definition lower_gap_is_half : bool :=
  Pos.eqb m (2 ^ 52) && (-1074 <? e).

Definition reads_back (s p : Z) : bool :=
  let lo := 4 * Zpos m - (if lower_gap_is_half then 1 else 2) in
  let hi := 4 * Zpos m + 2 in
  let even := Z.even (Zpos m) in
  match cmp_scaled s 0 p lo (e - 2) 0, cmp_scaled s 0 p hi (e - 2) 0 with
  | Gt, Lt => true
  | Eq, _ | _, Eq => even
  | _, _ => false
  end.

(** The least [n] with [m * 2^e < 10^n], searched upwards from [n0]. *)
Fixpoint decimal_exponent (fuel : nat) (n0 : Z) : Z :=
  match fuel with
  | O => n0
  | S k =>
      match cmp_scaled (Zpos m) e 0 1 0 n0 with
      | Lt => n0
      | _ => decimal_exponent k (n0 + 1)
      end
  end.

(** [floor (m * 2^e / 10^p)] *)
Definition scaled_floor (p : Z) : Z :=
  (Zpos m * 2 ^ Z.max e 0 * 10 ^ Z.max (- p) 0)
  / (2 ^ Z.max (- e) 0 * 10 ^ Z.max p 0).

(** The candidate with [k] digits, if one reads back: the nearer of the
    two neighbours of the exact value on the grid [10^(n-k)]. *)
Definition candidate (n k : Z) : option (Z * Z) :=
  let p := n - k in
  let dn := scaled_floor p in
  let up := dn + 1 in
  match reads_back dn p, reads_back up p with
  | true, false => Some (dn, p)
  | false, true => Some (up, p)
  | false, false => None
  | true, true =>
      match cmp_scaled (2 * Zpos m) e 0 (2 * dn + 1) 0 p with
      | Lt => Some (dn, p)
      | Gt => Some (up, p)
      | Eq => Some (if Z.even dn then dn else up, p)
      end
  end.

Fixpoint shortest_from (fuel : nat) (n k : Z) : Z * Z :=
  match fuel with
  | O => (scaled_floor (n - k), n - k)
  | S f =>
      match candidate n k with
      | Some sp => sp
      | None => shortest_from f n (k + 1)
      end
  end.

End Shortest.

Fixpoint strip_zeros_rev (s : list ascii) : list ascii :=
  match s with
  | "0"%char :: t => strip_zeros_rev t
  | _ => s
  end.

Definition strip_trailing_zeros (s : string) : string :=
  string_of_list_ascii
    (rev (strip_zeros_rev (rev (list_ascii_of_string s)))).

(** Digits [d1...dk] and the exponent [n] with value [0.d1...dk * 10^n]. *)
Definition shortest_digits (m : positive) (e : Z) : string * Z :=
  let n := decimal_exponent m e 640 (-324) in
  let '(s, p) := shortest_from m e 17 n 1 in
  let all := Str.of_N (Z.to_N s) in
  (strip_trailing_zeros all, p + Z.of_nat (String.length all)).

Definition format_digits (ds : string) (n : Z) : string :=
  let k := Z.of_nat (String.length ds) in
  if (k <=? n) && (n <=? 21) then
    ds ++ Str.repeat "0" (Z.to_nat (n - k))
  else if (0 <? n) && (n <=? 21) then
    Str.take (Z.to_nat n) ds ++ "." ++ Str.drop (Z.to_nat n) ds
  else if (-6 <? n) && (n <=? 0) then
    "0." ++ Str.repeat "0" (Z.to_nat (- n)) ++ ds
  else
    let ex := n - 1 in
    let sg := if ex <? 0 then "-" else "+" in
    let mant := if k =? 1 then ds
                else Str.take 1 ds ++ "." ++ Str.drop 1 ds in
    mant ++ "e" ++ sg ++ Str.of_Z (Z.abs ex).

(** The integer a number is, when it is an integer below [2^53] in
    magnitude. *)
Definition to_safe_integer (x : number) : option Z :=
  match x with
  | S754_zero _ => Some 0
  | S754_finite s m e =>
      if (Zpos m <? 2 ^ 53) && (-52 <=? e) && (e <=? 0)
         && (Zpos m mod 2 ^ (- e) =? 0)
      then Some (cond_Zopp s (Zpos m / 2 ^ (- e)))
      else None
  | _ => None
  end.

(** An integer below [2^53] in magnitude is its own shortest decimal:
    its text is the text of the integer.  Every other number goes through
    the search. *)
Definition toString (x : number) : string :=
  match to_safe_integer x with
  | Some z => Str.of_Z z
  | None =>
      match x with
      | S754_nan => "NaN"
      | S754_zero _ => "0"
      | S754_infinity s => if s then "-Infinity" else "Infinity"
      | S754_finite s m e =>
          let '(ds, n) := shortest_digits m e in
          (if s then "-" else EmptyString) ++ format_digits ds n
      end
  end.

(** The search alone, to compare with. *)
Definition toString_by_search (x : number) : string :=
  match x with
  | S754_nan => "NaN"
  | S754_zero _ => "0"
  | S754_infinity s => if s then "-Infinity" else "Infinity"
  | S754_finite s m e =>
      let '(ds, n) := shortest_digits m e in
      (if s then "-" else EmptyString) ++ format_digits ds n
  end.

(** ** [Number.prototype.toFixed(f)] *)

(** The integer [n] with [n / 10^f] nearest to [m * 2^e], the larger one
    on a tie. *)
Definition fixed_integer (m : positive) (e : Z) (f : nat) : Z :=
  (2 * Zpos m * 2 ^ Z.max e 0 * 10 ^ Z.of_nat f + 2 ^ Z.max (- e) 0)
  / (2 * 2 ^ Z.max (- e) 0).

Definition fixed_text (n : Z) (f : nat) : string :=
  let ds := Str.of_N (Z.to_N n) in
  match f with
  | O => ds
  | _ =>
      let k := String.length ds in
      let ds := if (k <=? f)%nat then Str.repeat "0" (S f - k) ++ ds else ds in
      let k := String.length ds in
      Str.take (k - f) ds ++ "." ++ Str.drop (k - f) ds
  end.

Definition toFixed (x : number) (f : nat) : string :=
  match x with
  | S754_finite s m e =>
      let sg := if s then "-" else EmptyString in
      match cmp_scaled (Zpos m) e 0 1 0 21 with
      | Lt => sg ++ fixed_text (fixed_integer m e f) f
      | _ => sg ++ toString (S754_finite false m e)
      end
  | S754_zero _ => fixed_text 0 f
  | _ => toString x
  end.

End Num.

(* ================================================================== *)
(** * Node's [Buffer]: the [utf8] and [base64] codecs *)
(* ================================================================== *)

Module Buffer.

(** A buffer is its sequence of bytes. *)
Definition t := string.

(** ** utf8 *)

(** [Buffer.from(s)]: the UTF-8 encoding of the string, which is how
    strings are represented here. *)
Definition from_utf8 (s : string) : t := s.

Definition byte (n : N) : ascii := ascii_of_N n.

(** U+FFFD, the replacement character. *)
Definition replacement : string :=
  String (byte 239) (String (byte 191) (String (byte 189) EmptyString)).

Definition is_continuation (c : ascii) : bool := Str.in_range 128 191 c.

(** For the first byte of a multi-byte sequence: the number of bytes
    that follow and the range allowed for the first of them. *)
Definition lead (c : ascii) : option (nat * (N * N)) :=
  let n := Str.code c in
  if ((194 <=? n) && (n <=? 223))%N then Some (1%nat, (128, 191)%N)
  else if (n =? 224)%N then Some (2%nat, (160, 191)%N)
  else if (n =? 237)%N then Some (2%nat, (128, 159)%N)
  else if ((225 <=? n) && (n <=? 239))%N then Some (2%nat, (128, 191)%N)
  else if (n =? 240)%N then Some (3%nat, (144, 191)%N)
  else if ((241 <=? n) && (n <=? 243))%N then Some (3%nat, (128, 191)%N)
  else if (n =? 244)%N then Some (3%nat, (128, 143)%N)
  else None.

(** [buf.toString()]: every maximal ill-formed part becomes U+FFFD and
    decoding resumes at the byte that broke the sequence. *)
Fixpoint toString (b : t) : string :=
  match b with
  | EmptyString => EmptyString
  | String c1 t1 =>
      if (Str.code c1 <? 128)%N then String c1 (toString t1)
      else
        match lead c1 with
        | None => replacement ++ toString t1
        | Some (k, (lo, hi)) =>
            match t1 with
            | EmptyString => replacement
            | String c2 t2 =>
                if negb (Str.in_range lo hi c2) then replacement ++ toString t1
                else
                  match k with
                  | 1%nat => String c1 (String c2 (toString t2))
                  | _ =>
                      match t2 with
                      | EmptyString => replacement
                      | String c3 t3 =>
                          if negb (is_continuation c3)
                          then replacement ++ toString t2
                          else
                            match k with
                            | 2%nat =>
                                String c1 (String c2 (String c3 (toString t3)))
                            | _ =>
                                match t3 with
                                | EmptyString => replacement
                                | String c4 t4 =>
                                    if negb (is_continuation c4)
                                    then replacement ++ toString t3
                                    else String c1 (String c2 (String c3
                                           (String c4 (toString t4))))
                                end
                            end
                      end
                  end
            end
        end
  end.

(** Well-formed UTF-8 (Unicode, table 3-7): the byte strings that
    represent a JS string. *)
Fixpoint well_formed (b : string) : bool :=
  match b with
  | EmptyString => true
  | String c1 t1 =>
      if (Str.code c1 <? 128)%N then well_formed t1
      else
        match lead c1, t1 with
        | Some (1%nat, (lo, hi)), String c2 t2 =>
            Str.in_range lo hi c2 && well_formed t2
        | Some (2%nat, (lo, hi)), String c2 (String c3 t3) =>
            Str.in_range lo hi c2 && is_continuation c3 && well_formed t3
        | Some (3%nat, (lo, hi)), String c2 (String c3 (String c4 t4)) =>
            Str.in_range lo hi c2 && is_continuation c3
            && is_continuation c4 && well_formed t4
        | _, _ => false
        end
  end.

(** ** base64 *)

(** A group of six bits, kept in the low bits of a byte. *)
Definition sextet := ascii.

Definition is_sextet (s : ascii) : Prop :=
  match s with
  | Ascii _ _ _ _ _ _ false false => True
  | _ => False
  end.

Definition alphabet (s : sextet) : ascii :=
  let n := Str.code s in
  if (n <? 26)%N then byte (65 + n)
  else if (n <? 52)%N then byte (97 + (n - 26))
  else if (n <? 62)%N then byte (48 + (n - 52))
  else if (n =? 62)%N then "+"%char
  else "/"%char.

(** The decoder reads the standard and the URL-safe alphabet. *)
Definition unbase64 (c : ascii) : option sextet :=
  let n := Str.code c in
  if Str.in_range 65 90 c then Some (byte (n - 65))
  else if Str.in_range 97 122 c then Some (byte (n - 97 + 26))
  else if Str.in_range 48 57 c then Some (byte (n - 48 + 52))
  else if Ascii.eqb c "+" || Ascii.eqb c "-" then Some (byte 62)
  else if Ascii.eqb c "/" || Ascii.eqb c "_" then Some (byte 63)
  else None.

(** Three bytes are four sextets, most significant bits first. *)
Definition sextet1 (a : ascii) : sextet :=
  let '(Ascii _ _ a2 a3 a4 a5 a6 a7) := a in
  Ascii a2 a3 a4 a5 a6 a7 false false.

Definition sextet2 (a b : ascii) : sextet :=
  let '(Ascii a0 a1 _ _ _ _ _ _) := a in
  let '(Ascii _ _ _ _ b4 b5 b6 b7) := b in
  Ascii b4 b5 b6 b7 a0 a1 false false.

Definition sextet3 (b c : ascii) : sextet :=
  let '(Ascii b0 b1 b2 b3 _ _ _ _) := b in
  let '(Ascii _ _ _ _ _ _ c6 c7) := c in
  Ascii c6 c7 b0 b1 b2 b3 false false.

Definition sextet4 (c : ascii) : sextet :=
  let '(Ascii c0 c1 c2 c3 c4 c5 _ _) := c in
  Ascii c0 c1 c2 c3 c4 c5 false false.

Definition byte1 (s1 s2 : sextet) : ascii :=
  let '(Ascii a2 a3 a4 a5 a6 a7 _ _) := s1 in
  let '(Ascii _ _ _ _ a0 a1 _ _) := s2 in
  Ascii a0 a1 a2 a3 a4 a5 a6 a7.

Definition byte2 (s2 s3 : sextet) : ascii :=
  let '(Ascii b4 b5 b6 b7 _ _ _ _) := s2 in
  let '(Ascii _ _ b0 b1 b2 b3 _ _) := s3 in
  Ascii b0 b1 b2 b3 b4 b5 b6 b7.

Definition byte3 (s3 s4 : sextet) : ascii :=
  let '(Ascii c6 c7 _ _ _ _ _ _) := s3 in
  let '(Ascii c0 c1 c2 c3 c4 c5 _ _) := s4 in
  Ascii c0 c1 c2 c3 c4 c5 c6 c7.

(** [buf.toString("base64")] *)
Fixpoint toString_base64 (b : t) : string :=
  match b with
  | EmptyString => EmptyString
  | String a EmptyString =>
      String (alphabet (sextet1 a))
        (String (alphabet (sextet2 a zero)) "==")
  | String a (String b EmptyString) =>
      String (alphabet (sextet1 a))
        (String (alphabet (sextet2 a b))
           (String (alphabet (sextet3 b zero)) "="))
  | String a (String b (String c r)) =>
      String (alphabet (sextet1 a))
        (String (alphabet (sextet2 a b))
           (String (alphabet (sextet3 b c))
              (String (alphabet (sextet4 c)) (toString_base64 r))))
  end.

(** The sextets of the legal characters that precede the first [=]:
    the decoder skips every other character and stops at the padding. *)
Fixpoint legal_sextets (s : string) : list sextet :=
  match s with
  | EmptyString => []
  | String c r =>
      if Ascii.eqb c "=" then []
      else match unbase64 c with
           | Some v => v :: legal_sextets r
           | None => legal_sextets r
           end
  end.

Fixpoint bytes_of_sextets (l : list sextet) : t :=
  match l with
  | s1 :: s2 :: s3 :: s4 :: r =>
      String (byte1 s1 s2)
        (String (byte2 s2 s3) (String (byte3 s3 s4) (bytes_of_sextets r)))
  | [s1; s2; s3] => String (byte1 s1 s2) (String (byte2 s2 s3) EmptyString)
  | [s1; s2] => String (byte1 s1 s2) EmptyString
  | _ => EmptyString
  end.

(** [Buffer.from(s, "base64")]: never fails, whatever the string. *)
Definition from_base64 (s : string) : t := bytes_of_sextets (legal_sextets s).

End Buffer.

(* ================================================================== *)
(** * ECMAScript values and coercions *)
(* ================================================================== *)

Module JS.

Import Num.

(** ** Reading numbers from text *)

Definition is_ws1 (c : ascii) : bool :=
  Str.in_range 9 13 c || Ascii.eqb c " ".

(** The white space and line terminators of more than one byte:
    U+00A0, U+1680, U+2000..U+200A, U+2028, U+2029, U+202F, U+205F,
    U+3000 and U+FEFF. *)
Definition is_ws2 (c1 c2 : ascii) : bool :=
  (Str.code c1 =? 194)%N && (Str.code c2 =? 160)%N.

Definition is_ws3 (c1 c2 c3 : ascii) : bool :=
  let a := Str.code c1 in
  let b := Str.code c2 in
  let c := Str.code c3 in
  ((a =? 225) && (b =? 154) && (c =? 128)
   || (a =? 226) && (b =? 128)
      && ((128 <=? c) && (c <=? 138) || (c =? 168) || (c =? 169) || (c =? 175))
   || (a =? 226) && (b =? 129) && (c =? 159)
   || (a =? 227) && (b =? 128) && (c =? 128)
   || (a =? 239) && (b =? 187) && (c =? 191))%N.

Fixpoint skip_ws (s : string) : string :=
  match s with
  | String c1 t1 =>
      if is_ws1 c1 then skip_ws t1
      else
        match t1 with
        | String c2 t2 =>
            if is_ws2 c1 c2 then skip_ws t2
            else
              match t2 with
              | String c3 t3 => if is_ws3 c1 c2 c3 then skip_ws t3 else s
              | EmptyString => s
              end
        | EmptyString => s
        end
  | EmptyString => s
  end.

(** The value of a character as a digit, letters counting from ten. *)
Definition digit_value (c : ascii) : option N :=
  let n := Str.code c in
  if Str.in_range 48 57 c then Some (n - 48)%N
  else if Str.in_range 97 122 c then Some (n - 87)%N
  else if Str.in_range 65 90 c then Some (n - 55)%N
  else None.

Definition digit_in (radix : N) (c : ascii) : option N :=
  match digit_value c with
  | Some d => if (d <? radix)%N then Some d else None
  | None => None
  end.

(** Reads the longest run of digits: their value on top of [acc], how
    many there were, and the rest. *)
Fixpoint read_digits (radix : N) (s : string) (acc : N) (cnt : nat)
  : N * nat * string :=
  match s with
  | String c t =>
      match digit_in radix c with
      | Some d => read_digits radix t (acc * radix + d)%N (S cnt)
      | None => (acc, cnt, s)
      end
  | EmptyString => (acc, cnt, s)
  end.

Definition read_sign (s : string) : bool * string :=
  match s with
  | String "-" t => (true, t)
  | String "+" t => (false, t)
  | _ => (false, s)
  end.

(** The sign and the magnitude [parseInt(s)] reads with no radix given,
    if it reads a digit at all. *)
Definition read_integer (s : string) : option (bool * N) :=
  let '(neg, s1) := read_sign (skip_ws s) in
  let '(radix, s2) :=
    match s1 with
    | String "0" (String x t) =>
        if Ascii.eqb x "x" || Ascii.eqb x "X" then (16%N, t) else (10%N, s1)
    | _ => (10%N, s1)
    end in
  match read_digits radix s2 0 0 with
  | (_, O, _) => None
  | (n, _, _) => Some (neg, n)
  end.

(** [parseInt(s)]: [NaN] without a digit, a signed zero, or the number
    nearest to the integer read. *)
Definition parseInt (s : string) : number :=
  match read_integer s with
  | None => NaN
  | Some (neg, N0) => S754_zero neg
  | Some (neg, n) => Num.of_Z (if neg then - Z.of_N n else Z.of_N n)
  end.

(** The integer [parseInt(s)] stands for, [None] when it is [NaN]. *)
Definition parseInt_integer (s : string) : option Z :=
  match read_integer s with
  | None => None
  | Some (neg, n) => Some (if neg then - Z.of_N n else Z.of_N n)
  end.

(** The number nearest to [(-1)^neg * d * 10^p]. *)
Definition of_decimal (neg : bool) (d : N) (p : Z) : number :=
  match d with
  | N0 => S754_zero neg
  | Npos m =>
      if 0 <=? p
      then binary_normalize prec emax
             ((if neg then Zneg m else Zpos m) * 10 ^ p) 0 false
      else SFdiv prec emax (S754_finite neg m 0)
             (S754_finite false (Z.to_pos (10 ^ (- p))) 0)
  end.

Definition only_ws (s : string) : bool :=
  match skip_ws s with EmptyString => true | _ => false end.

Definition read_exponent (s : string) : option (Z * string) :=
  match s with
  | String c t =>
      if Ascii.eqb c "e" || Ascii.eqb c "E" then
        let '(neg, t1) := read_sign t in
        match read_digits 10 t1 0 0 with
        | (_, O, _) => None
        | (n, _, r) => Some (if neg then - Z.of_N n else Z.of_N n, r)
        end
      else Some (0, s)
  | EmptyString => Some (0, s)
  end.

Definition read_decimal (s : string) : number :=
  let '(neg, s1) := read_sign s in
  if String.prefix "Infinity" s1 then
    if only_ws (Str.drop 8 s1) then S754_infinity neg else NaN
  else
    let '(i, ci, r1) := read_digits 10 s1 0 0 in
    let '(d, cf, r2) :=
      match r1 with
      | String "." t => read_digits 10 t i 0
      | _ => (i, O, r1)
      end in
    match (ci + cf)%nat with
    | O => NaN
    | _ =>
        match read_exponent r2 with
        | Some (ex, r3) =>
            if only_ws r3 then of_decimal neg d (ex - Z.of_nat cf) else NaN
        | None => NaN
        end
    end.

Definition read_radix (radix : N) (s : string) : number :=
  match read_digits radix s 0 0 with
  | (_, O, _) => NaN
  | (n, _, r) => if only_ws r then Num.of_Z (Z.of_N n) else NaN
  end.

(** [StringToNumber] *)
Definition StringToNumber (s : string) : number :=
  match skip_ws s with
  | EmptyString => zero
  | String "0" (String x t) as s1 =>
      if Ascii.eqb x "x" || Ascii.eqb x "X" then read_radix 16 t
      else if Ascii.eqb x "o" || Ascii.eqb x "O" then read_radix 8 t
      else if Ascii.eqb x "b" || Ascii.eqb x "B" then read_radix 2 t
      else read_decimal s1
  | s1 => read_decimal s1
  end.

(** ** Values *)

#[warnings="-register-all"]
Inductive value :=
| Undefined
| Null
| Bool (b : bool)
| Number (x : number)
| String_ (s : string)
| Array (elements : list value)
| Object (properties : list (string * value)).

(** [ToBoolean] *)
Definition truthy (v : value) : bool :=
  match v with
  | Undefined | Null => false
  | Bool b => b
  | Number x => negb (is_zero x || is_nan x)
  | String_ s => negb (String.eqb s EmptyString)
  | Array _ | Object _ => true
  end.

(** [a || b] *)
Definition or (a b : value) : value := if truthy a then a else b.

Definition join (sep : string) (l : list string) : string :=
  match l with
  | [] => EmptyString
  | x :: r => fold_left (fun acc y => acc ++ sep ++ y) r x
  end.

(** [ToString]; an array joins its elements and a plain object is
    ["[object Object]"].  This is the string of a value that has one:
    where the conversion can throw, the code that converts tests
    [converts] (below) first. *)
Fixpoint ToString (v : value) : string :=
  match v with
  | Undefined => "undefined"
  | Null => "null"
  | Bool true => "true"
  | Bool false => "false"
  | Number x => Num.toString x
  | String_ s => s
  | Array l =>
      join ","
        (map (fun e => match e with
                       | Undefined | Null => EmptyString
                       | _ => ToString e
                       end) l)
  | Object _ => "[object Object]"
  end.

(** [ToNumber], likewise for a value that converts. *)
Definition ToNumber (v : value) : number :=
  match v with
  | Undefined => NaN
  | Null => zero
  | Bool true => Num.of_Z 1
  | Bool false => zero
  | Number x => x
  | String_ s => StringToNumber s
  | Array _ | Object _ => StringToNumber (ToString v)
  end.

(** The arithmetic and relational operators the handlers use. *)
Definition minus (a b : value) : number := sub (ToNumber a) (ToNumber b).
Definition times (a b : number) : number := mul a b.
Definition divide (a b : value) : number := div (ToNumber a) (ToNumber b).
(** [a > b] where [b] is a number *)
Definition greater (a : value) (b : number) : bool := ltb b (ToNumber a).

(** A string or [undefined]: a header, an environment variable, an
    element of an array of strings. *)
Definition of_option (o : option string) : value :=
  match o with Some s => String_ s | None => Undefined end.

(** [v === p] for a primitive [p] that is a string or [undefined]. *)
Definition strict_eq (v : value) (p : option string) : bool :=
  match v, p with
  | String_ s, Some t => String.eqb s t
  | Undefined, None => true
  | _, _ => false
  end.

(** ** Property access

    The handlers read the properties [messages], [temperature], [top_p],
    [username], [password], [data], [label], [usage], [limit],
    [is_free_tier] and [rate_limit].  None of them is an index, [length]
    or a member of a built-in prototype, so only an object's own
    properties can answer. *)
Fixpoint lookup (k : string) (props : list (string * value)) : option value :=
  match props with
  | [] => None
  | (k', v) :: r => if String.eqb k' k then Some v else lookup k r
  end.

Definition object_coercible (v : value) : bool :=
  match v with Undefined | Null => false | _ => true end.

(** [v.k] once [v] is known not to be [undefined] or [null] *)
Definition get (v : value) (k : string) : value :=
  match v with
  | Object props => match lookup k props with Some x => x | None => Undefined end
  | _ => Undefined
  end.

(** [v?.k] *)
Definition get_optional (v : value) (k : string) : value :=
  if object_coercible v then get v k else Undefined.

(** A default in a destructuring pattern applies to [undefined] only. *)
Definition default (v d : value) : value :=
  match v with Undefined => d | _ => v end.

(** [ToPrimitive]: whether a value converts to a primitive, so that
    [ToString] and [ToNumber] return.  For a value that came out of JSON
    the conversion of an object looks up [toString]; an own property of
    that name is not a function, [valueOf] returns the object itself or
    is no function either, and the conversion throws a [TypeError].
    Without the own property the object is ["[object Object]"].  An
    array joins the strings of its elements, [null] and [undefined]
    apart. *)
Fixpoint converts (v : value) : bool :=
  match v with
  | Array l =>
      forallb (fun e => match e with
                        | Undefined | Null => true
                        | _ => converts e
                        end) l
  | Object props =>
      match lookup "toString" props with
      | Some _ => false
      | None => true
      end
  | _ => true
  end.

End JS.

(* ================================================================== *)
(** * Express, [fetch] and the console *)
(* ================================================================== *)

Module Express.

Import JS.

(** ** What a handler sees *)

(** [process.env]: every variable is a string or [undefined]. *)
Record Env := {
  FRONTEND_API_KEY : option string;
  API_URL : option string;
  OPENROUTER_API_KEY : option string;
  MODEL : option string;
  ADMIN_USERNAME : option string;
  ADMIN_PASSWORD : option string
}.

(** [req]: the headers, keyed by their lower-case names, and the body
    left by the [express.json()] middleware. *)
Record Request := {
  headers : list (string * string);
  body : value
}.

(** An exception: its [message] and its [status] property
    ([undefined] on the errors the runtime and the handlers create). *)
Record Error := {
  message : string;
  status : value
}.

Definition new_Error (msg : string) : Error :=
  {| message := msg; status := Undefined |}.

Inductive result (A : Type) :=
| Return (a : A)
| Throw (e : Error).
Arguments Return {A} a.
Arguments Throw {A} e.

(** The text produced by [JSON.stringify(v)], kept as the value it
    serialises. *)
Inductive json_text := JSON_stringify (v : value).

(** A call of [fetch]. *)
Record FetchRequest := {
  url : option string;
  method : string;
  request_headers : list (string * string);
  request_body : option json_text
}.

(** What the upstream provider answers: [fetch] rejects, or resolves to
    a response with a status; [response.json()] parses the body or
    rejects. *)
Record FetchResponse := {
  response_status : Z;
  response_json : result value
}.

Inductive FetchResult :=
| Rejected (e : Error)
| Resolved (r : FetchResponse).

(** The world outside the process during one request: the clock, in
    milliseconds since the epoch, and the upstream provider. *)
Record World := {
  now : Z;
  upstream : FetchRequest -> FetchResult
}.

(** The clock readings ECMAScript knows: time values, at most
    [8.64e15] milliseconds from the epoch. *)
Definition time_value (t : Z) : Prop :=
  - 8640000000000000 <= t <= 8640000000000000.

Record Context := {
  env : Env;
  world : World;
  req : Request
}.

(** ** What a handler does *)

Inductive LogAtom :=
| LogValue (v : value)
| LogISODate (ms : Z).

(** An argument of [console.error]: a text or an object literal. *)
Inductive LogArg :=
| LogText (s : string)
| LogRecord (fields : list (string * LogAtom)).

(** The response object and the trace of one request: the status set by
    [res.status], the body sent by [res.json], the calls of [fetch], the
    lines of [console.error], and the exceptions that reached Express. *)
Record Effects := {
  statusCode : Z;
  sent : option value;
  fetched : list FetchRequest;
  console : list (list LogArg);
  escaped : list Error
}.

Definition initial : Effects :=
  {| statusCode := 200; sent := None; fetched := []; console := [];
     escaped := [] |}.

(** Handlers run in a state-and-exception monad over [Effects]. *)
Definition M (A : Type) : Type := Context -> Effects -> result A * Effects.

Definition ret {A} (a : A) : M A := fun _ st => (Return a, st).

Definition bind {A B} (m : M A) (k : A -> M B) : M B :=
  fun ctx st =>
    match m ctx st with
    | (Return a, st') => k a ctx st'
    | (Throw e, st') => (Throw e, st')
    end.

Definition throw {A} (e : Error) : M A := fun _ st => (Throw e, st).

(** [try { body } catch (error) { handler }] *)
Definition try_catch {A} (body : M A) (handler : Error -> M A) : M A :=
  fun ctx st =>
    match body ctx st with
    | (Return a, st') => (Return a, st')
    | (Throw e, st') => handler e ctx st'
    end.

Declare Scope js_scope.
Delimit Scope js_scope with js.
Notation "x <- m ;; k" := (bind m (fun x => k))
  (at level 61, m at next level, right associativity) : js_scope.
Notation "m ;; k" := (bind m (fun _ => k))
  (at level 61, right associativity) : js_scope.
Local Open Scope js_scope.

Definition ask : M Context := fun ctx st => (Return ctx, st).

(** [process.env.X] *)
Definition process_env (var : Env -> option string) : M (option string) :=
  ctx <- ask ;; ret (var (env ctx)).

Fixpoint assoc (k : string) (l : list (string * string)) : option string :=
  match l with
  | [] => None
  | (k', v) :: r => if String.eqb k' k then Some v else assoc k r
  end.

(** [req.headers[name]] *)
Definition req_header (name : string) : M (option string) :=
  ctx <- ask ;; ret (assoc name (headers (req ctx))).

(** [req.body] *)
Definition req_body : M value := ctx <- ask ;; ret (body (req ctx)).

(** [Date.now()]: the number that the clock reading is. *)
Definition Date_now : M Num.number :=
  ctx <- ask ;; ret (Num.of_Z (now (world ctx))).

(** [new Date()], as the time value of the date. *)
Definition new_Date : M Z := ctx <- ask ;; ret (now (world ctx)).

(** [res.status(code)] *)
Definition res_status (code : Z) : M unit :=
  fun _ st =>
    (Return tt,
     {| statusCode := code; sent := sent st; fetched := fetched st;
        console := console st; escaped := escaped st |}).

(** [res.json(v)]: sends once; a second send throws. *)
Definition res_json (v : value) : M unit :=
  fun _ st =>
    match sent st with
    | Some _ =>
        (Throw (new_Error "Cannot set headers after they are sent to the client"), st)
    | None =>
        (Return tt,
         {| statusCode := statusCode st; sent := Some v; fetched := fetched st;
            console := console st; escaped := escaped st |})
    end.

(** [await fetch(url, options)] *)
Definition fetch (r : FetchRequest) : M FetchResponse :=
  fun ctx st =>
    let st' :=
      {| statusCode := statusCode st; sent := sent st;
         fetched := fetched st ++ [r];
         console := console st; escaped := escaped st |} in
    match upstream (world ctx) r with
    | Rejected e => (Throw e, st')
    | Resolved resp => (Return resp, st')
    end.

(** [response.ok] *)
Definition ok (r : FetchResponse) : bool :=
  (200 <=? response_status r) && (response_status r <=? 299).

(** [await response.json()] *)
Definition json (r : FetchResponse) : M value :=
  match response_json r with
  | Return v => ret v
  | Throw e => throw e
  end.

(** [console.error(...args)] *)
Definition console_error (args : list LogArg) : M unit :=
  fun _ st =>
    (Return tt,
     {| statusCode := statusCode st; sent := sent st; fetched := fetched st;
        console := console st ++ [args]; escaped := escaped st |}).

(** Express calls a handler inside its own [try]: an exception never
    comes back to the caller of [next()], it is handed to the error
    handling of the framework. *)
Definition dispatch (h : M unit) : M unit :=
  fun ctx st =>
    match h ctx st with
    | (Return _, st') => (Return tt, st')
    | (Throw e, st') =>
        (Return tt,
         {| statusCode := statusCode st'; sent := sent st';
            fetched := fetched st'; console := console st';
            escaped := escaped st' ++ [e] |})
    end.

(** One request through one route. *)
Definition serve (route : M unit) (e : Env) (w : World) (r : Request)
  : Effects :=
  snd (dispatch route {| env := e; world := w; req := r |} initial).

(** The response the client receives, if the handler sent one. *)
Definition response (fx : Effects) : option (Z * value) :=
  match sent fx with
  | Some v => Some (statusCode fx, v)
  | None => None
  end.

(** Reading properties of a value that may be [undefined] or [null]
    throws a [TypeError].  For [const { first, ... } = req.body] the
    message names the first property of the pattern. *)
Definition require_object_coercible (v : value) (first : string) : M unit :=
  if object_coercible v then ret tt
  else throw (new_Error ("Cannot destructure property '" ++ first
                         ++ "' of 'req.body' as it is " ++ ToString v
                         ++ "."))%string.

(** The conversion of an operand to a primitive throws a [TypeError]
    when the value does not convert. *)
Definition require_primitive (v : value) : M unit :=
  if converts v then ret tt
  else throw (new_Error "Cannot convert object to primitive value").

Definition member (v : value) (k : string) : M value :=
  if object_coercible v then ret (get v k)
  else throw (new_Error ("Cannot read properties of " ++ ToString v
                         ++ " (reading '" ++ k ++ "')"))%string.

End Express.

(* ================================================================== *)
(** * server.js *)
(* ================================================================== *)

Module Server.

Import JS Express.
Local Open Scope js_scope.

(** [res.status(code).json(v)] *)
Definition respond (code : Z) (v : value) : M unit :=
  res_status code ;; res_json v.

(** [if (!response.ok) throw new Error(`OpenRouter API error: ${response.status}`)] *)
Definition check_ok (response : FetchResponse) : M unit :=
  if negb (ok response)
  then throw (new_Error ("OpenRouter API error: "
                         ++ Str.of_Z (response_status response)))
  else ret tt.

(** The headers both kinds of upstream call carry. *)
Definition upstream_headers (api_key : option string)
  : list (string * string) :=
  [("Authorization", "Bearer " ++ ToString (of_option api_key))%string;
   ("Content-Type", "application/json")].

(** ** [app.post("/api/chat", ...)] *)
Definition api_chat : M unit :=
  try_catch
    (authHeader <- req_header "x-api-key" ;;
     key <- process_env FRONTEND_API_KEY ;;
     if negb (truthy (of_option authHeader))
        || negb (strict_eq (of_option authHeader) key)
     then respond 401 (Object [("error", String_ "Unauthorized")])
     else
       b <- req_body ;;
       require_object_coercible b "messages" ;;
       let messages := get b "messages" in
       let temperature :=
         default (get b "temperature") (Number (Num.of_ratio 8 10)) in
       let top_p := default (get b "top_p") (Number (Num.of_Z 1)) in
       api_url <- process_env API_URL ;;
       api_key <- process_env OPENROUTER_API_KEY ;;
       model <- process_env MODEL ;;
       response <-
         fetch {| url := api_url;
                  method := "POST";
                  request_headers := upstream_headers api_key;
                  request_body :=
                    Some (JSON_stringify
                            (Object [("model", of_option model);
                                     ("messages", messages);
                                     ("temperature", temperature);
                                     ("top_p", top_p)])) |} ;;
       check_ok response ;;
       data <- json response ;;
       res_json data)
    (fun error =>
       t <- new_Date ;;
       console_error
         [LogText "API Proxy Error (no user data logged):";
          LogRecord
            [("timestamp", LogISODate t);
             ("error", LogValue (String_ (message error)));
             ("status", LogValue (or (status error) (String_ "unknown")))]] ;;
       respond 500 (Object [("error", String_ "Internal server error")])).

(** ** [app.post("/admin/login", ...)] *)
Definition admin_login : M unit :=
  b <- req_body ;;
  require_object_coercible b "username" ;;
  let username := get b "username" in
  let password := get b "password" in
  admin_username <- process_env ADMIN_USERNAME ;;
  admin_password <- process_env ADMIN_PASSWORD ;;
  if strict_eq username admin_username && strict_eq password admin_password
  then
    t <- Date_now ;;
    let sessionToken :=
      Buffer.toString_base64
        (Buffer.from_utf8
           (ToString username ++ ":" ++ ToString (Number t))%string) in
    res_json (Object [("success", Bool true);
                      ("token", String_ sessionToken);
                      ("message", String_ "Login successful")])
  else
    respond 401 (Object [("success", Bool false);
                         ("error", String_ "Invalid credentials")]).

(** ** [verifyAdminSession] *)

(** [24 * 60 * 60 * 1000] *)
Definition maxAge : Num.number :=
  Num.mul (Num.mul (Num.mul (Num.of_Z 24) (Num.of_Z 60)) (Num.of_Z 60))
    (Num.of_Z 1000).

(** [Buffer.from(token, "base64")]: a [TypeError] unless [token] is a
    string. *)
Definition Buffer_from_base64 (token : option string) : M Buffer.t :=
  match token with
  | Some s => ret (Buffer.from_base64 s)
  | None =>
      throw (new_Error
               "The first argument must be of type string or an instance of Buffer, ArrayBuffer, or Array or an Array-like Object. Received undefined")
  end.

Definition verifyAdminSession (next : M unit) : M unit :=
  authHeader <- req_header "authorization" ;;
  match authHeader with
  | None =>
      respond 401 (Object [("error", String_ "No valid session token")])
  | Some h =>
      if negb (truthy (String_ h)) || negb (Str.startsWith h "Bearer ")
      then respond 401 (Object [("error", String_ "No valid session token")])
      else
        let token := nth_error (Str.split " " h) 1 in
        try_catch
          (buf <- Buffer_from_base64 token ;;
           let decoded := Buffer.toString buf in
           let parts := Str.split ":" decoded in
           let username := nth_error parts 0 in
           let timestamp := nth_error parts 1 in
           t <- Date_now ;;
           let tokenAge :=
             Num.sub t (parseInt (ToString (of_option timestamp))) in
           admin_username <- process_env ADMIN_USERNAME ;;
           if strict_eq (of_option username) admin_username
              && Num.ltb tokenAge maxAge
           then dispatch next
           else respond 401
                  (Object [("error", String_ "Invalid or expired session")]))
          (fun error =>
             respond 401 (Object [("error", String_ "Invalid session token")]))
  end.

(** The call both admin readers make:
    [fetch("https://openrouter.ai/api/v1/auth/key", { method: "GET", headers })] *)
Definition key_info_request (api_key : option string) : FetchRequest :=
  {| url := Some "https://openrouter.ai/api/v1/auth/key";
     method := "GET";
     request_headers := upstream_headers api_key;
     request_body := None |}.

Definition fetch_key_info : M FetchResponse :=
  api_key <- process_env OPENROUTER_API_KEY ;;
  fetch (key_info_request api_key).

(** ** [app.get("/admin/account", verifyAdminSession, ...)] *)
Definition account_handler : M unit :=
  try_catch
    (response <- fetch_key_info ;;
     check_ok response ;;
     data <- json response ;;
     d <- member data "data" ;;
     res_json
       (Object
          [("success", Bool true);
           ("account",
            Object
              [("label", or (get_optional d "label") (String_ "Unknown"));
               ("usage", or (get_optional d "usage") (Number Num.zero));
               ("limit", or (get_optional d "limit") (Number Num.zero));
               ("is_free_tier", or (get_optional d "is_free_tier") (Bool false));
               ("rate_limit", or (get_optional d "rate_limit") (Object []))])]))
    (fun error =>
       console_error [LogText "Admin Account Error:"; LogText (message error)] ;;
       respond 500 (Object [("success", Bool false);
                            ("error", String_ "Failed to fetch account info")])).

Definition admin_account : M unit := verifyAdminSession account_handler.

(** ** [app.get("/admin/usage", verifyAdminSession, ...)] *)
Definition usage_handler : M unit :=
  try_catch
    (response <- fetch_key_info ;;
     check_ok response ;;
     data <- json response ;;
     d <- member data "data" ;;
     let usage := or (get_optional d "usage") (Number Num.zero) in
     let limit := or (get_optional d "limit") (Number Num.zero) in
     (* [limit - usage] converts [limit], then [usage]; the operations
        that follow convert the same two values again *)
     require_primitive limit ;;
     require_primitive usage ;;
     let remaining := minus limit usage in
     let percentageUsed :=
       if greater limit Num.zero
       then String_ (Num.toFixed
                       (times (divide usage limit) (Num.of_Z 100)) 2)
       else Number Num.zero in
     res_json
       (Object
          [("success", Bool true);
           ("usage",
            Object
              [("used", usage);
               ("limit", limit);
               ("remaining", Number (Num.max Num.zero remaining));
               ("percentage_used", percentageUsed);
               ("currency", String_ "USD")])]))
    (fun error =>
       console_error [LogText "Admin Usage Error:"; LogText (message error)] ;;
       respond 500 (Object [("success", Bool false);
                            ("error", String_ "Failed to fetch usage info")])).

Definition admin_usage : M unit := verifyAdminSession usage_handler.

(** ** Vocabulary of the statements *)

(** The token [/admin/login] makes for a user name at a clock reading:
    [Buffer.from(`${username}:${Date.now()}`).toString("base64")]. *)
Definition issue (username : string) (t : Z) : string :=
  Buffer.toString_base64
    (Buffer.from_utf8 (username ++ ":" ++ Str.of_Z t)%string).

(** What the verifier makes of a token before it looks at the parts:
    [Buffer.from(token, "base64").toString().split(":")]. *)
Definition decoded (token : string) : list string :=
  Str.split ":" (Buffer.toString (Buffer.from_base64 token)).

(** The test the verifier applies to the parts of a decoded token when
    the clock reads [t]:
    [username === process.env.ADMIN_USERNAME && tokenAge < maxAge]. *)
Definition admits (adm : option string) (t : Z) (parts : list string) : bool :=
  strict_eq (of_option (nth_error parts 0)) adm
  && Num.ltb
       (Num.sub (Num.of_Z t)
          (parseInt (ToString (of_option (nth_error parts 1)))))
       maxAge.



(** [Date.now() - parseInt(timestamp) < maxAge] for a clock reading and
    a timestamp that are the integers [t] and [issued]. *)
Definition age_test (t issued : Z) : bool :=
  Num.ltb (Num.sub (Num.of_Z t) (Num.of_Z issued)) maxAge.

(** The bodies of the three refusals of the verifier. *)
Definition no_session : value :=
  Object [("error", String_ "No valid session token")].
Definition expired_session : value :=
  Object [("error", String_ "Invalid or expired session")].
Definition invalid_token : value :=
  Object [("error", String_ "Invalid session token")].

End Server.

(* ================================================================== *)
(** * Sample configuration, requests and upstream answers *)
(* ================================================================== *)

Module Demo.

Import JS Express Server.

Definition env : Env :=
  {| FRONTEND_API_KEY := Some "frontend-secret";
     API_URL := Some "https://openrouter.ai/api/v1/chat/completions";
     OPENROUTER_API_KEY := Some "sk-or-v1-0000";
     MODEL := Some "openrouter/auto";
     ADMIN_USERNAME := Some "admin";
     ADMIN_PASSWORD := Some "correct horse" |}.

(** A world whose clock reads [t] and whose provider answers every call
    with [answer]. *)
Definition world (t : Z) (answer : FetchResult) : World :=
  {| now := t; upstream := fun _ => answer |}.

Definition answers (code : Z) (v : value) : FetchResult :=
  Resolved {| response_status := code; response_json := Return v |}.

Definition completion : value :=
  Object
    [("id", String_ "gen-1");
     ("choices",
      Array
        [Object
           [("message",
             Object [("role", String_ "assistant");
                     ("content", String_ "Noted.")])]])].

Definition messages : value :=
  Array [Object [("role", String_ "user");
                 ("content", String_ "Dear diary")]].

(** A chat request with the right key that sets [temperature] to [0.2]
    and leaves [top_p] out. *)
Definition chat : Request :=
  {| headers := [("content-type", "application/json");
                 ("x-api-key", "frontend-secret")];
     body := Object [("messages", messages);
                     ("temperature", Number (Num.of_ratio 2 10))] |}.

Definition chat_wrong_key : Request :=
  {| headers := [("x-api-key", "guess")]; body := body chat |}.

Definition login : Request :=
  {| headers := [("content-type", "application/json")];
     body := Object [("username", String_ "admin");
                     ("password", String_ "correct horse")] |}.

Definition login_wrong_password : Request :=
  {| headers := [("content-type", "application/json")];
     body := Object [("username", String_ "admin");
                     ("password", String_ "guess")] |}.

(** An admin request that presents [token]. *)
Definition admin (token : string) : Request :=
  {| headers := [("authorization", ("Bearer " ++ token)%string)];
     body := Object [] |}.

(** 1 January 2025, 00:00:00 UTC, in milliseconds. *)
Definition new_year : Z := 1735689600000.

Definition key_info (usage limit : Z) : value :=
  Object
    [("data",
      Object [("label", String_ "sk-or-v1-000...000");
              ("usage", Number (Num.of_Z usage));
              ("limit", Number (Num.of_Z limit));
              ("is_free_tier", Bool false);
              ("rate_limit",
               Object [("requests", Number (Num.of_Z 200));
                       ("interval", String_ "10s")])])].


End Demo.

(* ================================================================== *)
(** * Outcomes of the handlers *)
(* ================================================================== *)

(** The vocabulary for what a handler leaves behind: the bodies it
    sends, the calls it makes, the lines it logs. *)
Module Outcome.

Import JS Express Server.

Definition unauthorized : value :=
  Object [("error", String_ "Unauthorized")].

Definition internal_error : value :=
  Object [("error", String_ "Internal server error")].

Definition invalid_credentials : value :=
  Object [("success", Bool false); ("error", String_ "Invalid credentials")].

(** [{ success: false, error: what }] *)
Definition failed (what : string) : value :=
  Object [("success", Bool false); ("error", String_ what)].

(** [{ success: true, token, message: "Login successful" }] *)
Definition logged_in (token : string) : value :=
  Object [("success", Bool true);
          ("token", String_ token);
          ("message", String_ "Login successful")].

(** The test of the relay on the [x-api-key] header:
    [!(!authHeader || authHeader !== process.env.FRONTEND_API_KEY)]. *)
Definition key_accepted (e : Env) (r : Request) : bool :=
  let authHeader := of_option (assoc "x-api-key" (headers r)) in
  negb (negb (truthy authHeader)
        || negb (strict_eq authHeader (FRONTEND_API_KEY e))).

(** The call the relay makes for the body [b]. *)
Definition chat_call (e : Env) (b : value) : FetchRequest :=
  {| url := API_URL e;
     method := "POST";
     request_headers := upstream_headers (OPENROUTER_API_KEY e);
     request_body :=
       Some (JSON_stringify
               (Object
                  [("model", of_option (MODEL e));
                   ("messages", get b "messages");
                   ("temperature",
                    default (get b "temperature") (Number (Num.of_ratio 8 10)));
                   ("top_p",
                    default (get b "top_p") (Number (Num.of_Z 1)))])) |}.

(** The body [b] supplies the property [k] with the value [x]: [b] is
    an object, and [x] is what its first property of that name holds. *)
Definition supplied (b : value) (k : string) (x : value) : Prop :=
  exists before after,
    b = Object (before ++ (k, x) :: after) /\ ~ In k (map fst before).

(** The body [b] omits the property [k]: no property of [b] has that
    name. *)
Definition omitted (b : value) (k : string) : Prop :=
  forall props, b = Object props -> ~ In k (map fst props).

(** The line the relay logs at the clock reading [t] for [error]. *)
Definition chat_log_line (t : Z) (error : Error) : list LogArg :=
  [LogText "API Proxy Error (no user data logged):";
   LogRecord
     [("timestamp", LogISODate t);
      ("error", LogValue (String_ (message error)));
      ("status", LogValue (or (status error) (String_ "unknown")))]].

(** What [await fetch(...)], the test of [response.ok] and
    [await response.json()] yield together: the parsed body, or the
    error that reaches the [catch] clause. *)
Definition upstream_json (w : World) (call : FetchRequest) : result value :=
  match upstream w call with
  | Rejected err => Throw err
  | Resolved resp =>
      if ok resp then response_json resp
      else Throw (new_Error ("OpenRouter API error: "
                             ++ Str.of_Z (response_status resp)))
  end.

(** The same followed by [data.data], for the two admin readers. *)
Definition key_info_data (e : Env) (w : World) : result value :=
  match upstream_json w (key_info_request (OPENROUTER_API_KEY e)) with
  | Throw err => Throw err
  | Return data =>
      if object_coercible data then Return (get data "data")
      else Throw (new_Error ("Cannot read properties of " ++ ToString data
                             ++ " (reading 'data')"))
  end.

(** The same for the usage reader, whose arithmetic converts the usage
    and the limit to numbers: [data.data], or the error of the
    conversion. *)
Definition usage_data (e : Env) (w : World) : result value :=
  match key_info_data e w with
  | Throw err => Throw err
  | Return d =>
      if converts (or (get_optional d "limit") (Number Num.zero))
         && converts (or (get_optional d "usage") (Number Num.zero))
      then Return d
      else Throw (new_Error "Cannot convert object to primitive value")
  end.

(** The summary the usage reader makes of [data.data]. *)
Definition usage_summary (d : value) : value :=
  let usage := or (get_optional d "usage") (Number Num.zero) in
  let limit := or (get_optional d "limit") (Number Num.zero) in
  Object
    [("used", usage);
     ("limit", limit);
     ("remaining", Number (Num.max Num.zero (minus limit usage)));
     ("percentage_used",
      if greater limit Num.zero
      then String_ (Num.toFixed (times (divide usage limit) (Num.of_Z 100)) 2)
      else Number Num.zero);
     ("currency", String_ "USD")].

(** A request that sends one response and nothing else. *)
Definition answered (code : Z) (v : value) (calls : list FetchRequest)
    (lines : list (list LogArg)) : Effects :=
  {| statusCode := code; sent := Some v; fetched := calls;
     console := lines; escaped := [] |}.

End Outcome.

(* ================================================================== *)
(** * Rounding to hundredths, in words *)
(* ================================================================== *)

(** What "rounded to 2 decimals" says, written over the integers and
    apart from [Number.prototype.toFixed]: the number of hundredths
    nearest to a magnitude, and the text of a number of hundredths. *)
Module Hundredths.

(** [n] hundredths are nearest to the magnitude [m * 2^e]: they are at
    most half a hundredth away, and the larger of the two when two
    are. *)
Definition nearest (m : positive) (e : Z) (n : Z) : Prop :=
  (2 * n - 1) * 2 ^ Z.max (- e) 0
  <= 200 * (Zpos m * 2 ^ Z.max e 0)
  < (2 * n + 1) * 2 ^ Z.max (- e) 0.

(** The magnitude [m * 2^e] is below [10^21]. *)
Definition below_1e21 (m : positive) (e : Z) : bool :=
  Zpos m * 2 ^ Z.max e 0 <? 10 ^ 21 * 2 ^ Z.max (- e) 0.

(** The text of [n] hundredths: the integer part, a point, and two
    digits. *)
Definition text (n : Z) : string :=
  (Str.of_Z (n / 100) ++ "."
   ++ String (Str.digit_char (Z.to_N (n / 10 mod 10)))
        (String (Str.digit_char (Z.to_N (n mod 10))) EmptyString))%string.

End Hundredths.

(* ================================================================== *)
(** * The admin dashboard: the script of the page served at [/admin] *)
(* ================================================================== *)

(** The script of the page, function by function, over the parts of the
    browser it touches: the variable [authToken], the item [adminToken]
    of [localStorage], six elements of the document, and [fetch]. *)
Module Page.

Import JS Express.

(** The two characters that a string literal here cannot hold. *)
Definition dq : string := String "034" EmptyString.
Definition nl : string := String "010" EmptyString.

(** ** The document *)

(** [element.classList.add(c)] and [element.classList.remove(c)] *)
Definition classList_add (c : string) (l : list string) : list string :=
  if existsb (String.eqb c) l then l else l ++ [c].

Definition classList_remove (c : string) (l : list string) : list string :=
  filter (fun x => negb (String.eqb x c)) l.

(** The elements the script looks up by [id], each by the one property
    the script uses: the class list of the two panels, the [value] of the
    two inputs, the [textContent] of the error line and the markup
    assigned to [innerHTML] of the account card. *)
Record Document := {
  loginForm : list string;
  dashboard : list string;
  username : string;
  password : string;
  loginError : string;
  accountInfo : string
}.

(** What one tab holds: the variable of the script, the item of
    [localStorage], the document, and the calls of [fetch] it has
    made. *)
Record Tab := {
  authToken : value;
  adminToken : option string;
  document : Document;
  requests : list FetchRequest
}.

(** The markup of the account card in the page as served. *)
Definition initial_card : string :=
  nl ++
  "                <p>Click " ++ dq ++ "Refresh Account Info" ++ dq ++
  " to load your OpenRouter account details.</p>" ++ nl ++
  "            ".

(** The page as served, in a browser whose [localStorage] holds
    [stored]; the variable is yet to be initialised. *)
Definition opened (stored : option string) : Tab :=
  {| authToken := Undefined;
     adminToken := stored;
     document :=
       {| loginForm := ["login-form"];
          dashboard := ["dashboard"; "hidden"];
          username := EmptyString;
          password := EmptyString;
          loginError := EmptyString;
          accountInfo := initial_card |};
     requests := [] |}.

(** ** The script monad: the state of the tab, exceptions, and the
    network that answers [fetch] *)

Definition Net : Type := FetchRequest -> FetchResult.

Definition Script (A : Type) : Type := Net -> Tab -> result A * Tab.

Definition pure {A} (a : A) : Script A := fun _ tab => (Return a, tab).

Definition and_then {A B} (m : Script A) (k : A -> Script B) : Script B :=
  fun net tab =>
    match m net tab with
    | (Return a, tab') => k a net tab'
    | (Throw e, tab') => (Throw e, tab')
    end.

Definition raise {A} (e : Error) : Script A := fun _ tab => (Throw e, tab).

(** [try { body } catch (error) { handler }] *)
Definition attempt {A} (body : Script A) (handler : Error -> Script A)
  : Script A :=
  fun net tab =>
    match body net tab with
    | (Return a, tab') => (Return a, tab')
    | (Throw e, tab') => handler e net tab'
    end.

Declare Scope script_scope.
Delimit Scope script_scope with script.
Notation "x <- m ;; k" := (and_then m (fun x => k))
  (at level 61, m at next level, right associativity) : script_scope.
Notation "m ;; k" := (and_then m (fun _ => k))
  (at level 61, right associativity) : script_scope.
Local Open Scope script_scope.

Definition get_tab : Script Tab := fun _ tab => (Return tab, tab).

(** [authToken = v] *)
Definition set_authToken (v : value) : Script unit :=
  fun _ tab =>
    (Return tt,
     {| authToken := v; adminToken := adminToken tab;
        document := document tab; requests := requests tab |}).

(** [localStorage.getItem('adminToken')]: the string, or [null]. *)
Definition localStorage_getItem : Script value :=
  tab <- get_tab ;;
  pure (match adminToken tab with Some s => String_ s | None => Null end).

(** The conversion of [v] to a string or a number, where it is all
    that can fail: a [TypeError] for the values that [converts]
    refuses. *)
Definition to_primitive (v : value) : Script unit :=
  if converts v then pure tt
  else raise (new_Error "Cannot convert object to primitive value").

(** [localStorage.setItem('adminToken', v)] stores the string of [v],
    when [v] has one. *)
Definition localStorage_setItem (v : value) : Script unit :=
  fun net tab =>
    match to_primitive v net tab with
    | (Return _, _) =>
        (Return tt,
         {| authToken := authToken tab; adminToken := Some (ToString v);
            document := document tab; requests := requests tab |})
    | (Throw e, tab') => (Throw e, tab')
    end.

(** [localStorage.removeItem('adminToken')] *)
Definition localStorage_removeItem : Script unit :=
  fun _ tab =>
    (Return tt,
     {| authToken := authToken tab; adminToken := None;
        document := document tab; requests := requests tab |}).

Definition update (f : Document -> Document) : Script unit :=
  fun _ tab =>
    (Return tt,
     {| authToken := authToken tab; adminToken := adminToken tab;
        document := f (document tab); requests := requests tab |}).

Definition on_loginForm (f : list string -> list string) (d : Document)
  : Document :=
  {| loginForm := f (loginForm d); dashboard := dashboard d;
     username := username d; password := password d;
     loginError := loginError d; accountInfo := accountInfo d |}.

Definition on_dashboard (f : list string -> list string) (d : Document)
  : Document :=
  {| loginForm := loginForm d; dashboard := f (dashboard d);
     username := username d; password := password d;
     loginError := loginError d; accountInfo := accountInfo d |}.

Definition with_username (s : string) (d : Document) : Document :=
  {| loginForm := loginForm d; dashboard := dashboard d;
     username := s; password := password d;
     loginError := loginError d; accountInfo := accountInfo d |}.

Definition with_password (s : string) (d : Document) : Document :=
  {| loginForm := loginForm d; dashboard := dashboard d;
     username := username d; password := s;
     loginError := loginError d; accountInfo := accountInfo d |}.

Definition with_loginError (s : string) (d : Document) : Document :=
  {| loginForm := loginForm d; dashboard := dashboard d;
     username := username d; password := password d;
     loginError := s; accountInfo := accountInfo d |}.

Definition with_accountInfo (s : string) (d : Document) : Document :=
  {| loginForm := loginForm d; dashboard := dashboard d;
     username := username d; password := password d;
     loginError := loginError d; accountInfo := s |}.

(** The string a value becomes when it is assigned to [textContent]:
    [null] and [undefined] are the empty string. *)
Definition text_of (v : value) : string :=
  match v with
  | Undefined | Null => EmptyString
  | _ => ToString v
  end.

(** [await fetch(url, options)] *)
Definition fetch (q : FetchRequest) : Script FetchResponse :=
  fun net tab =>
    let tab' :=
      {| authToken := authToken tab; adminToken := adminToken tab;
         document := document tab; requests := requests tab ++ [q] |} in
    match net q with
    | Rejected e => (Throw e, tab')
    | Resolved r => (Return r, tab')
    end.

(** [await Promise.all([fetch(...), fetch(...)])]: both calls are made;
    the whole is rejected when one of them is. *)
Definition fetch_both (q1 q2 : FetchRequest)
  : Script (FetchResponse * FetchResponse) :=
  fun net tab =>
    let tab' :=
      {| authToken := authToken tab; adminToken := adminToken tab;
         document := document tab; requests := requests tab ++ [q1; q2] |} in
    match net q1, net q2 with
    | Resolved r1, Resolved r2 => (Return (r1, r2), tab')
    | Rejected e, _ => (Throw e, tab')
    | _, Rejected e => (Throw e, tab')
    end.

(** [await response.json()] *)
Definition json (r : FetchResponse) : Script value :=
  match response_json r with
  | Return v => pure v
  | Throw e => raise e
  end.

(** [v.k] *)
Definition prop (v : value) (k : string) : Script value :=
  if object_coercible v then pure (get v k)
  else raise (new_Error ("Cannot read properties of " ++ ToString v
                         ++ " (reading '" ++ k ++ "')"))%string.

(** [v.toFixed(digits)]: only a number has the method. *)
Definition call_toFixed (v : value) (name : string) (digits : nat)
  : Script string :=
  match v with
  | Number x => pure (Num.toFixed x digits)
  | Undefined | Null =>
      raise (new_Error ("Cannot read properties of " ++ ToString v
                        ++ " (reading 'toFixed')"))%string
  | _ => raise (new_Error (name ++ ".toFixed is not a function"))%string
  end.

(** ** The functions of the script *)

(** [function showDashboard()] *)
Definition showDashboard : Script unit :=
  update (on_loginForm (classList_add "hidden")) ;;
  update (on_dashboard (classList_remove "hidden")).

(** [function logout()] *)
Definition logout : Script unit :=
  localStorage_removeItem ;;
  set_authToken Null ;;
  update (on_loginForm (classList_remove "hidden")) ;;
  update (on_dashboard (classList_add "hidden")) ;;
  update (with_username EmptyString) ;;
  update (with_password EmptyString) ;;
  update (with_loginError EmptyString).

(** The template literal of the account card, with its eight
    substitutions. *)
Definition details
    (label account_type used limit remaining percentage colour : string)
  : string :=
  ((nl ++
   "                            <h4>Account Details</h4>" ++ nl ++
   "                            <p><strong>Label:</strong> ")
   ++ label
   ++ ("</p>" ++ nl ++
   "                            <p><strong>Account Type:</strong> ")
   ++ account_type
   ++ ("</p>" ++ nl ++
   "                            " ++ nl ++
   "                            <h4>Usage Information</h4>" ++ nl ++
   "                            <p><strong>Used:</strong> $")
   ++ used
   ++ ("</p>" ++ nl ++
   "                            <p><strong>Limit:</strong> $")
   ++ limit
   ++ ("</p>" ++ nl ++
   "                            <p><strong>Remaining:</strong> $")
   ++ remaining
   ++ ("</p>" ++ nl ++
   "                            <p><strong>Usage:</strong> ")
   ++ percentage
   ++ ("%</p>" ++ nl ++
   "                            " ++ nl ++
   "                            <div style=" ++ dq ++
   "background: #e9ecef; border-radius: 4px; height: 20px; margin: 10px 0;" ++
   dq ++ ">" ++ nl ++
   "                                <div style=" ++ dq ++ "background: ")
   ++ colour
   ++ ("; height: 100%; border-radius: 4px; width: ")
   ++ percentage
   ++ ("%;" ++ dq ++ "></div>" ++ nl ++
   "                            </div>" ++ nl ++
   "                        "))%string.

Definition failed_card : string :=
  "<p style=" ++ dq ++ "color: red;" ++ dq ++
  ">Failed to load account info</p>".

Definition error_card : string :=
  "<p style=" ++ dq ++ "color: red;" ++ dq ++
  ">Error loading account info</p>".

(** The substitutions, evaluated and converted from left to right. *)
Definition account_details (account usage : value) : Script string :=
  label <- prop account "label" ;;
  to_primitive label ;;
  is_free_tier <- prop account "is_free_tier" ;;
  used <- prop usage "used" ;;
  used_text <- call_toFixed used "usage.used" 4 ;;
  limit <- prop usage "limit" ;;
  limit_text <- call_toFixed limit "usage.limit" 2 ;;
  remaining <- prop usage "remaining" ;;
  remaining_text <- call_toFixed remaining "usage.remaining" 4 ;;
  percentage_used <- prop usage "percentage_used" ;;
  to_primitive percentage_used ;;
  pure (details (ToString label)
          (if truthy is_free_tier then "Free Tier" else "Paid")
          used_text limit_text remaining_text
          (ToString percentage_used)
          (if greater percentage_used (Num.of_Z 80)
           then "#dc3545" else "#007bff")).

(** The request [fetch(path, { headers: { 'Authorization': 'Bearer ' + authToken } })] *)
Definition admin_request (path : string) (token : value) : FetchRequest :=
  {| url := Some path;
     method := "GET";
     request_headers := [("Authorization", "Bearer " ++ ToString token)%string];
     request_body := None |}.

(** [async function loadAccountInfo()] *)
Definition loadAccountInfo : Script unit :=
  attempt
    (tab <- get_tab ;;
     (* ['Bearer ' + authToken], before the first call of [fetch] *)
     to_primitive (authToken tab) ;;
     responses <-
       fetch_both (admin_request "/admin/account" (authToken tab))
                  (admin_request "/admin/usage" (authToken tab)) ;;
     accountData <- json (fst responses) ;;
     usageData <- json (snd responses) ;;
     account_success <- prop accountData "success" ;;
     both <-
       (if truthy account_success then prop usageData "success"
        else pure account_success) ;;
     if truthy both
     then
       account <- prop accountData "account" ;;
       usage <- prop usageData "usage" ;;
       html <- account_details account usage ;;
       update (with_accountInfo html)
     else update (with_accountInfo failed_card))
    (fun error => update (with_accountInfo error_card)).

(** The request of [login()] for the two values typed. *)
Definition login_request (u p : string) : FetchRequest :=
  {| url := Some "/admin/login";
     method := "POST";
     request_headers := [("Content-Type", "application/json")];
     request_body :=
       Some (JSON_stringify
               (Object [("username", String_ u); ("password", String_ p)])) |}.

(** [async function login()] *)
Definition login : Script unit :=
  tab <- get_tab ;;
  let u := username (document tab) in
  let p := password (document tab) in
  attempt
    (response <- fetch (login_request u p) ;;
     data <- json response ;;
     success <- prop data "success" ;;
     if truthy success
     then
       token <- prop data "token" ;;
       set_authToken token ;;
       localStorage_setItem token ;;
       showDashboard ;;
       loadAccountInfo
     else
       error <- prop data "error" ;;
       to_primitive error ;;
       update (with_loginError (text_of error)))
    (fun error => update (with_loginError "Login failed")).

(** The statements of the script that run when the page is loaded. *)
Definition script : Script unit :=
  stored <- localStorage_getItem ;;
  set_authToken stored ;;
  if truthy stored
  then showDashboard ;; loadAccountInfo
  else pure tt.

(** ** Vocabulary of the statements *)

(** The tab once the user has typed [u] and [p] into the two inputs. *)
Definition typed (u p : string) (tab : Tab) : Tab :=
  {| authToken := authToken tab;
     adminToken := adminToken tab;
     document := with_password p (with_username u (document tab));
     requests := requests tab |}.

(** The tab after [loadAccountInfo] has put [html] in the account
    card. *)
Definition loaded (tab : Tab) (html : string) : Tab :=
  {| authToken := authToken tab;
     adminToken := adminToken tab;
     document := with_accountInfo html (document tab);
     requests :=
       requests tab ++ [admin_request "/admin/account" (authToken tab);
                        admin_request "/admin/usage" (authToken tab)] |}.

(** The tab after [loadAccountInfo] has put the error card without a
    request. *)
Definition unsent (tab : Tab) : Tab :=
  {| authToken := authToken tab;
     adminToken := adminToken tab;
     document := with_accountInfo error_card (document tab);
     requests := requests tab |}.

(** An element is hidden when its class list holds ["hidden"]. *)
Definition hidden (classes : list string) : bool :=
  existsb (String.eqb "hidden") classes.

End Page.

(* ================================================================== *)
(** * The server as the page reaches it *)
(* ================================================================== *)

(** What lies between a [fetch] of the page and a handler: Node gives
    the handler the header names in lower case, [express.json()] gives it
    the parsed body, [res.json] sends the JSON text of a value, and
    [response.json()] parses that text. *)
Module Site.

Import JS Express Server.

Definition lower_char (c : ascii) : ascii :=
  if Str.in_range 65 90 c then ascii_of_N (Str.code c + 32) else c.

Fixpoint lower (s : string) : string :=
  match s with
  | EmptyString => EmptyString
  | String c t => String (lower_char c) (lower t)
  end.

(** [JSON.parse(JSON.stringify(v))] for a value inside a document: a
    property that is [undefined] is left out, an element that is
    [undefined] becomes [null], and so does a number that is not finite;
    the two zeros become one. *)
Fixpoint through_json (v : value) : value :=
  match v with
  | Undefined | Null => Null
  | Bool b => Bool b
  | Number (S754_finite s m e) => Number (S754_finite s m e)
  | Number (S754_zero _) => Number Num.zero
  | Number _ => Null
  | String_ s => String_ s
  | Array l => Array (map through_json l)
  | Object props =>
      Object
        ((fix properties (ps : list (string * value)) :=
            match ps with
            | [] => []
            | (k, Undefined) :: r => properties r
            | (k, x) :: r => (k, through_json x) :: properties r
            end) props)
  end.

(** The properties of an object after the round trip. *)
Definition json_properties (props : list (string * value))
  : list (string * value) :=
  match through_json (Object props) with
  | Object ps => ps
  | _ => []
  end.

(** The request a handler sees for a [fetch] of the page.  Without a
    body [express.json()] leaves an empty object. *)
Definition received (q : FetchRequest) : Request :=
  {| headers := map (fun h => (lower (fst h), snd h)) (request_headers q);
     body := match request_body q with
             | Some (JSON_stringify v) => through_json v
             | None => Object []
             end |}.

(** The response the page gets from what a handler did.  When the
    handler sent nothing Express answers with a page of its own, which
    is not JSON. *)
Definition answer (fx : Effects) : FetchResult :=
  match sent fx with
  | Some Undefined =>
      Resolved {| response_status := statusCode fx;
                  response_json :=
                    Throw (new_Error "Unexpected end of JSON input") |}
  | Some v =>
      Resolved {| response_status := statusCode fx;
                  response_json := Return (through_json v) |}
  | None =>
      Resolved {| response_status := 500;
                  response_json :=
                    Throw (new_Error "Unexpected token '<'") |}
  end.

(** The worlds in which the three requests of a visit are served. *)
Record Visit := {
  at_login : World;
  at_account : World;
  at_usage : World
}.

(** The routes the page calls:
    [app.post("/admin/login", ...)],
    [app.get("/admin/account", verifyAdminSession, ...)] and
    [app.get("/admin/usage", verifyAdminSession, ...)]. *)
Definition site (e : Env) (v : Visit) : Page.Net :=
  fun q =>
    match url q with
    | Some path =>
        if String.eqb (method q) "POST" && String.eqb path "/admin/login"
        then answer (serve admin_login e (at_login v) (received q))
        else if String.eqb (method q) "GET"
                && String.eqb path "/admin/account"
        then answer (serve admin_account e (at_account v) (received q))
        else if String.eqb (method q) "GET" && String.eqb path "/admin/usage"
        then answer (serve admin_usage e (at_usage v) (received q))
        else Resolved {| response_status := 404;
                         response_json :=
                           Throw (new_Error "Unexpected token '<'") |}
    | None => Rejected (new_Error "Failed to parse URL")
    end.

End Site.

(* ================================================================== *)
(** * The runtime model on known values *)
(* ================================================================== *)

Module RuntimeChecks.

Import Num JS.

(** Numeric literals and [Number::toString]. *)
Example literal_0_8 : StringToNumber "0.8" = of_ratio 8 10.
Proof. reflexivity. Qed.

Example toString_0_8 : Num.toString (of_ratio 8 10) = "0.8".
Proof. now vm_compute. Qed.

Example toString_sum :
  Num.toString (add (of_ratio 1 10) (of_ratio 2 10)) = "0.30000000000000004".
Proof. now vm_compute. Qed.

Example toString_large : Num.toString (Num.of_Z (10 ^ 21)) = "1e+21".
Proof. now vm_compute. Qed.

(** [toFixed] rounds the binary value: [(1.005).toFixed(2)] is ["1.00"]. *)
Example toFixed_1_005 : toFixed (of_ratio 1005 1000) 2 = "1.00".
Proof. now vm_compute. Qed.

Example toFixed_negative_small : toFixed (S754_finite true 1 (-1074)) 2 = "-0.00".
Proof. now vm_compute. Qed.

Example toFixed_huge : toFixed (Num.of_Z (10 ^ 21)) 2 = "1e+21".
Proof. now vm_compute. Qed.

(** [parseInt] reads a prefix, a sign and a hexadecimal prefix. *)
Example parseInt_prefix : parseInt "  -12px" = Num.of_Z (-12).
Proof. reflexivity. Qed.

Example parseInt_hex : parseInt "0x1F" = Num.of_Z 31.
Proof. reflexivity. Qed.

Example parseInt_negative_zero : parseInt "-0" = S754_zero true.
Proof. reflexivity. Qed.

Example parseInt_undefined : parseInt (ToString Undefined) = NaN.
Proof. reflexivity. Qed.

Example parseInt_rounds :
  parseInt "9007199254740993" = Num.of_Z 9007199254740992.
Proof. reflexivity. Qed.

(** The codecs. *)
Example base64_of_token :
  Buffer.toString_base64 "admin:1735689600000" = "YWRtaW46MTczNTY4OTYwMDAwMA==".
Proof. reflexivity. Qed.

Example base64_stops_at_padding : Buffer.from_base64 "YQ==YQ==" = "a".
Proof. reflexivity. Qed.

Example base64_skips_illegal : Buffer.from_base64 "Y!W*Jj" = "abc".
Proof. reflexivity. Qed.

Example utf8_replaces_ill_formed :
  Buffer.toString (String (Buffer.byte 255) "a:1")
  = (Buffer.replacement ++ "a:1")%string.
Proof. reflexivity. Qed.

(** The age test [Date.now() - parseInt(timestamp) < maxAge] at the
    boundary and far from it. *)
Example maxAge_value : Server.maxAge = Num.of_Z 86400000.
Proof. reflexivity. Qed.

Example age_test_at_24h :
  Server.age_test 1735689600000 (1735689600000 - 86400000) = false.
Proof. now vm_compute. Qed.

Example age_test_below_24h :
  Server.age_test 1735689600000 (1735689600000 - 86399999) = true.
Proof. now vm_compute. Qed.

Example age_test_far_future :
  Server.age_test 1735689600000 (10 ^ 400) = true.
Proof. now vm_compute. Qed.

Example age_test_far_past :
  Server.age_test 1735689600000 (- 10 ^ 400) = false.
Proof. now vm_compute. Qed.

(** The text of an integer below [2^53] is what the search for the
    shortest digits finds. *)
Example clock_text :
  Num.toString (Num.of_Z 1735689600000) = "1735689600000"
  /\ toString_by_search (Num.of_Z 1735689600000) = "1735689600000".
Proof. now vm_compute. Qed.

Example integer_texts :
  List.map (fun z => Num.toString (Num.of_Z z))
    [-1200; 100; 9007199254740000; 2 ^ 53 - 1; 2 ^ 53]
  = List.map (fun z => toString_by_search (Num.of_Z z))
      [-1200; 100; 9007199254740000; 2 ^ 53 - 1; 2 ^ 53].
Proof. now vm_compute. Qed.

End RuntimeChecks.

(* ================================================================== *)
(** * Facts about binary64 arithmetic on integers *)
(* ================================================================== *)

Module Binary64Facts.

Import Num.

Ltac fold_digits :=
  repeat match goal with
         | |- context [Zpos (digits2_pos ?p)] =>
             change (Zpos (digits2_pos p)) with (digits p)
         end.

Lemma digits_pos (p : positive) : 1 <= digits p.
Proof. unfold digits. lia. Qed.

Lemma digits_bounds (p : positive) :
  2 ^ (digits p - 1) <= Zpos p < 2 ^ digits p.
Proof.
  unfold digits. induction p as [p IH|p IH|]; cbn [digits2_pos].
  - rewrite Pos2Z.inj_succ, Z.pow_succ_r by lia.
    replace (Z.succ (Zpos (digits2_pos p)) - 1)
      with (Z.succ (Zpos (digits2_pos p) - 1)) by lia.
    rewrite Z.pow_succ_r by lia. lia.
  - rewrite Pos2Z.inj_succ, Z.pow_succ_r by lia.
    replace (Z.succ (Zpos (digits2_pos p)) - 1)
      with (Z.succ (Zpos (digits2_pos p) - 1)) by lia.
    rewrite Z.pow_succ_r by lia. lia.
  - cbn. lia.
Qed.

Lemma digits_unique (p : positive) (D : Z) :
  2 ^ (D - 1) <= Zpos p < 2 ^ D -> digits p = D.
Proof.
  intros [Hlo Hhi]. pose proof (digits_bounds p) as [Blo Bhi].
  pose proof (digits_pos p).
  destruct (Z.lt_trichotomy (digits p) D) as [H0|[H0|H0]]; trivial; exfalso.
  - assert (2 ^ digits p <= 2 ^ (D - 1)) by (apply Z.pow_le_mono_r; lia). lia.
  - assert (0 <= D \/ D < 0) as [HD|HD] by lia.
    + assert (2 ^ D <= 2 ^ (digits p - 1)) by (apply Z.pow_le_mono_r; lia). lia.
    + rewrite (Z.pow_neg_r 2 D) in Hhi by lia. lia.
Qed.

Lemma digits_small (z : positive) : Zpos z < 2 ^ 53 <-> digits z <= 53.
Proof.
  pose proof (digits_bounds z) as [Lo Hi]. pose proof (digits_pos z).
  split; intros H0.
  - destruct (Z_le_gt_dec (digits z) 53); trivial. exfalso.
    assert (2 ^ 53 <= 2 ^ (digits z - 1)) by (apply Z.pow_le_mono_r; lia). lia.
  - assert (2 ^ digits z <= 2 ^ 53) by (apply Z.pow_le_mono_r; lia). lia.
Qed.

Lemma digits_53 (m : positive) : 2 ^ 52 <= Zpos m < 2 ^ 53 -> digits m = 53.
Proof. intros H. now apply digits_unique. Qed.

(** ** Shifting a mantissa to the left *)

Lemma iter_xO (m k : positive) : Zpos (Pos.iter xO m k) = Zpos m * 2 ^ Zpos k.
Proof.
  induction k as [|k IH] using Pos.peano_ind.
  - cbn. lia.
  - rewrite Pos.iter_succ, Pos2Z.inj_xO, IH, Pos2Z.inj_succ, Z.pow_succ_r by lia.
    lia.
Qed.

Lemma shl_align_spec (m : positive) (e e' : Z) :
  e' <= e ->
  snd (shl_align m e e') = e'
  /\ Zpos (fst (shl_align m e e')) = Zpos m * 2 ^ (e - e').
Proof.
  intros H. unfold shl_align. destruct (e' - e) as [|k|k] eqn:E; cbn [fst snd].
  - replace (e - e') with 0 by lia. split; lia.
  - lia.
  - rewrite iter_xO. replace (e - e') with (Zpos k) by lia. split; lia.
Qed.

Lemma shl_align_keep (m : positive) (e e' : Z) :
  e <= e' -> shl_align m e e' = (m, e).
Proof.
  intros H. unfold shl_align. destruct (e' - e) as [|k|k] eqn:E; trivial. lia.
Qed.

Lemma digits_scaled (m m' : positive) (j : Z) :
  0 <= j -> Zpos m' = Zpos m * 2 ^ j -> digits m' = digits m + j.
Proof.
  intros Hj H. apply digits_unique. rewrite H.
  pose proof (digits_bounds m) as [Lo Hi]. pose proof (digits_pos m).
  replace (digits m + j - 1) with ((digits m - 1) + j) by lia.
  rewrite !Z.pow_add_r by lia.
  assert (0 < 2 ^ j) by (apply Z.pow_pos_nonneg; lia). nia.
Qed.

Lemma fexp_linear (x : Z) : -1021 <= x -> fexp prec emax x = x - 53.
Proof. intros H. unfold fexp, emin, prec, emax. lia. Qed.

(** ** Shifting a mantissa to the right *)

Lemma iter_pos_eq {A} (f : A -> A) (p : positive) (x : A) :
  iter_pos f p x = Pos.iter f x p.
Proof.
  revert x. induction p as [p IH|p IH|]; intros x; cbn [iter_pos Pos.iter].
  - now rewrite !IH, 2!Pos.iter_swap.
  - now rewrite !IH.
  - reflexivity.
Qed.

Lemma shr_1_m (mrs : shr_record) :
  0 <= shr_m mrs -> shr_m (shr_1 mrs) = shr_m mrs / 2.
Proof.
  destruct mrs as [m r s]. cbn [shr_m]. intros H.
  rewrite <- Z.div2_div.
  destruct m as [|[p|p|]|p]; try reflexivity. lia.
Qed.

Lemma shr_iter_m (k : positive) (mrs : shr_record) :
  0 <= shr_m mrs ->
  shr_m (iter_pos shr_1 k mrs) = shr_m mrs / 2 ^ Zpos k.
Proof.
  intros H. rewrite iter_pos_eq.
  induction k as [|k IH] using Pos.peano_ind.
  - cbn [Pos.iter]. now rewrite shr_1_m.
  - rewrite Pos.iter_succ, shr_1_m, IH.
    + rewrite Pos2Z.inj_succ, Z.pow_succ_r, Z.div_div by lia.
      f_equal. lia.
    + rewrite IH. apply Z.div_pos; [exact H|]. apply Z.pow_pos_nonneg; lia.
Qed.

Lemma shr_1_even (z : Z) :
  0 <= z ->
  shr_1 (Build_shr_record (2 * z) false false) = Build_shr_record z false false.
Proof. destruct z; try lia; reflexivity. Qed.

Lemma shr_iter_exact (k : positive) (q : Z) :
  0 <= q ->
  iter_pos shr_1 k (Build_shr_record (q * 2 ^ Zpos k) false false)
  = Build_shr_record q false false.
Proof.
  intros Hq. rewrite iter_pos_eq. revert q Hq.
  induction k as [|k IH] using Pos.peano_ind; intros q Hq.
  - cbn [Pos.iter]. replace (q * 2 ^ 1) with (2 * q) by lia.
    now apply shr_1_even.
  - rewrite Pos.iter_succ, Pos2Z.inj_succ, Z.pow_succ_r by lia.
    replace (q * (2 * 2 ^ Zpos k)) with ((2 * q) * 2 ^ Zpos k) by lia.
    rewrite IH by lia. now apply shr_1_even.
Qed.

(** What [shr_fexp] does to a positive mantissa in the normal range. *)
Lemma shr_fexp_spec (p : positive) (e : Z) (l : location) :
  -1021 <= digits p + e ->
  snd (shr_fexp prec emax (Zpos p) e l) = e + Z.max 0 (digits p - 53)
  /\ shr_m (fst (shr_fexp prec emax (Zpos p) e l))
     = Zpos p / 2 ^ Z.max 0 (digits p - 53).
Proof.
  intros H. unfold shr_fexp, Zdigits2. fold_digits.
  rewrite fexp_linear by exact H.
  replace (digits p + e - 53 - e) with (digits p - 53) by lia.
  unfold shr. destruct (digits p - 53) as [|k|k] eqn:E; cbn [fst snd].
  - rewrite Z.max_l by lia. split; [lia|].
    rewrite Z.div_1_r. now destruct l as [|[]].
  - rewrite Z.max_r by lia. split; [lia|].
    rewrite shr_iter_m; now destruct l as [|[]].
  - rewrite Z.max_l by lia. split; [lia|].
    rewrite Z.div_1_r. now destruct l as [|[]].
Qed.

Lemma shr_fexp_exact (p q : positive) (e j : Z) :
  -1021 <= digits p + e ->
  0 <= j ->
  digits q = 53 ->
  Zpos p = Zpos q * 2 ^ j ->
  shr_fexp prec emax (Zpos p) e loc_Exact
  = (Build_shr_record (Zpos q) false false, e + j).
Proof.
  intros H Hj Hq Hp.
  assert (digits p - 53 = j) as Hd.
  { rewrite (digits_scaled q p j Hj Hp). lia. }
  unfold shr_fexp, Zdigits2. fold_digits. rewrite fexp_linear by exact H.
  replace (digits p + e - 53 - e) with j by lia.
  unfold shr, shr_record_of_loc. destruct j as [|k|k]; try lia.
  - f_equal; [|lia]. f_equal. lia.
  - rewrite Hp. now rewrite shr_iter_exact by lia.
Qed.

(** ** Rounding *)

(** A 53-bit mantissa shifted to the left rounds to itself, or
    overflows. *)
Lemma binary_round_aux_exact (s : bool) (p q : positive) (e j : Z) :
  -1021 <= digits p + e ->
  0 <= j ->
  digits q = 53 ->
  Zpos p = Zpos q * 2 ^ j ->
  binary_round_aux prec emax s (Zpos p) e loc_Exact
  = if e + j <=? emax - prec then S754_finite s q (e + j) else S754_infinity s.
Proof.
  intros H Hj Hq Hp. unfold binary_round_aux.
  rewrite (shr_fexp_exact p q e j H Hj Hq Hp).
  cbn [shr_m loc_of_shr_record round_nearest_even].
  assert (Zpos q = Zpos q * 2 ^ 0) as Hq0 by lia.
  assert (-1021 <= digits q + (e + j)) as Hr.
  { rewrite (digits_scaled q p j Hj Hp) in H. lia. }
  rewrite (shr_fexp_exact q q (e + j) 0 Hr (Z.le_refl 0) Hq Hq0).
  cbn [shr_m]. now rewrite Z.add_0_r.
Qed.

Lemma quotient_bounds (p : positive) :
  53 <= digits p ->
  2 ^ 52 <= Zpos p / 2 ^ (digits p - 53) < 2 ^ 53.
Proof.
  intros H. pose proof (digits_bounds p) as [Lo Hi].
  assert (0 < 2 ^ (digits p - 53)) as Hpos by (apply Z.pow_pos_nonneg; lia).
  assert (2 ^ (digits p - 1) = 2 ^ 52 * 2 ^ (digits p - 53)) as E1
      by (rewrite <- Z.pow_add_r by lia; f_equal; lia).
  assert (2 ^ digits p = 2 ^ 53 * 2 ^ (digits p - 53)) as E2
      by (rewrite <- Z.pow_add_r by lia; f_equal; lia).
  rewrite E1 in Lo. rewrite E2 in Hi. split.
  - apply Z.div_le_lower_bound; lia.
  - apply Z.div_lt_upper_bound; lia.
Qed.

Lemma round_nearest_even_bounds (m : Z) (l : location) :
  m <= round_nearest_even m l <= m + 1.
Proof.
  destruct l as [|[]]; cbn [round_nearest_even]; try lia.
  destruct (Z.even m); lia.
Qed.

(** A mantissa of 53 bits or more rounds to a 53-bit mantissa with an
    exponent that is not smaller, or overflows. *)
Lemma binary_round_aux_big (s : bool) (p : positive) (e : Z) (l : location) :
  53 <= digits p ->
  -1021 <= digits p + e ->
  rounded s (e + (digits p - 53)) (binary_round_aux prec emax s (Zpos p) e l).
Proof.
  intros Hd He. unfold binary_round_aux.
  destruct (shr_fexp_spec p e l He) as [E1 M1].
  destruct (shr_fexp prec emax (Zpos p) e l) as [mrs' e']. cbn [fst snd] in E1, M1.
  rewrite Z.max_r in E1, M1 by lia.
  pose proof (quotient_bounds p Hd) as Hq. rewrite <- M1 in Hq.
  pose proof (round_nearest_even_bounds (shr_m mrs') (loc_of_shr_record mrs')) as Hr.
  destruct (round_nearest_even (shr_m mrs') (loc_of_shr_record mrs'))
    as [|p3|p3] eqn:E3; try lia.
  assert (53 <= digits p3) as Hd3.
  { pose proof (digits_bounds p3) as [_ Hi]. pose proof (digits_pos p3).
    destruct (Z_le_gt_dec 53 (digits p3)); trivial. exfalso.
    assert (2 ^ digits p3 <= 2 ^ 52) by (apply Z.pow_le_mono_r; lia). lia. }
  assert (-1021 <= digits p3 + e') as He3 by lia.
  destruct (shr_fexp_spec p3 e' loc_Exact He3) as [E2 M2].
  destruct (shr_fexp prec emax (Zpos p3) e' loc_Exact) as [mrs'' e''].
  cbn [fst snd] in E2, M2. rewrite Z.max_r in E2, M2 by lia.
  pose proof (quotient_bounds p3 Hd3) as Hq3. rewrite <- M2 in Hq3.
  destruct (shr_m mrs'') as [|m|m]; try lia.
  destruct (e'' <=? emax - prec); [right | now left].
  exists m, e''. repeat split; [now apply digits_53 | lia].
Qed.

(** Rounding [p * 2^e] when it is the integer [z] below [2^53]. *)
Lemma binary_round_small (s : bool) (p z : positive) (e : Z) :
  -60 <= e <= 0 ->
  digits z <= 53 ->
  Zpos p = Zpos z * 2 ^ (- e) ->
  small s z (binary_round prec emax s p e).
Proof.
  intros He Hz Hp. pose proof (digits_pos z) as Hz1.
  assert (digits p = digits z - e) as Hdp
      by (rewrite (digits_scaled z p (- e)); lia).
  assert (0 < Zpos z * 2 ^ (53 - digits z)) as Hpos.
  { apply Z.mul_pos_pos; [lia | apply Z.pow_pos_nonneg; lia]. }
  destruct (Zpos z * 2 ^ (53 - digits z)) as [|q|q] eqn:Eq; try lia.
  assert (digits q = 53) as Hq
      by (rewrite (digits_scaled z q (53 - digits z)); lia).
  exists q. rewrite Eq. split; [|reflexivity].
  unfold binary_round. fold_digits. rewrite Hdp, fexp_linear by lia.
  replace (digits z - e + e - 53) with (digits z - 53) by lia.
  destruct (Z_le_gt_dec (digits z - 53) e) as [Hle|Hgt].
  - destruct (shl_align_spec p e (digits z - 53) Hle) as [Hs Hm].
    destruct (shl_align p e (digits z - 53)) as [mz ez]. cbn [fst snd] in Hs, Hm.
    subst ez.
    assert (Zpos mz = Zpos q) as Hmq.
    { rewrite Hm, Hp, <- Eq, <- Z.mul_assoc, <- Z.pow_add_r by lia.
      f_equal. f_equal. lia. }
    injection Hmq as ->.
    rewrite (binary_round_aux_exact s q q (digits z - 53) 0) by lia.
    rewrite Z.add_0_r.
    assert ((digits z - 53 <=? emax - prec) = true) as ->; [|reflexivity].
    apply Z.leb_le. unfold emax, prec. lia.
  - rewrite shl_align_keep by lia.
    rewrite (binary_round_aux_exact s p q e (digits z - 53 - e)); try lia.
    + replace (e + (digits z - 53 - e)) with (digits z - 53) by lia.
      assert ((digits z - 53 <=? emax - prec) = true) as ->; [|reflexivity].
      apply Z.leb_le. unfold emax, prec. lia.
    + rewrite Hp, <- Eq, <- Z.mul_assoc, <- Z.pow_add_r by lia.
      f_equal. f_equal. lia.
Qed.

(** Rounding a value at or above [2^53]. *)
Lemma binary_round_big (s : bool) (p : positive) (e : Z) :
  -60 <= e ->
  54 <= digits p + e ->
  rounded s 1 (binary_round prec emax s p e).
Proof.
  intros He Hd. unfold binary_round. fold_digits. rewrite fexp_linear by lia.
  destruct (Z_le_gt_dec (digits p + e - 53) e) as [Hle|Hgt].
  - destruct (shl_align_spec p e (digits p + e - 53) Hle) as [Hs Hm].
    destruct (shl_align p e (digits p + e - 53)) as [mz ez].
    cbn [fst snd] in Hs, Hm. subst ez.
    assert (digits mz = 53) as Hmz
        by (rewrite (digits_scaled p mz (e - (digits p + e - 53))); lia).
    rewrite (binary_round_aux_exact s mz mz (digits p + e - 53) 0) by lia.
    rewrite Z.add_0_r.
    destruct (digits p + e - 53 <=? emax - prec); [right | now left].
    exists mz, (digits p + e - 53). repeat split; [exact Hmz | lia].
  - rewrite shl_align_keep by lia.
    pose proof (binary_round_aux_big s p e loc_Exact) as H.
    destruct H as [H|(m & e' & H & Hm & He')]; try lia; [now left|].
    right. exists m, e'. repeat split; trivial. lia.
Qed.

(** Normalising the integer [z], written as [z * 2^k] at exponent [-k]. *)
Lemma normalize_int (z k : Z) :
  0 <= k <= 60 ->
  match z with
  | Z0 => binary_normalize prec emax (z * 2 ^ k) (- k) false = S754_zero false
  | Zpos p =>
      if Zpos p <? 2 ^ 53
      then small false p (binary_normalize prec emax (z * 2 ^ k) (- k) false)
      else rounded false 1 (binary_normalize prec emax (z * 2 ^ k) (- k) false)
  | Zneg p =>
      if Zpos p <? 2 ^ 53
      then small true p (binary_normalize prec emax (z * 2 ^ k) (- k) false)
      else rounded true 1 (binary_normalize prec emax (z * 2 ^ k) (- k) false)
  end.
Proof.
  intros Hk.
  assert (0 < 2 ^ k) as Hpow by (apply Z.pow_pos_nonneg; lia).
  destruct z as [|p|p].
  - reflexivity.
  - destruct (Zpos p * 2 ^ k) as [|P|P] eqn:E; try lia.
    cbn [binary_normalize].
    destruct (Zpos p <? 2 ^ 53) eqn:Hs.
    + apply Z.ltb_lt, digits_small in Hs.
      apply (binary_round_small false P p (- k)); try lia.
      now rewrite Z.opp_involutive.
    + apply Z.ltb_ge in Hs.
      apply binary_round_big; [lia|].
      rewrite (digits_scaled p P k) by lia.
      destruct (Z_le_gt_dec 54 (digits p)); [lia|]. exfalso.
      assert (Zpos p < 2 ^ 53) by (apply digits_small; lia). lia.
  - destruct (Zneg p * 2 ^ k) as [|P|P] eqn:E; try lia.
    assert (Zpos P = Zpos p * 2 ^ k) as E' by lia.
    cbn [binary_normalize].
    destruct (Zpos p <? 2 ^ 53) eqn:Hs.
    + apply Z.ltb_lt, digits_small in Hs.
      apply (binary_round_small true P p (- k)); try lia.
      now rewrite Z.opp_involutive.
    + apply Z.ltb_ge in Hs.
      apply binary_round_big; [lia|].
      rewrite (digits_scaled p P k) by lia.
      destruct (Z_le_gt_dec 54 (digits p)); [lia|]. exfalso.
      assert (Zpos p < 2 ^ 53) by (apply digits_small; lia). lia.
Qed.

(** The number an integer is. *)
Lemma of_Z_class (n : Z) :
  match n with
  | Z0 => Num.of_Z n = S754_zero false
  | Zpos p =>
      if Zpos p <? 2 ^ 53 then small false p (Num.of_Z n)
      else rounded false 1 (Num.of_Z n)
  | Zneg p =>
      if Zpos p <? 2 ^ 53 then small true p (Num.of_Z n)
      else rounded true 1 (Num.of_Z n)
  end.
Proof.
  pose proof (normalize_int n 0) as H.
  change (2 ^ 0) with 1 in H. change (- 0) with 0 in H.
  rewrite Z.mul_1_r in H. apply H. lia.
Qed.

(** ** Comparison *)

Lemma ltb_small (z c : positive) (x y : number) :
  small false z x -> small false c y ->
  digits z <= 53 -> digits c <= 53 ->
  ltb x y = (Zpos z <? Zpos c).
Proof.
  intros (mx & -> & Hx) (my & -> & Hy) Hz Hc.
  unfold ltb, SFltb, SFcompare.
  pose proof (digits_bounds z) as [Zlo Zhi].
  pose proof (digits_bounds c) as [Clo Chi].
  pose proof (digits_pos z). pose proof (digits_pos c).
  destruct (Z.compare_spec (digits z - 53) (digits c - 53)) as [E|E|E].
  - assert (digits z = digits c) as Ed by lia. rewrite Ed in Hx.
    assert (0 < 2 ^ (53 - digits c)) by (apply Z.pow_pos_nonneg; lia).
    fold (Pos.compare mx my).
    destruct (Pos.compare_spec mx my) as [Hm|Hm|Hm];
      symmetry; [apply Z.ltb_ge | apply Z.ltb_lt | apply Z.ltb_ge]; nia.
  - symmetry. apply Z.ltb_lt.
    assert (2 ^ digits z <= 2 ^ (digits c - 1)) by (apply Z.pow_le_mono_r; lia).
    lia.
  - symmetry. apply Z.ltb_ge.
    assert (2 ^ digits c <= 2 ^ (digits z - 1)) by (apply Z.pow_le_mono_r; lia).
    lia.
Qed.

Lemma ltb_rounded (s : bool) (c : positive) (x y : number) :
  rounded s 1 x -> small false c y -> digits c <= 53 ->
  ltb x y = s.
Proof.
  intros Hx (my & -> & Hy) Hc.
  destruct Hx as [->|(m & e & -> & _ & He)]; unfold ltb, SFltb, SFcompare.
  - now destruct s.
  - destruct s; [reflexivity|].
    destruct (Z.compare_spec e (digits c - 53)); trivial; lia.
Qed.

(** The comparison of a normalised integer with [c]. *)
Lemma ltb_normalize_int (z k : Z) (c : positive) (y : number) :
  0 <= k <= 60 ->
  small false c y -> digits c <= 53 ->
  ltb (binary_normalize prec emax (z * 2 ^ k) (- k) false) y = (z <? Zpos c).
Proof.
  intros Hk Hy Hc. pose proof (normalize_int z k Hk) as H.
  assert (Zpos c < 2 ^ 53) as Hc' by now apply digits_small.
  destruct z as [|p|p].
  - rewrite H. now destruct Hy as (my & -> & _).
  - destruct (Zpos p <? 2 ^ 53) eqn:Hs.
    + apply (ltb_small p c _ y H Hy); trivial.
      now apply digits_small, Z.ltb_lt.
    + rewrite (ltb_rounded false c _ y H Hy Hc).
      apply Z.ltb_ge in Hs. symmetry. apply Z.ltb_ge. lia.
  - destruct (Zpos p <? 2 ^ 53).
    + destruct H as (m & -> & _). now destruct Hy as (my & -> & _).
    + now rewrite (ltb_rounded true c _ y H Hy Hc).
Qed.

(** ** Subtraction *)

(** The difference of two integers below [2^53] is the normalised
    integer difference. *)
Lemma sub_small_small (a b : positive) (sa s : bool) (x y : number) :
  small sa a x -> small s b y ->
  digits a <= 53 -> digits b <= 53 ->
  exists k,
    0 <= k <= 60
    /\ sub x y
       = binary_normalize prec emax
           ((cond_Zopp sa (Zpos a) - cond_Zopp s (Zpos b)) * 2 ^ k) (- k) false.
Proof.
  intros (mx & -> & Hx) (my & -> & Hy) Ha Hb.
  pose proof (digits_pos a). pose proof (digits_pos b).
  set (ez := Z.min (digits a - 53) (digits b - 53)).
  exists (- ez). split; [unfold ez; lia|].
  unfold sub. cbn [SFsub]. fold ez. rewrite Z.opp_involutive.
  destruct (shl_align_spec mx (digits a - 53) ez) as [_ Mx]; [unfold ez; lia|].
  destruct (shl_align_spec my (digits b - 53) ez) as [_ My]; [unfold ez; lia|].
  f_equal.
  assert (Zpos a * 2 ^ (- ez) = Zpos (fst (shl_align mx (digits a - 53) ez))) as Ea.
  { rewrite Mx, Hx, <- Z.mul_assoc, <- Z.pow_add_r by (unfold ez; lia).
    f_equal. f_equal. lia. }
  assert (Zpos b * 2 ^ (- ez) = Zpos (fst (shl_align my (digits b - 53) ez))) as Eb.
  { rewrite My, Hy, <- Z.mul_assoc, <- Z.pow_add_r by (unfold ez; lia).
    f_equal. f_equal. lia. }
  rewrite Z.mul_sub_distr_r.
  destruct sa, s; cbn [cond_Zopp]; lia.
Qed.

(** The difference of an integer below [2^53] and a normal number at or
    above [2^53] in magnitude. *)
Lemma sub_small_rounded (a my : positive) (sa s : bool) (ey : Z) (x : number) :
  small sa a x ->
  digits a <= 53 -> digits my = 53 -> 1 <= ey ->
  exists k v,
    0 <= k <= 60
    /\ 2 ^ 53 <= v
    /\ sub x (S754_finite s my ey)
       = binary_normalize prec emax
           ((cond_Zopp sa (Zpos a) - cond_Zopp s v) * 2 ^ k) (- k) false.
Proof.
  intros (mx & -> & Hx) Ha Hm He.
  pose proof (digits_pos a).
  pose proof (digits_bounds my) as [Mlo _]. rewrite Hm in Mlo.
  assert (2 ^ 1 <= 2 ^ ey) as Hpow by (apply Z.pow_le_mono_r; lia).
  exists (53 - digits a), (Zpos my * 2 ^ ey). split; [lia|]. split; [nia|].
  unfold sub. cbn [SFsub]. rewrite Z.min_l by lia.
  replace (- (53 - digits a)) with (digits a - 53) by lia.
  destruct (shl_align_spec mx (digits a - 53) (digits a - 53)) as [_ Mx]; [lia|].
  destruct (shl_align_spec my ey (digits a - 53)) as [_ My]; [lia|].
  f_equal. rewrite Z.sub_diag, Z.mul_1_r in Mx.
  assert (Zpos my * 2 ^ ey * 2 ^ (53 - digits a)
          = Zpos my * 2 ^ (ey - (digits a - 53))) as E.
  { rewrite <- Z.mul_assoc, <- Z.pow_add_r by lia. f_equal. f_equal. lia. }
  rewrite Z.mul_sub_distr_r.
  destruct sa, s; cbn [cond_Zopp]; lia.
Qed.

Lemma sub_zero_sign (t : Z) (neg : bool) :
  sub (Num.of_Z t) (S754_zero neg) = sub (Num.of_Z t) (S754_zero false).
Proof.
  pose proof (of_Z_class t) as H. destruct t as [|p|p].
  - rewrite H. now destruct neg.
  - destruct (Zpos p <? 2 ^ 53).
    + now destruct H as (m & -> & _).
    + now destruct H as [->|(m & e & -> & _)].
  - destruct (Zpos p <? 2 ^ 53).
    + now destruct H as (m & -> & _).
    + now destruct H as [->|(m & e & -> & _)].
Qed.

Lemma sub_nan (x : number) : sub x NaN = NaN.
Proof. now destruct x. Qed.

Lemma ltb_nan (y : number) : ltb NaN y = false.
Proof. reflexivity. Qed.

(** ** The age test *)

(** A non-zero integer below [2^53] in magnitude, less any integer,
    compares with [c] as the integers do. *)
Lemma ltb_sub_small (sa : bool) (a c : positive) (x : number) (issued : Z) :
  small sa a x ->
  digits a <= 53 ->
  Zpos c < 2 ^ 53 ->
  Zpos c - 2 ^ 53 <= cond_Zopp sa (Zpos a) ->
  ltb (sub x (Num.of_Z issued)) (Num.of_Z (Zpos c))
  = (cond_Zopp sa (Zpos a) - issued <? Zpos c).
Proof.
  intros Hx Da Hc Hlo.
  assert (small false c (Num.of_Z (Zpos c))) as Hy.
  { pose proof (of_Z_class (Zpos c)) as H. cbv beta iota in H.
    now rewrite (proj2 (Z.ltb_lt _ _) Hc) in H. }
  assert (digits c <= 53) as Dc by now apply digits_small.
  assert (Zpos a < 2 ^ 53) as Ha by now apply digits_small.
  pose proof (of_Z_class issued) as Hi.
  destruct issued as [|p|p].
  - rewrite Hi.
    assert (sub x (S754_zero false) = x) as ->
        by now destruct Hx as (m & -> & _).
    rewrite Z.sub_0_r. destruct sa; cbn [cond_Zopp].
    + destruct Hx as (m & -> & _). now destruct Hy as (my & -> & _).
    + now apply ltb_small.
  - destruct (Zpos p <? 2 ^ 53) eqn:Hs.
    + apply Z.ltb_lt, digits_small in Hs.
      destruct (sub_small_small a p sa false _ _ Hx Hi Da Hs) as (k & Hk & ->).
      now rewrite (ltb_normalize_int _ k c _ Hk Hy Dc).
    + apply Z.ltb_ge in Hs.
      assert ((cond_Zopp sa (Zpos a) - Zpos p <? Zpos c) = true) as ->
          by (apply Z.ltb_lt; destruct sa; cbn [cond_Zopp]; lia).
      destruct Hi as [->|(m & e & -> & Hm & He)].
      * destruct Hx as (mx & -> & _). cbn [sub SFsub negb].
        now destruct Hy as (my & -> & _).
      * destruct (sub_small_rounded a m sa false e _ Hx Da Hm He)
          as (k & v & Hk & Hv & ->).
        rewrite (ltb_normalize_int _ k c _ Hk Hy Dc).
        apply Z.ltb_lt. destruct sa; cbn [cond_Zopp]; lia.
  - destruct (Zpos p <? 2 ^ 53) eqn:Hs.
    + apply Z.ltb_lt, digits_small in Hs.
      destruct (sub_small_small a p sa true _ _ Hx Hi Da Hs) as (k & Hk & ->).
      now rewrite (ltb_normalize_int _ k c _ Hk Hy Dc).
    + apply Z.ltb_ge in Hs.
      assert ((cond_Zopp sa (Zpos a) - Zneg p <? Zpos c) = false) as ->
          by (apply Z.ltb_ge; destruct sa; cbn [cond_Zopp] in *; lia).
      destruct Hi as [->|(m & e & -> & Hm & He)].
      * destruct Hx as (mx & -> & _). cbn [sub SFsub negb].
        now destruct Hy as (my & -> & _).
      * destruct (sub_small_rounded a m sa true e _ Hx Da Hm He)
          as (k & v & Hk & Hv & ->).
        rewrite (ltb_normalize_int _ k c _ Hk Hy Dc).
        apply Z.ltb_ge. destruct sa; cbn [cond_Zopp] in *; lia.
Qed.

(** The same from the epoch itself. *)
Lemma ltb_sub_zero (c : positive) (issued : Z) :
  Zpos c < 2 ^ 53 ->
  ltb (sub (S754_zero false) (Num.of_Z issued)) (Num.of_Z (Zpos c))
  = (0 - issued <? Zpos c).
Proof.
  intros Hc.
  assert (small false c (Num.of_Z (Zpos c))) as Hy.
  { pose proof (of_Z_class (Zpos c)) as H. cbv beta iota in H.
    now rewrite (proj2 (Z.ltb_lt _ _) Hc) in H. }
  assert (digits c <= 53) as Dc by now apply digits_small.
  pose proof (of_Z_class issued) as Hi.
  destruct issued as [|p|p].
  - rewrite Hi. cbn [sub SFsub]. now destruct Hy as (m & -> & _).
  - destruct (Zpos p <? 2 ^ 53).
    + destruct Hi as (m & -> & _). cbn [sub SFsub negb].
      now destruct Hy as (mc & -> & _).
    + destruct Hi as [->|(m & e & -> & _)]; cbn [sub SFsub negb];
        now destruct Hy as (mc & -> & _).
  - destruct (Zpos p <? 2 ^ 53) eqn:Hs.
    + assert (small false p (sub (S754_zero false) (Num.of_Z (Zneg p)))) as H.
      { destruct Hi as (m & -> & Hm). cbn [sub SFsub negb].
        exists m. split; [reflexivity | exact Hm]. }
      apply Z.ltb_lt, digits_small in Hs.
      now rewrite (ltb_small p c _ _ H Hy Hs Dc).
    + assert (rounded false 1 (sub (S754_zero false) (Num.of_Z (Zneg p)))) as H.
      { destruct Hi as [->|(m & e & -> & Hm)]; cbn [sub SFsub negb];
          [left; reflexivity|].
        right. exists m, e. split; [reflexivity | exact Hm]. }
      rewrite (ltb_rounded false c _ _ H Hy Dc).
      apply Z.ltb_ge in Hs. symmetry. apply Z.ltb_ge. lia.
Qed.

(** The difference of a clock reading and an integer, computed in
    binary64, is below [c] exactly when the integer difference is. *)
Lemma ltb_sub_of_Z (t issued : Z) (c : positive) :
  Zpos c < 2 ^ 53 ->
  Zpos c - 2 ^ 53 <= t < 2 ^ 53 ->
  ltb (sub (Num.of_Z t) (Num.of_Z issued)) (Num.of_Z (Zpos c))
  = (t - issued <? Zpos c).
Proof.
  intros Hc Ht. pose proof (of_Z_class t) as Hx.
  destruct t as [|a|a].
  - rewrite Hx. now apply ltb_sub_zero.
  - assert ((Zpos a <? 2 ^ 53) = true) as Ha by (apply Z.ltb_lt; lia).
    rewrite Ha in Hx.
    apply (ltb_sub_small false a c _ issued Hx); trivial; cbn [cond_Zopp]; try lia.
    apply digits_small; lia.
  - assert ((Zpos a <? 2 ^ 53) = true) as Ha by (apply Z.ltb_lt; lia).
    rewrite Ha in Hx.
    apply (ltb_sub_small true a c _ issued Hx); trivial; cbn [cond_Zopp]; try lia.
    apply digits_small; lia.
Qed.

(** ** The text of an integer *)

Lemma to_safe_integer_of_Z (t : Z) :
  - 2 ^ 53 < t < 2 ^ 53 -> to_safe_integer (Num.of_Z t) = Some t.
Proof.
  intros Ht. pose proof (of_Z_class t) as Hx.
  assert (forall s a x, small s a x -> Zpos a < 2 ^ 53 ->
            to_safe_integer x = Some (cond_Zopp s (Zpos a))) as Hsmall.
  { intros s a x (m & -> & Hm) Ha.
    pose proof (digits_pos a) as D1.
    assert (digits a <= 53) as D2 by now apply digits_small.
    pose proof (digits_bounds a) as [_ Hi].
    assert (0 < 2 ^ (53 - digits a)) as Hpow by (apply Z.pow_pos_nonneg; lia).
    assert (2 ^ 53 = 2 ^ digits a * 2 ^ (53 - digits a)) as E
        by (rewrite <- Z.pow_add_r by lia; f_equal; lia).
    unfold to_safe_integer.
    replace (- (digits a - 53)) with (53 - digits a) by lia.
    rewrite Hm, Z.mod_mul, Z.div_mul by lia.
    assert ((Zpos a * 2 ^ (53 - digits a) <? 2 ^ 53) = true) as ->
        by (apply Z.ltb_lt; rewrite E; nia).
    assert ((-52 <=? digits a - 53) = true) as -> by (apply Z.leb_le; lia).
    assert ((digits a - 53 <=? 0) = true) as -> by (apply Z.leb_le; lia).
    now rewrite Z.eqb_refl. }
  destruct t as [|a|a].
  - now rewrite Hx.
  - assert ((Zpos a <? 2 ^ 53) = true) as Ha by (apply Z.ltb_lt; lia).
    rewrite Ha in Hx. apply (Hsmall false a _ Hx). lia.
  - assert ((Zpos a <? 2 ^ 53) = true) as Ha by (apply Z.ltb_lt; lia).
    rewrite Ha in Hx. apply (Hsmall true a _ Hx). lia.
Qed.

Lemma toString_of_Z (t : Z) :
  - 2 ^ 53 < t < 2 ^ 53 -> Num.toString (Num.of_Z t) = Str.of_Z t.
Proof.
  intros Ht. unfold Num.toString. now rewrite to_safe_integer_of_Z.
Qed.

End Binary64Facts.

(* ================================================================== *)
(** * Facts about strings *)
(* ================================================================== *)

Module StrFacts.

Import Str.

Lemma app_assoc (a b c : string) : ((a ++ b) ++ c = a ++ (b ++ c))%string.
Proof. induction a; simpl; congruence. Qed.

Lemma app_nil_r (a : string) : (a ++ EmptyString = a)%string.
Proof. induction a; simpl; congruence. Qed.

Lemma split_nonempty (sep : ascii) (s : string) : split sep s <> [].
Proof.
  destruct s as [|c t]; simpl; [discriminate|].
  destruct (Ascii.eqb c sep); [discriminate|].
  destruct (split sep t); discriminate.
Qed.

(** The pieces of a split do not contain the separator. *)
Lemma split_pieces (sep : ascii) (s : string) :
  Forall (fun x => mem sep x = false) (split sep s).
Proof.
  induction s as [|c t IH]; simpl.
  - repeat constructor.
  - destruct (Ascii.eqb c sep) eqn:E.
    + constructor; [reflexivity | exact IH].
    + destruct (split sep t) as [|x r].
      * repeat constructor. simpl. now rewrite E.
      * inversion IH as [|? ? Hx Hr]; subst.
        constructor; [simpl; now rewrite E, Hx | exact Hr].
Qed.

Lemma split_without (sep : ascii) (s : string) :
  mem sep s = false -> split sep s = [s].
Proof.
  induction s as [|c t IH]; simpl; [reflexivity|].
  destruct (Ascii.eqb c sep); simpl; [discriminate|].
  intros H. now rewrite (IH H).
Qed.

Lemma split_at (sep : ascii) (u r : string) :
  mem sep u = false ->
  split sep (u ++ String sep r) = u :: split sep r.
Proof.
  induction u as [|c t IH]; simpl.
  - intros _. now rewrite Ascii.eqb_refl.
  - destruct (Ascii.eqb c sep); simpl; [discriminate|].
    intros H. now rewrite (IH H).
Qed.

Lemma mem_app (c : ascii) (a b : string) :
  mem c (a ++ b) = mem c a || mem c b.
Proof.
  induction a as [|d t IH]; simpl; [reflexivity|].
  now rewrite IH, orb_assoc.
Qed.

Lemma startsWith_app (s p : string) :
  startsWith s p = true -> exists r, s = p ++ r.
Proof.
  unfold startsWith. revert s.
  induction p as [|c p IH]; intros s H; simpl in *.
  - now exists s.
  - destruct s as [|d s]; [discriminate|]. simpl in H.
    destruct (ascii_dec c d) as [->|]; [|discriminate].
    destruct (IH s H) as [r ->]. now exists r.
Qed.

(** ** Decimal digits *)

Lemma digit_char_code (d : N) : (d < 10)%N -> code (digit_char d) = (48 + d)%N.
Proof.
  intros H. unfold code, digit_char.
  apply N_ascii_embedding. lia.
Qed.

Lemma digit_char_is_digit (d : N) : (d < 10)%N -> is_digit (digit_char d) = true.
Proof.
  intros H. unfold is_digit, in_range. rewrite (digit_char_code d H).
  apply andb_true_intro; split; apply N.leb_le; lia.
Qed.

Lemma mod10_lt (n : N) : (n mod 10 < 10)%N.
Proof. apply N.mod_upper_bound. discriminate. Qed.

(** Whatever the fuel, [digits_fuel] puts a non-empty run of digits in
    front of the accumulator. *)
Lemma digits_fuel_shape (f : nat) (n : N) (acc : string) :
  exists c s,
    digits_fuel (S f) n acc = String c (s ++ acc)
    /\ is_digit c = true /\ all_digits s = true.
Proof.
  revert n acc. induction f as [|f IH]; intros n acc.
  - exists (digit_char (n mod 10)), EmptyString. simpl.
    repeat split; [now destruct (n <? 10)%N | apply digit_char_is_digit, mod10_lt].
  - cbn [digits_fuel]. destruct (n <? 10)%N.
    + exists (digit_char (n mod 10)), EmptyString.
      repeat split. apply digit_char_is_digit, mod10_lt.
    + destruct (IH (n / 10)%N (String (digit_char (n mod 10)) acc))
        as (c & s & E & Hc & Hs).
      exists c, (s ++ String (digit_char (n mod 10)) EmptyString).
      cbn [digits_fuel] in E. rewrite E. repeat split; trivial.
      * f_equal. now rewrite app_assoc.
      * clear E. induction s as [|d s IHs]; simpl in *.
        -- now rewrite digit_char_is_digit by apply mod10_lt.
        -- apply andb_prop in Hs as [Hd Hs]. now rewrite Hd, IHs.
Qed.

Lemma of_N_shape (n : N) :
  exists c s, of_N n = String c s /\ is_digit c = true /\ all_digits s = true.
Proof.
  unfold of_N.
  destruct (digits_fuel_shape (N.to_nat (N.log2 n)) n EmptyString)
    as (c & s & E & Hc & Hs).
  exists c, s. rewrite E, app_nil_r. repeat split; trivial.
Qed.

Lemma is_digit_code (c : ascii) :
  is_digit c = true -> (48 <= code c <= 57)%N.
Proof.
  unfold is_digit, in_range. intros H.
  apply andb_prop in H as [H1 H2].
  apply N.leb_le in H1, H2. lia.
Qed.

Lemma eqb_code (c d : ascii) : code c <> code d -> Ascii.eqb c d = false.
Proof.
  intros H. destruct (Ascii.eqb_spec c d) as [->|]; [now elim H | reflexivity].
Qed.

(** A run of digits contains no character outside ['0'..'9']. *)
Lemma all_digits_mem (c : ascii) (s : string) :
  all_digits s = true -> (code c < 48 \/ 57 < code c)%N -> mem c s = false.
Proof.
  intros Hs Hc. induction s as [|d t IH]; simpl in *; [reflexivity|].
  apply andb_prop in Hs as [Hd Ht]. apply is_digit_code in Hd.
  rewrite (IH Ht), orb_false_r. apply eqb_code. lia.
Qed.

Lemma of_Z_shape (z : Z) :
  exists c s,
    of_N (Z.to_N (Z.abs z)) = String c s
    /\ is_digit c = true /\ all_digits s = true
    /\ of_Z z = if z <? 0 then String "-" (String c s) else String c s.
Proof.
  destruct (of_N_shape (Z.to_N (Z.abs z))) as (c & s & E & Hc & Hs).
  exists c, s. repeat split; trivial.
  destruct z; simpl in *; now rewrite <- E.
Qed.

(** The decimal text of an integer contains neither [":"] nor [" "]. *)
Lemma of_Z_mem (c : ascii) (z : Z) :
  (code c < 45 \/ 57 < code c)%N -> mem c (of_Z z) = false.
Proof.
  intros Hc. destruct (of_Z_shape z) as (d & s & _ & Hd & Hs & ->).
  assert (mem c (String d s) = false) as H.
  { apply all_digits_mem; [simpl; now rewrite Hd, Hs | lia]. }
  destruct (z <? 0); [|exact H].
  change (mem c (String "-" (String d s)))
    with (Ascii.eqb "-" c || mem c (String d s)).
  rewrite H, orb_false_r. apply eqb_code.
  change (code "-") with 45%N. lia.
Qed.

End StrFacts.

(* ================================================================== *)
(** * Facts about [parseInt] *)
(* ================================================================== *)

Module ParseFacts.

Import Str StrFacts JS.

Lemma digit_in_digit_char (d : N) :
  (d < 10)%N -> digit_in 10 (digit_char d) = Some d.
Proof.
  intros H. unfold digit_in, digit_value.
  pose proof (digit_char_is_digit d H) as Hd. unfold is_digit in Hd.
  rewrite Hd, (digit_char_code d H).
  replace (48 + d - 48)%N with d by lia.
  now apply N.ltb_lt in H as ->.
Qed.

(** Reading back the digits written by [digits_fuel]. *)
Lemma read_digits_fuel (f : nat) (n : N) :
  (n < 2 ^ N.of_nat (S f))%N ->
  exists (L : nat) (p : N), forall rest a c,
    read_digits 10 (digits_fuel (S f) n rest) a c
    = read_digits 10 rest (a * p + n)%N (c + S L)%nat.
Proof.
  revert n. induction f as [|f IH]; intros n Hn.
  - exists 0%nat, 10%N. intros rest a c.
    assert (n < 10)%N as H10 by (change (2 ^ N.of_nat 1)%N with 2%N in Hn; lia).
    cbn [digits_fuel]. rewrite (proj2 (N.ltb_lt _ _) H10).
    cbn [read_digits]. rewrite digit_in_digit_char by apply mod10_lt.
    rewrite N.mod_small by exact H10. now rewrite Nat.add_1_r.
  - cbn [digits_fuel]. destruct (n <? 10)%N eqn:E.
    + exists 0%nat, 10%N. intros rest a c. apply N.ltb_lt in E.
      cbn [read_digits]. rewrite digit_in_digit_char by apply mod10_lt.
      rewrite N.mod_small by exact E. now rewrite Nat.add_1_r.
    + assert (n / 10 < 2 ^ N.of_nat (S f))%N as Hq.
      { apply N.Div0.div_lt_upper_bound.
        rewrite !Nat2N.inj_succ, N.pow_succ_r' in Hn. lia. }
      destruct (IH _ Hq) as (L & p & HL).
      exists (S L), (p * 10)%N. intros rest a c.
      cbn [digits_fuel] in HL. rewrite HL.
      cbn [read_digits]. rewrite digit_in_digit_char by apply mod10_lt.
      f_equal; [|lia].
      pose proof (N.div_mod n 10). lia.
Qed.

Lemma read_digits_of_N (n : N) :
  exists L : nat, read_digits 10 (of_N n) 0 0 = (n, S L, EmptyString).
Proof.
  unfold of_N.
  destruct (read_digits_fuel (N.to_nat (N.log2 n)) n) as (L & p & H).
  - rewrite Nat2N.inj_succ, N2Nat.id.
    destruct n as [|q]; [reflexivity|].
    apply N.log2_spec. reflexivity.
  - exists L. rewrite H. reflexivity.
Qed.

Lemma is_ws1_false (c : ascii) : (32 < code c)%N -> is_ws1 c = false.
Proof.
  intros H. unfold is_ws1, in_range.
  rewrite (eqb_code c " ") by (change (code " ") with 32%N; lia).
  rewrite orb_false_r. apply andb_false_intro2, N.leb_gt. lia.
Qed.

(** Nothing is skipped in front of an ASCII character that is not white
    space. *)
Lemma skip_ws_ascii (c : ascii) (s : string) :
  (32 < code c < 128)%N -> skip_ws (String c s) = String c s.
Proof.
  intros H. cbn [skip_ws]. rewrite is_ws1_false by lia.
  destruct s as [|c2 [|c3 s]]; trivial.
  - unfold is_ws2. now rewrite (proj2 (N.eqb_neq (code c) 194)) by lia.
  - unfold is_ws2, is_ws3.
    rewrite (proj2 (N.eqb_neq (code c) 194)) by lia.
    rewrite (proj2 (N.eqb_neq (code c) 225)) by lia.
    rewrite (proj2 (N.eqb_neq (code c) 226)) by lia.
    rewrite (proj2 (N.eqb_neq (code c) 227)) by lia.
    now rewrite (proj2 (N.eqb_neq (code c) 239)) by lia.
Qed.

(** The radix [parseInt] takes for the digits of a natural number, and
    what it reads. *)
Lemma read_integer_digits (neg : bool) (n : N) :
  (let '(radix, s2) :=
     match of_N n with
     | String "0" (String x t) =>
         if Ascii.eqb x "x" || Ascii.eqb x "X" then (16%N, t) else (10%N, of_N n)
     | _ => (10%N, of_N n)
     end in
   match read_digits radix s2 0 0 with
   | (_, O, _) => None
   | (v, _, _) => Some (neg, v)
   end) = Some (neg, n).
Proof.
  destruct (read_digits_of_N n) as (L & HL).
  destruct (of_N_shape n) as (c & s & E & Hc & Hs).
  assert ((match of_N n with
           | String "0" (String x t) =>
               if Ascii.eqb x "x" || Ascii.eqb x "X"
               then (16%N, t) else (10%N, of_N n)
           | _ => (10%N, of_N n)
           end) = (10%N, of_N n)) as ->.
  { rewrite E. destruct s as [|x t].
    - now destruct c as [[] [] [] [] [] [] [] []].
    - simpl in Hs. apply andb_prop in Hs as [Hx _].
      apply is_digit_code in Hx.
      rewrite (eqb_code x "x"), (eqb_code x "X");
        try (now destruct c as [[] [] [] [] [] [] [] []]).
      + change (code "X") with 88%N. lia.
      + change (code "x") with 120%N. lia. }
  now rewrite HL.
Qed.

(** [parseInt] finds the sign and the magnitude in the decimal text of
    every integer. *)
Lemma read_integer_of_Z (z : Z) :
  read_integer (of_Z z) = Some (z <? 0, Z.to_N (Z.abs z)).
Proof.
  unfold read_integer.
  destruct z as [|p|p].
  - reflexivity.
  - change (of_Z (Zpos p)) with (of_N (Npos p)).
    destruct (of_N_shape (Npos p)) as (c & s & E & Hc & _).
    apply is_digit_code in Hc.
    assert (read_sign (skip_ws (of_N (Npos p))) = (false, of_N (Npos p))) as ->.
    { rewrite E, skip_ws_ascii by lia. unfold read_sign.
      assert (Ascii.eqb c "-" = false) as Hm
          by (apply eqb_code; change (code "-") with 45%N; lia).
      assert (Ascii.eqb c "+" = false) as Hp
          by (apply eqb_code; change (code "+") with 43%N; lia).
      destruct (Ascii.eqb_spec c "-"); [discriminate|].
      destruct (Ascii.eqb_spec c "+"); [discriminate|].
      destruct c as [[] [] [] [] [] [] [] []]; trivial; congruence. }
    apply (read_integer_digits false).
  - change (of_Z (Zneg p)) with (String "-" (of_N (Npos p))).
    rewrite skip_ws_ascii by (change (code "-") with 45%N; lia).
    cbn [read_sign].
    apply (read_integer_digits true).
Qed.

Lemma parseInt_integer_of_Z (z : Z) : parseInt_integer (of_Z z) = Some z.
Proof.
  unfold parseInt_integer. rewrite read_integer_of_Z. now destruct z.
Qed.

(** [parseInt] reads the decimal text of an integer as the number
    nearest to it. *)
Lemma parseInt_of_Z (z : Z) : parseInt (of_Z z) = Num.of_Z z.
Proof.
  unfold parseInt. rewrite read_integer_of_Z. now destruct z.
Qed.

(** [NaN] or the number of the integer read, but for the sign of zero. *)
Lemma parseInt_cases (s : string) :
  match parseInt_integer s with
  | None => parseInt s = Num.NaN
  | Some z => parseInt s = Num.of_Z z \/ (z = 0 /\ parseInt s = S754_zero true)
  end.
Proof.
  unfold parseInt_integer, parseInt.
  destruct (read_integer s) as [[neg [|p]]|]; trivial.
  - destruct neg; [right | left]; now split.
  - now left.
Qed.

End ParseFacts.

(* ================================================================== *)
(** * Facts about the codecs *)
(* ================================================================== *)

Module BufferFacts.

Import Str StrFacts Buffer.

(** ** base64 *)

Ltac bits c := destruct c as [[] [] [] [] [] [] [] []].

Lemma sextet1_ok (a : ascii) : is_sextet (sextet1 a).
Proof. now destruct a. Qed.

Lemma sextet2_ok (a b : ascii) : is_sextet (sextet2 a b).
Proof. now destruct a, b. Qed.

Lemma sextet3_ok (b c : ascii) : is_sextet (sextet3 b c).
Proof. now destruct b, c. Qed.

Lemma sextet4_ok (c : ascii) : is_sextet (sextet4 c).
Proof. now destruct c. Qed.

Create HintDb b64.
#[local] Hint Resolve sextet1_ok sextet2_ok sextet3_ok sextet4_ok : b64.

(** The decoder reads every character of the alphabet as the sextet
    it stands for; none of them is the padding or a space. *)
Lemma alphabet_spec (s : sextet) :
  is_sextet s ->
  unbase64 (alphabet s) = Some s
  /\ Ascii.eqb (alphabet s) "=" = false
  /\ Ascii.eqb (alphabet s) " " = false.
Proof. bits s; simpl; intros H; try contradiction; now vm_compute. Qed.

Lemma legal_sextets_alphabet (s : sextet) (r : string) :
  is_sextet s ->
  legal_sextets (String (alphabet s) r) = s :: legal_sextets r.
Proof.
  intros H. destruct (alphabet_spec s H) as (Hu & Hp & _).
  cbn [legal_sextets]. now rewrite Hp, Hu.
Qed.

Lemma byte1_sextets (a b : ascii) : byte1 (sextet1 a) (sextet2 a b) = a.
Proof. now destruct a, b. Qed.

Lemma byte2_sextets (a b c : ascii) : byte2 (sextet2 a b) (sextet3 b c) = b.
Proof. now destruct a, b, c. Qed.

Lemma byte3_sextets (b c : ascii) : byte3 (sextet3 b c) (sextet4 c) = c.
Proof. now destruct b, c. Qed.

Lemma from_base64_toString_below (n : nat) (b : Buffer.t) :
  (String.length b < n)%nat -> from_base64 (toString_base64 b) = b.
Proof.
  revert b. induction n as [|n IH]; intros b Hlen; [lia|].
  unfold from_base64 in *.
  destruct b as [|a [|b [|c r]]]; [reflexivity| | |].
  - cbn [toString_base64].
    rewrite !legal_sextets_alphabet by auto with b64.
    cbn. now rewrite byte1_sextets.
  - cbn [toString_base64].
    rewrite !legal_sextets_alphabet by auto with b64.
    cbn. now rewrite byte1_sextets, byte2_sextets.
  - cbn [toString_base64].
    rewrite !legal_sextets_alphabet by auto with b64.
    cbn [bytes_of_sextets].
    rewrite byte1_sextets, byte2_sextets, byte3_sextets, IH; trivial.
    simpl in Hlen. lia.
Qed.

(** Decoding an encoded buffer gives the buffer back. *)
Lemma from_base64_toString (b : Buffer.t) :
  from_base64 (toString_base64 b) = b.
Proof. apply (from_base64_toString_below (S (String.length b))). lia. Qed.

Lemma toString_base64_no_space_below (n : nat) (b : Buffer.t) :
  (String.length b < n)%nat -> mem " " (toString_base64 b) = false.
Proof.
  revert b. induction n as [|n IH]; intros b Hlen; [lia|].
  destruct b as [|a [|b [|c r]]]; [reflexivity| | |]; cbn [toString_base64 mem].
  - destruct (alphabet_spec _ (sextet1_ok a)) as (_ & _ & ->).
    destruct (alphabet_spec _ (sextet2_ok a zero)) as (_ & _ & ->).
    reflexivity.
  - destruct (alphabet_spec _ (sextet1_ok a)) as (_ & _ & ->).
    destruct (alphabet_spec _ (sextet2_ok a b)) as (_ & _ & ->).
    destruct (alphabet_spec _ (sextet3_ok b zero)) as (_ & _ & ->).
    reflexivity.
  - destruct (alphabet_spec _ (sextet1_ok a)) as (_ & _ & ->).
    destruct (alphabet_spec _ (sextet2_ok a b)) as (_ & _ & ->).
    destruct (alphabet_spec _ (sextet3_ok b c)) as (_ & _ & ->).
    destruct (alphabet_spec _ (sextet4_ok c)) as (_ & _ & ->).
    cbn [orb]. apply IH. simpl in Hlen. lia.
Qed.

(** A base64 text contains no space. *)
Lemma toString_base64_no_space (b : Buffer.t) :
  mem " " (toString_base64 b) = false.
Proof. apply (toString_base64_no_space_below (S (String.length b))). lia. Qed.

(** ** utf8 *)

Lemma toString_ascii (s : string) : ascii_only s = true -> toString s = s.
Proof.
  induction s as [|c t IH]; simpl; [reflexivity|].
  intros H. apply andb_prop in H as [-> Ht]. now rewrite (IH Ht).
Qed.

(** Decoding leaves a well-formed prefix as it is. *)
Lemma toString_app_below (n : nat) (a b : string) :
  (String.length a < n)%nat ->
  well_formed a = true -> toString (a ++ b) = (a ++ toString b)%string.
Proof.
  revert a. induction n as [|n IH]; intros a Hlen Hwf; [lia|].
  destruct a as [|c1 t1]; [reflexivity|].
  cbn [well_formed] in Hwf. cbn [append toString].
  destruct (code c1 <? 128)%N.
  { rewrite IH; trivial. simpl in Hlen. lia. }
  destruct (lead c1) as [[k [lo hi]]|]; [|discriminate].
  destruct k as [|[|[|[|k]]]]; try discriminate.
  - destruct t1 as [|c2 t2]; [discriminate|].
    apply andb_prop in Hwf as [H2 Hwf].
    cbn [append]. rewrite H2. cbn [negb].
    rewrite IH; trivial. simpl in Hlen. lia.
  - destruct t1 as [|c2 [|c3 t3]]; try discriminate.
    apply andb_prop in Hwf as [Hwf Hr]. apply andb_prop in Hwf as [H2 H3].
    cbn [append]. rewrite H2, H3. cbn [negb].
    rewrite IH; trivial. simpl in Hlen. lia.
  - destruct t1 as [|c2 [|c3 [|c4 t4]]]; try discriminate.
    apply andb_prop in Hwf as [Hwf Hr]. apply andb_prop in Hwf as [Hwf H4].
    apply andb_prop in Hwf as [H2 H3].
    cbn [append]. rewrite H2, H3, H4. cbn [negb].
    rewrite IH; trivial. simpl in Hlen. lia.
Qed.

Lemma toString_app (a b : string) :
  well_formed a = true -> toString (a ++ b) = (a ++ toString b)%string.
Proof. apply (toString_app_below (S (String.length a))). lia. Qed.

(** Encoding a string and decoding the bytes gives the string back. *)
Lemma toString_from_utf8 (s : string) :
  well_formed s = true -> toString (from_utf8 s) = s.
Proof.
  intros H. unfold from_utf8.
  rewrite <- (app_nil_r s) at 1. rewrite (toString_app s EmptyString H).
  apply app_nil_r.
Qed.

Lemma all_digits_ascii (s : string) : all_digits s = true -> ascii_only s = true.
Proof.
  induction s as [|c t IH]; simpl; [reflexivity|].
  intros H. apply andb_prop in H as [Hc Ht]. apply is_digit_code in Hc.
  rewrite (IH Ht), andb_true_r. apply N.ltb_lt. lia.
Qed.

Lemma of_Z_ascii (z : Z) : ascii_only (of_Z z) = true.
Proof.
  destruct (of_Z_shape z) as (c & s & _ & Hc & Hs & ->).
  assert (ascii_only (String c s) = true) as H.
  { apply all_digits_ascii. simpl. now rewrite Hc, Hs. }
  destruct (z <? 0); [|exact H].
  change (ascii_only (String "-" (String c s)))
    with ((code "-" <? 128)%N && ascii_only (String c s)).
  now rewrite H.
Qed.

End BufferFacts.

(* ================================================================== *)
(** * Facts about the handlers *)
(* ================================================================== *)

Module ServerFacts.

Import JS Express Server.
Import StrFacts ParseFacts BufferFacts Binary64Facts.

(** Runs a handler symbolically: unfolds the monad and the primitives of
    [Express], and projects the fields of the records it meets. *)
Ltac run :=
  repeat progress
    (unfold serve, dispatch, respond, check_ok, try_catch, bind, ret, throw,
       ask, process_env, req_header, req_body, Date_now, new_Date, res_status,
       res_json,
       console_error, fetch, json, member, require_object_coercible,
       require_primitive, fetch_key_info, Buffer_from_base64, initial,
       response;
     cbn [sent statusCode fetched console escaped env world req fst snd app]).

Lemma strict_eq_string (s : string) (k : option string) :
  strict_eq (String_ s) k = true <-> k = Some s.
Proof.
  destruct k as [t|]; simpl; [|split; discriminate].
  rewrite String.eqb_eq. split; congruence.
Qed.

Lemma strict_eq_same (s : string) : strict_eq (String_ s) (Some s) = true.
Proof. now apply strict_eq_string. Qed.

Lemma truthy_string (s : string) : s <> EmptyString -> truthy (String_ s) = true.
Proof.
  intros H. simpl. now apply String.eqb_neq in H as ->.
Qed.

(** ** The chat relay *)

(** What the relay does once the key has been accepted. *)
Lemma api_chat_accepted (e : Env) (w : World) (r : Request) (k : string) :
  assoc "x-api-key" (headers r) = Some k ->
  FRONTEND_API_KEY e = Some k ->
  k <> EmptyString ->
  object_coercible (body r) = true ->
  exists call,
    call = {| url := API_URL e;
              method := "POST";
              request_headers := upstream_headers (OPENROUTER_API_KEY e);
              request_body :=
                Some (JSON_stringify
                        (Object
                           [("model", of_option (MODEL e));
                            ("messages", get (body r) "messages");
                            ("temperature",
                             default (get (body r) "temperature")
                               (Number (Num.of_ratio 8 10)));
                            ("top_p",
                             default (get (body r) "top_p")
                               (Number (Num.of_Z 1)))])) |}
    /\ fetched (serve api_chat e w r) = [call]
    /\ response (serve api_chat e w r)
       = match upstream w call with
         | Resolved resp =>
             if ok resp
             then match response_json resp with
                  | Return v => Some (200, v)
                  | Throw _ =>
                      Some (500, Object [("error", String_ "Internal server error")])
                  end
             else Some (500, Object [("error", String_ "Internal server error")])
         | Rejected _ =>
             Some (500, Object [("error", String_ "Internal server error")])
         end.
Proof.
  intros Hh Hk Hne Hb. eexists. split; [reflexivity|].
  unfold api_chat. run. rewrite Hh, Hk.
  cbn [of_option]. rewrite strict_eq_same, (truthy_string k Hne).
  cbn [negb orb]. run. rewrite Hb. run.
  destruct (upstream w _) as [err|resp]; [now split|].
  destruct (ok resp); cbn [negb]; [|now split].
  destruct (response_json resp); now split.
Qed.

(** ** The admin session *)

(** A time value is below [2^53] in magnitude, with a day to spare. *)
Lemma time_value_safe (t : Z) :
  time_value t -> 86400000 - 2 ^ 53 <= t < 2 ^ 53.
Proof. unfold time_value. lia. Qed.

(** The clock reading in a template literal is its decimal text. *)
Lemma ToString_clock (t : Z) :
  time_value t -> ToString (Number (Num.of_Z t)) = Str.of_Z t.
Proof.
  intros H. apply time_value_safe in H. cbn [ToString].
  apply toString_of_Z. lia.
Qed.

Lemma login_run (e : Env) (w : World) (r : Request) :
  time_value (now w) ->
  object_coercible (body r) = true ->
  response (serve admin_login e w r)
  = if strict_eq (get (body r) "username") (ADMIN_USERNAME e)
       && strict_eq (get (body r) "password") (ADMIN_PASSWORD e)
    then Some (200,
               Object [("success", Bool true);
                       ("token",
                        String_ (Buffer.toString_base64
                                   (Buffer.from_utf8
                                      (ToString (get (body r) "username")
                                       ++ ":" ++ Str.of_Z (now w)))));
                       ("message", String_ "Login successful")])
    else Some (401,
               Object [("success", Bool false);
                       ("error", String_ "Invalid credentials")]).
Proof.
  intros Hw Hb. unfold admin_login. run. rewrite Hb. run.
  destruct (strict_eq _ _ && strict_eq _ _); [|reflexivity].
  run. now rewrite (ToString_clock (now w) Hw).
Qed.

(** Every header that starts with ["Bearer "] carries a token. *)
Lemma bearer_token (h : string) :
  Str.startsWith h "Bearer " = true ->
  exists token,
    nth_error (Str.split " " h) 1 = Some token
    /\ truthy (String_ h) = true.
Proof.
  intros H. apply startsWith_app in H as [r ->].
  change ("Bearer " ++ r)%string with ("Bearer" ++ String " " r)%string.
  rewrite split_at by reflexivity.
  cbn [nth_error]. pose proof (split_nonempty " " r) as Hne.
  destruct (Str.split " " r) as [|x l]; [now elim Hne|].
  exists x. split; reflexivity.
Qed.

Lemma bearer_token_of (token : string) :
  Str.mem " " token = false ->
  Str.startsWith ("Bearer " ++ token) "Bearer " = true
  /\ nth_error (Str.split " " ("Bearer " ++ token)) 1 = Some token.
Proof.
  intros H. split.
  - unfold Str.startsWith. cbn. now destruct token.
  - change ("Bearer " ++ token)%string
      with ("Bearer" ++ String " " token)%string.
    rewrite split_at by reflexivity.
    now rewrite split_without.
Qed.

(** With a [Bearer] header the verifier either runs the guarded
    operation or answers 401 "Invalid or expired session"; its [catch]
    clause is never entered. *)
Lemma verify_run (next : M unit) (ctx : Context) (st : Effects)
    (h token : string) :
  assoc "authorization" (headers (req ctx)) = Some h ->
  Str.startsWith h "Bearer " = true ->
  nth_error (Str.split " " h) 1 = Some token ->
  verifyAdminSession next ctx st
  = if admits (ADMIN_USERNAME (env ctx)) (now (world ctx)) (decoded token)
    then dispatch next ctx st
    else respond 401 expired_session ctx st.
Proof.
  intros Hh Hb Ht.
  destruct (bearer_token h Hb) as (tok & _ & Htruthy).
  unfold verifyAdminSession.
  unfold bind at 1. unfold req_header at 1. unfold bind at 1, ask, ret.
  rewrite Hh, Htruthy, Hb. cbn [negb orb]. rewrite Ht.
  unfold try_catch. unfold bind at 1. unfold Buffer_from_base64, ret at 1.
  unfold bind at 1. unfold Date_now at 1. unfold bind at 1, ask, ret.
  unfold bind at 1. unfold process_env at 1. unfold bind at 1, ask, ret.
  fold (decoded token).
  fold (admits (ADMIN_USERNAME (env ctx)) (now (world ctx)) (decoded token)).
  destruct (admits _ _ _).
  - unfold dispatch. destruct (next ctx st) as [[] st']; reflexivity.
  - unfold expired_session. run. destruct (sent st); reflexivity.
Qed.

Lemma decoded_nonempty (token : string) :
  exists u rest, decoded token = u :: rest /\ Str.mem ":" u = false.
Proof.
  unfold decoded.
  pose proof (split_nonempty ":" (Buffer.toString (Buffer.from_base64 token))) as Hne.
  pose proof (split_pieces ":" (Buffer.toString (Buffer.from_base64 token))) as Hp.
  destruct (Str.split _ _) as [|u rest]; [now elim Hne|].
  exists u, rest. split; trivial. now inversion Hp.
Qed.

(** The age test on the text of a timestamp: the binary64 computation
    gives what the integers give, and [false] when the text does not
    start with an integer. *)
Lemma age_of_text (t : Z) (ts : string) :
  time_value t ->
  Num.ltb (Num.sub (Num.of_Z t) (parseInt ts)) maxAge
  = match parseInt_integer ts with
    | Some issued => t - issued <? 24 * 60 * 60 * 1000
    | None => false
    end.
Proof.
  intros Ht. apply time_value_safe in Ht.
  change maxAge with (Num.of_Z (Zpos 86400000)).
  change (24 * 60 * 60 * 1000) with (Zpos 86400000).
  pose proof (parseInt_cases ts) as H.
  destruct (parseInt_integer ts) as [issued|].
  - destruct H as [->|[-> ->]].
    + apply ltb_sub_of_Z; [reflexivity | exact Ht].
    + rewrite sub_zero_sign. apply (ltb_sub_of_Z t 0); [reflexivity | exact Ht].
  - now rewrite H, sub_nan.
Qed.

Lemma age_test_exact (t issued : Z) :
  time_value t -> age_test t issued = (t - issued <? 24 * 60 * 60 * 1000).
Proof.
  intros Ht. apply time_value_safe in Ht. unfold age_test.
  change maxAge with (Num.of_Z (Zpos 86400000)).
  apply ltb_sub_of_Z; [reflexivity | exact Ht].
Qed.


(** What the verifier reads in a token made by [/admin/login]. *)
Lemma decoded_issue (u : string) (t : Z) :
  Buffer.well_formed u = true ->
  Str.mem ":" u = false ->
  decoded (issue u t) = [u; Str.of_Z t].
Proof.
  intros Hwf Hc. unfold decoded, issue.
  rewrite from_base64_toString. unfold Buffer.from_utf8.
  rewrite toString_app by exact Hwf.
  rewrite toString_ascii
    by (change (Str.ascii_only (":" ++ Str.of_Z t))
          with ((Str.code ":" <? 128)%N && Str.ascii_only (Str.of_Z t));
        now rewrite of_Z_ascii).
  change (u ++ ":" ++ Str.of_Z t)%string
    with (u ++ String ":" (Str.of_Z t))%string.
  rewrite split_at by exact Hc.
  rewrite split_without; [reflexivity|].
  apply of_Z_mem. change (Str.code ":") with 58%N. lia.
Qed.

Lemma admits_issue (u : string) (now t : Z) :
  time_value now ->
  Buffer.well_formed u = true ->
  Str.mem ":" u = false ->
  admits (Some u) now (decoded (issue u t))
  = (now - t <? 24 * 60 * 60 * 1000).
Proof.
  intros Hn Hwf Hc. rewrite (decoded_issue u t Hwf Hc). unfold admits.
  cbn [nth_error of_option ToString].
  now rewrite strict_eq_same, (age_of_text now _ Hn), parseInt_integer_of_Z.
Qed.

(** Without a second part the timestamp is [undefined] and the age is
    [NaN]: the test fails. *)
Lemma admits_one_part (adm : option string) (t : Z) (u : string) :
  admits adm t [u] = false.
Proof.
  unfold admits. cbn [nth_error of_option ToString].
  change (parseInt "undefined") with Num.NaN.
  now rewrite sub_nan, andb_false_r.
Qed.

(** A user name with a colon is cut at the colon: the verifier never
    reads it in a token. *)
Lemma admits_colon (u : string) (now : Z) (token : string) :
  Str.mem ":" u = true -> admits (Some u) now (decoded token) = false.
Proof.
  intros Hc. destruct (decoded_nonempty token) as (x & rest & -> & Hx).
  unfold admits. cbn [nth_error of_option].
  destruct (strict_eq (String_ x) (Some u)) eqn:E; [|reflexivity].
  apply strict_eq_string in E. injection E as ->. congruence.
Qed.

Lemma issue_no_space (u : string) (t : Z) : Str.mem " " (issue u t) = false.
Proof. apply toString_base64_no_space. Qed.

(** ** The admin readers *)

Lemma eqb_refl (x : Num.number) : Num.is_nan x = false -> Num.eqb x x = true.
Proof.
  unfold Num.eqb, SFeqb. destruct x as [s|s| |s m e]; simpl; try discriminate.
  - reflexivity.
  - now destruct s.
  - intros _. destruct s; rewrite Z.compare_refl, Pos.compare_cont_refl;
      reflexivity.
Qed.

(** [x || 0] is [x] as a number, [-0] and [+0] being the same number. *)
Lemma or_zero (x : Num.number) :
  Num.is_nan x = false ->
  or (Number x) (Number Num.zero)
  = Number (if Num.is_zero x then Num.zero else x).
Proof.
  intros Hx. unfold or, truthy. rewrite Hx, orb_false_r.
  now destruct (Num.is_zero x).
Qed.

Lemma or_zero_same (x : Num.number) :
  Num.is_nan x = false ->
  Num.eqb (if Num.is_zero x then Num.zero else x) x = true
  /\ Num.ltb Num.zero (if Num.is_zero x then Num.zero else x)
     = Num.ltb Num.zero x.
Proof.
  intros Hx. destruct x as [s|s| |s m e]; cbn [Num.is_zero].
  - now destruct s.
  - split; [now apply eqb_refl | reflexivity].
  - discriminate.
  - split; [now apply eqb_refl | reflexivity].
Qed.

(** The key-info call and what the readers do with a failure. *)
Lemma key_info_run {A} (e : Env) (w : World) (r : Request) (st : Effects)
    (k : FetchResponse -> M A) :
  bind fetch_key_info k {| env := e; world := w; req := r |} st
  = match upstream w (key_info_request (OPENROUTER_API_KEY e)) with
    | Rejected err =>
        (Throw err,
         {| statusCode := statusCode st; sent := sent st;
            fetched := fetched st ++ [key_info_request (OPENROUTER_API_KEY e)];
            console := console st; escaped := escaped st |})
    | Resolved resp =>
        k resp {| env := e; world := w; req := r |}
          {| statusCode := statusCode st; sent := sent st;
             fetched := fetched st ++ [key_info_request (OPENROUTER_API_KEY e)];
             console := console st; escaped := escaped st |}
    end.
Proof.
  run. now destruct (upstream w _).
Qed.

Lemma usage_run (e : Env) (w : World) (r : Request)
    (resp : FetchResponse) (data : value) :
  upstream w (key_info_request (OPENROUTER_API_KEY e)) = Resolved resp ->
  ok resp = true ->
  response_json resp = Return data ->
  object_coercible data = true ->
  let d := get data "data" in
  let usage := or (get_optional d "usage") (Number Num.zero) in
  let limit := or (get_optional d "limit") (Number Num.zero) in
  converts usage = true ->
  converts limit = true ->
  response (serve usage_handler e w r)
  = Some (200,
          Object
            [("success", Bool true);
             ("usage",
              Object
                [("used", usage);
                 ("limit", limit);
                 ("remaining", Number (Num.max Num.zero (minus limit usage)));
                 ("percentage_used",
                  if greater limit Num.zero
                  then String_ (Num.toFixed
                                  (times (divide usage limit) (Num.of_Z 100)) 2)
                  else Number Num.zero);
                 ("currency", String_ "USD")])]).
Proof.
  intros Hup Hok Hjson Hco d usage limit Hcu Hcl.
  unfold usage_handler, serve, dispatch, try_catch.
  rewrite key_info_run, Hup. run. rewrite Hok, Hjson. cbn [negb]. run.
  rewrite Hco. run. fold d. fold usage. fold limit. rewrite Hcu, Hcl. run.
  reflexivity.
Qed.


Lemma ok_range (resp : FetchResponse) :
  200 <= response_status resp <= 299 -> ok resp = true.
Proof.
  intros H. unfold ok. apply andb_true_intro. split; apply Z.leb_le; lia.
Qed.

(** ** The properties a body supplies *)

Lemma lookup_supplied (k : string) (x : value)
    (before after : list (string * value)) :
  ~ In k (map fst before) ->
  lookup k (before ++ (k, x) :: after) = Some x.
Proof.
  induction before as [|[k' v] l IH]; intros Hn; cbn [app lookup].
  - now rewrite String.eqb_refl.
  - destruct (String.eqb_spec k' k) as [->|_].
    + exfalso. apply Hn. now left.
    + apply IH. intros H. apply Hn. now right.
Qed.

Lemma lookup_omitted (k : string) (props : list (string * value)) :
  ~ In k (map fst props) -> lookup k props = None.
Proof.
  induction props as [|[k' v] l IH]; intros Hn; cbn [lookup]; [reflexivity|].
  destruct (String.eqb_spec k' k) as [->|_].
  - exfalso. apply Hn. now left.
  - apply IH. intros H. apply Hn. now right.
Qed.

Lemma get_supplied (b : value) (k : string) (x : value) :
  Outcome.supplied b k x -> get b k = x.
Proof.
  intros (before & after & -> & Hn). unfold get.
  now rewrite (lookup_supplied k x before after Hn).
Qed.

Lemma get_omitted (b : value) (k : string) :
  Outcome.omitted b k -> get b k = Undefined.
Proof.
  intros H. destruct b; try reflexivity.
  unfold get. now rewrite (lookup_omitted k _ (H _ eq_refl)).
Qed.

End ServerFacts.

(* ================================================================== *)
(** * Facts about [toFixed(2)] *)
(* ================================================================== *)

Module FixedFacts.

Import Str StrFacts.

(** ** The digits of a natural number *)

Lemma digits_fuel_acc (f : nat) (n : N) (acc : string) :
  digits_fuel f n acc = (digits_fuel f n EmptyString ++ acc)%string.
Proof.
  revert n acc. induction f as [|f IH]; intros n acc; [reflexivity|].
  cbn [digits_fuel]. destruct (n <? 10)%N; [reflexivity|].
  rewrite IH, (IH _ (String _ EmptyString)), app_assoc. reflexivity.
Qed.

(** Enough fuel is as good as more. *)
Lemma digits_fuel_enough (f g : nat) (n : N) (acc : string) :
  (n < 2 ^ N.of_nat (S f))%N -> (n < 2 ^ N.of_nat (S g))%N ->
  digits_fuel (S f) n acc = digits_fuel (S g) n acc.
Proof.
  revert g n acc. induction f as [|f IH]; intros g n acc Hf Hg.
  - assert (n < 10)%N as H10 by (change (2 ^ N.of_nat 1)%N with 2%N in Hf; lia).
    cbn [digits_fuel]. now rewrite (proj2 (N.ltb_lt _ _) H10).
  - cbn [digits_fuel]. destruct (n <? 10)%N eqn:E; [reflexivity|].
    apply N.ltb_ge in E.
    destruct g as [|g].
    + change (2 ^ N.of_nat 1)%N with 2%N in Hg. lia.
    + apply IH.
      * apply N.Div0.div_lt_upper_bound.
        rewrite !Nat2N.inj_succ, N.pow_succ_r' in Hf. lia.
      * apply N.Div0.div_lt_upper_bound.
        rewrite !Nat2N.inj_succ, N.pow_succ_r' in Hg. lia.
Qed.

Lemma log2_fuel (n : N) : (n < 2 ^ N.of_nat (S (N.to_nat (N.log2 n))))%N.
Proof.
  rewrite Nat2N.inj_succ, N2Nat.id.
  destruct n as [|q]; [reflexivity|]. apply N.log2_spec. reflexivity.
Qed.

Lemma of_N_small (n : N) :
  (n < 10)%N -> of_N n = String (digit_char n) EmptyString.
Proof.
  intros H. unfold of_N. cbn [digits_fuel].
  rewrite (proj2 (N.ltb_lt _ _) H). now rewrite N.mod_small.
Qed.

(** The last digit of a number of two digits or more. *)
Lemma of_N_step (n : N) :
  (10 <= n)%N ->
  of_N n = (of_N (n / 10) ++ String (digit_char (n mod 10)) EmptyString)%string.
Proof.
  intros H. unfold of_N at 1. cbn [digits_fuel].
  rewrite (proj2 (N.ltb_ge _ _) H).
  rewrite digits_fuel_acc. f_equal.
  pose proof (log2_fuel n) as Hn.
  assert (1 <= N.log2 n)%N as Hl.
  { apply N.log2_le_pow2; [lia|]. change (2 ^ 1)%N with 2%N. lia. }
  destruct (N.to_nat (N.log2 n)) as [|f] eqn:Ef; [lia|].
  unfold of_N. apply digits_fuel_enough.
  - apply N.Div0.div_lt_upper_bound.
    rewrite !Nat2N.inj_succ, N.pow_succ_r' in Hn.
    rewrite Nat2N.inj_succ. lia.
  - apply log2_fuel.
Qed.

Lemma of_N_nonempty (n : N) : (1 <= String.length (of_N n))%nat.
Proof.
  destruct (of_N_shape n) as (c & s & -> & _). simpl. lia.
Qed.

(** ** Cutting a text before its last characters *)

Lemma length_app (a b : string) :
  String.length (a ++ b) = (String.length a + String.length b)%nat.
Proof. induction a; simpl; [reflexivity|]. now rewrite IHa. Qed.

Lemma take_app (a b : string) : take (String.length a) (a ++ b) = a.
Proof. induction a; simpl; [now destruct b|]. now rewrite IHa. Qed.

Lemma drop_app (a b : string) : drop (String.length a) (a ++ b) = b.
Proof. induction a; simpl; [now destruct b|]. exact IHa. Qed.

(** ** The text of [n] hundredths *)

Lemma fixed_text_2 (n : Z) :
  0 <= n -> Num.fixed_text n 2 = Hundredths.text n.
Proof.
  intros Hn. unfold Num.fixed_text, Hundredths.text.
  assert (Z.to_N (n / 10 mod 10) = (Z.to_N n / 10 mod 10)%N) as E1.
  { rewrite <- (Z2N.id n) at 1 by lia.
    change 10 with (Z.of_N 10).
    now rewrite <- N2Z.inj_div, <- N2Z.inj_mod, N2Z.id. }
  assert (Z.to_N (n mod 10) = (Z.to_N n mod 10)%N) as E2.
  { rewrite <- (Z2N.id n) at 1 by lia.
    change 10 with (Z.of_N 10).
    now rewrite <- N2Z.inj_mod, N2Z.id. }
  assert (of_Z (n / 100) = of_N (Z.to_N n / 100)) as E3.
  { assert (0 <= n / 100) as H0 by (apply Z.div_pos; lia).
    assert (Z.to_N (n / 100) = (Z.to_N n / 100)%N) as <-.
    { rewrite <- (Z2N.id n) at 1 by lia.
      change 100 with (Z.of_N 100).
      now rewrite <- N2Z.inj_div, N2Z.id. }
    unfold of_Z. destruct (n / 100); try reflexivity. lia. }
  rewrite E1, E2, E3. clear E1 E2 E3.
  set (k := Z.to_N n).
  destruct (N.lt_ge_cases k 10) as [H10|H10].
  - rewrite (of_N_small k H10).
    rewrite (N.div_small k 100), (N.div_small k 10), (N.mod_small k 10) by lia.
    reflexivity.
  - rewrite (of_N_step k H10).
    destruct (N.lt_ge_cases k 100) as [H100|H100].
    + assert (k / 10 < 10)%N as Hq
          by (apply N.Div0.div_lt_upper_bound; lia).
      rewrite (of_N_small _ Hq), (N.div_small k 100), (N.mod_small (k / 10) 10)
        by lia.
      reflexivity.
    + assert (10 <= k / 10)%N as Hq
          by (apply N.div_le_lower_bound; lia).
      rewrite (of_N_step _ Hq).
      rewrite N.Div0.div_div. change (10 * 10)%N with 100%N.
      rewrite app_assoc.
      set (a := of_N (k / 100)).
      set (b := (String (digit_char (k / 10 mod 10)) EmptyString
                 ++ String (digit_char (k mod 10)) EmptyString)%string).
      assert (String.length (a ++ b) = (String.length a + 2)%nat) as Hlen
          by (rewrite length_app; reflexivity).
      pose proof (of_N_nonempty (k / 100)) as Ha. fold a in Ha.
      rewrite Hlen.
      replace (String.length a + 2 <=? 2)%nat with false
        by (symmetry; apply Nat.leb_gt; lia).
      rewrite Hlen.
      replace (String.length a + 2 - 2)%nat with (String.length a) by lia.
      now rewrite take_app, drop_app.
Qed.

(** ** The number of hundredths *)

Lemma fixed_integer_nearest (m : positive) (e : Z) :
  0 <= Num.fixed_integer m e 2
  /\ Hundredths.nearest m e (Num.fixed_integer m e 2)
  /\ forall n, Hundredths.nearest m e n -> n = Num.fixed_integer m e 2.
Proof.
  unfold Num.fixed_integer, Hundredths.nearest.
  change (10 ^ Z.of_nat 2) with 100.
  set (num := Zpos m * 2 ^ Z.max e 0).
  set (den := 2 ^ Z.max (- e) 0).
  assert (0 < den) as Hden by (apply Z.pow_pos_nonneg; lia).
  assert (0 <= num) as Hnum.
  { apply Z.mul_nonneg_nonneg; [lia|]. apply Z.pow_nonneg. lia. }
  replace (2 * Zpos m * 2 ^ Z.max e 0 * 100) with (200 * num)
    by (unfold num; ring).
  pose proof (Z.div_mod (200 * num + den) (2 * den)) as Hdm.
  pose proof (Z.mod_pos_bound (200 * num + den) (2 * den)) as Hmod.
  set (q := (200 * num + den) / (2 * den)) in *.
  assert (0 <= q) as Hq by (apply Z.div_pos; lia).
  split; [exact Hq|]. split; [nia|].
  intros n [Hlo Hhi].
  apply (Z.div_unique_pos (200 * num + den) (2 * den) n
           (200 * num + den - 2 * den * n)); lia.
Qed.

Lemma below_1e21_cmp (m : positive) (e : Z) :
  Num.cmp_scaled (Zpos m) e 0 1 0 21
  = if Hundredths.below_1e21 m e then Lt
    else match Num.cmp_scaled (Zpos m) e 0 1 0 21 with
         | Lt => Eq | c => c
         end.
Proof.
  unfold Num.cmp_scaled, Hundredths.below_1e21.
  change (Z.min 0 21) with 0. rewrite Z.sub_0_r.
  change (10 ^ 0) with 1. rewrite Z.mul_1_r, Z.mul_1_l.
  replace (e - Z.min e 0) with (Z.max e 0) by lia.
  replace (0 - Z.min e 0) with (Z.max (- e) 0) by lia.
  change (21 - 0) with 21.
  rewrite (Z.mul_comm (2 ^ Z.max (- e) 0)).
  destruct (Z.ltb_spec (Zpos m * 2 ^ Z.max e 0) (10 ^ 21 * 2 ^ Z.max (- e) 0))
    as [H|H].
  - now apply Z.compare_lt_iff in H as ->.
  - destruct (Z.compare_spec (Zpos m * 2 ^ Z.max e 0)
                (10 ^ 21 * 2 ^ Z.max (- e) 0)); trivial. lia.
Qed.

(** [toFixed(2)] of a finite number, in words: below [10^21] it is the
    text of the nearest number of hundredths, with the sign; from
    [10^21] on it is the text of the number. *)
Lemma toFixed_2 (s : bool) (m : positive) (e : Z) :
  if Hundredths.below_1e21 m e
  then exists n,
         Hundredths.nearest m e n
         /\ (forall n', Hundredths.nearest m e n' -> n' = n)
         /\ Num.toFixed (S754_finite s m e) 2
            = ((if s then "-" else EmptyString) ++ Hundredths.text n)%string
  else Num.toFixed (S754_finite s m e) 2
       = ((if s then "-" else EmptyString)
          ++ Num.toString (S754_finite false m e))%string.
Proof.
  unfold Num.toFixed. rewrite below_1e21_cmp.
  destruct (Hundredths.below_1e21 m e).
  - destruct (fixed_integer_nearest m e) as (H0 & Hn & Hu).
    exists (Num.fixed_integer m e 2).
    split; [exact Hn|]. split; [exact Hu|].
    cbv iota. now rewrite (fixed_text_2 _ H0).
  - now destruct (Num.cmp_scaled (Zpos m) e 0 1 0 21).
Qed.

(** A number of hundredths is never written with an exponent. *)
Lemma text_no_exponent (n : Z) : mem "e" (Hundredths.text n) = false.
Proof.
  unfold Hundredths.text. rewrite mem_app, of_Z_mem
    by (change (code "e") with 101%N; lia).
  cbn [orb append mem]. 
  assert (forall d, (d < 10)%N -> Ascii.eqb (digit_char d) "e" = false) as Hd.
  { intros d H. apply eqb_code. rewrite digit_char_code by exact H.
    change (code "e") with 101%N. lia. }
  assert (forall z, (Z.to_N (z mod 10) < 10)%N) as Hm.
  { intros z. pose proof (Z.mod_pos_bound z 10). lia. }
  rewrite !Hd by apply Hm. reflexivity.
Qed.

End FixedFacts.

Import JS Express Server.

(* ================================================================== *)
(** * The properties of the routes *)
(* ================================================================== *)

(** ** [POST /api/chat] *)

(** C1. A request to [/api/chat] that carries the configured key makes
    exactly one upstream call, to the configured completion endpoint.  If
    the upstream status is a success the response is 200 with the upstream
    JSON body as it came; if the status is anything else the response is
    500 with the body [{error: "Internal server error"}] and nothing of
    the upstream status or body.  (The request is one whose body
    [express.json()] has left in place, so it is not [undefined] or
    [null]; the key is a non-empty string.) *)
Theorem chat_relays_upstream_answer
    (e : Env) (w : World) (r : Request) (k : string) :
  assoc "x-api-key" (headers r) = Some k ->
  FRONTEND_API_KEY e = Some k ->
  k <> EmptyString ->
  object_coercible (body r) = true ->
  let fx := serve api_chat e w r in
  exists call,
    fetched fx = [call]
    /\ url call = API_URL e
    /\ (forall s v,
          upstream w call
          = Resolved {| response_status := s; response_json := Return v |} ->
          200 <= s <= 299 ->
          response fx = Some (200, v))
    /\ (forall resp,
          upstream w call = Resolved resp ->
          ~ 200 <= response_status resp <= 299 ->
          response fx
          = Some (500, Object [("error", String_ "Internal server error")])).
Proof.
  intros Hh Hk Hne Hb fx. subst fx.
  destruct (ServerFacts.api_chat_accepted e w r k Hh Hk Hne Hb)
    as (call & Hcall & Hf & Hr).
  exists call. split; [exact Hf|]. split; [now rewrite Hcall|].
  rewrite Hr. split.
  - intros s v -> Hs. unfold ok. cbn [response_status response_json].
    now rewrite (proj2 (Z.leb_le 200 s)), (proj2 (Z.leb_le s 299)) by lia.
  - intros resp -> Hs. unfold ok.
    destruct (200 <=? response_status resp) eqn:E1;
      destruct (response_status resp <=? 299) eqn:E2; trivial.
    apply Z.leb_le in E1, E2. lia.
Qed.


Lemma chat_relays_upstream_answer_witness :
  let w := Demo.world Demo.new_year (Demo.answers 200 Demo.completion) in
  let fx := serve api_chat Demo.env w Demo.chat in
  exists call,
    fetched fx = [call]
    /\ url call = API_URL Demo.env
    /\ (forall s v,
          upstream w call
          = Resolved {| response_status := s; response_json := Return v |} ->
          200 <= s <= 299 ->
          response fx = Some (200, v))
    /\ (forall resp,
          upstream w call = Resolved resp ->
          ~ 200 <= response_status resp <= 299 ->
          response fx
          = Some (500, Object [("error", String_ "Internal server error")])).
Proof.
  apply (chat_relays_upstream_answer Demo.env _ Demo.chat "frontend-secret");
    [reflexivity | reflexivity | discriminate | reflexivity].
Defined.

(** C2. A request to [/api/chat] whose [x-api-key] header is absent, or
    is not the configured secret, is answered 401 with
    [{error: "Unauthorized"}], and no upstream call is made. *)
Theorem chat_without_key_is_refused (e : Env) (w : World) (r : Request) :
  assoc "x-api-key" (headers r) = None
  \/ assoc "x-api-key" (headers r) <> FRONTEND_API_KEY e ->
  let fx := serve api_chat e w r in
  response fx = Some (401, Object [("error", String_ "Unauthorized")])
  /\ fetched fx = [].
Proof.
  intros H fx. subst fx. unfold api_chat. ServerFacts.run.
  destruct (assoc "x-api-key" (headers r)) as [h|] eqn:Hh.
  - assert (strict_eq (of_option (Some h)) (FRONTEND_API_KEY e) = false) as ->.
    { destruct (strict_eq _ _) eqn:E; trivial.
      apply ServerFacts.strict_eq_string in E. destruct H; congruence. }
    rewrite orb_true_r. ServerFacts.run. now split.
  - cbn [of_option truthy negb orb]. ServerFacts.run. now split.
Qed.

Lemma chat_without_key_is_refused_witness :
  let fx := serve api_chat Demo.env
              (Demo.world Demo.new_year (Demo.answers 200 Demo.completion))
              Demo.chat_wrong_key in
  response fx = Some (401, Object [("error", String_ "Unauthorized")])
  /\ fetched fx = [].
Proof.
  apply chat_without_key_is_refused. right. discriminate.
Defined.

(** C3. An authorized request to [/api/chat] forwards the body
    [{model, messages, temperature, top_p}]: [model] is the configured
    model; [messages] is the [messages] the request body supplies, as it
    is; [temperature] is the value the request body supplies, and the
    number [0.8] when the body omits it (or holds [undefined]);
    [top_p] is the value the request body supplies, and the number [1]
    when the body omits it (or holds [undefined]).  The two defaults
    are written out as the binary64 numbers they are. *)
Theorem chat_forwards_body_with_defaults
    (e : Env) (w : World) (r : Request) (k : string) :
  assoc "x-api-key" (headers r) = Some k ->
  FRONTEND_API_KEY e = Some k ->
  k <> EmptyString ->
  object_coercible (body r) = true ->
  exists call messages temperature top_p,
    fetched (serve api_chat e w r) = [call]
    /\ request_body call
       = Some (JSON_stringify
                 (Object [("model", of_option (MODEL e));
                          ("messages", messages);
                          ("temperature", temperature);
                          ("top_p", top_p)]))
    /\ (forall m, Outcome.supplied (body r) "messages" m -> messages = m)
    /\ (Outcome.omitted (body r) "messages" -> messages = Undefined)
    /\ (forall t, Outcome.supplied (body r) "temperature" t ->
          t <> Undefined -> temperature = t)
    /\ (Outcome.omitted (body r) "temperature"
        \/ Outcome.supplied (body r) "temperature" Undefined ->
        temperature = Number (S754_finite false 7205759403792794 (-53)))
    /\ (forall p, Outcome.supplied (body r) "top_p" p ->
          p <> Undefined -> top_p = p)
    /\ (Outcome.omitted (body r) "top_p" \/ Outcome.supplied (body r) "top_p" Undefined ->
        top_p = Number (S754_finite false 4503599627370496 (-52))).
Proof.
  intros Hh Hk Hne Hb.
  destruct (ServerFacts.api_chat_accepted e w r k Hh Hk Hne Hb)
    as (call & Hcall & Hf & _).
  exists call, (get (body r) "messages"),
    (default (get (body r) "temperature") (Number (Num.of_ratio 8 10))),
    (default (get (body r) "top_p") (Number (Num.of_Z 1))).
  split; [exact Hf|]. split; [now rewrite Hcall|].
  split; [intros m H; now rewrite (ServerFacts.get_supplied _ _ _ H)|].
  split; [intros H; now rewrite (ServerFacts.get_omitted _ _ H)|].
  split.
  { intros t H Ht. rewrite (ServerFacts.get_supplied _ _ _ H).
    now destruct t. }
  split.
  { intros [H|H];
      [rewrite (ServerFacts.get_omitted _ _ H)
      |rewrite (ServerFacts.get_supplied _ _ _ H)]; reflexivity. }
  split.
  { intros p H Hp. rewrite (ServerFacts.get_supplied _ _ _ H).
    now destruct p. }
  intros [H|H];
    [rewrite (ServerFacts.get_omitted _ _ H)
    |rewrite (ServerFacts.get_supplied _ _ _ H)]; reflexivity.
Qed.

Lemma chat_forwards_body_with_defaults_witness :
  exists call,
    fetched (serve api_chat Demo.env
               (Demo.world Demo.new_year (Demo.answers 200 Demo.completion))
               Demo.chat) = [call]
    /\ request_body call
       = Some (JSON_stringify
                 (Object
                    [("model", String_ "openrouter/auto");
                     ("messages",
                      Array [Object [("role", String_ "user");
                                     ("content", String_ "Dear diary")]]);
                     ("temperature",
                      Number (S754_finite false 7205759403792794 (-55)));
                     ("top_p",
                      Number (S754_finite false 4503599627370496 (-52)))])).
Proof.
  destruct (chat_forwards_body_with_defaults Demo.env
              (Demo.world Demo.new_year (Demo.answers 200 Demo.completion))
              Demo.chat "frontend-secret")
    as (call & m & t & p & Hf & Hb & Hm & _ & Ht & _ & _ & Hp);
    [reflexivity | reflexivity | discriminate | reflexivity |].
  exists call. split; [exact Hf|].
  rewrite Hb.
  rewrite (Hm Demo.messages).
  2: { exists [], [("temperature", Number (Num.of_ratio 2 10))].
       split; [reflexivity | intros []]. }
  rewrite (Ht (Number (S754_finite false 7205759403792794 (-55)))).
  2: { exists [("messages", Demo.messages)], []. split; [reflexivity|].
       intros [H|[]]. discriminate. }
  2: discriminate.
  rewrite Hp; [reflexivity|].
  left. intros props H. injection H as <-.
  intros [H|[H|[]]]; discriminate.
Defined.

(** ** [POST /admin/login] *)

(** C5. With the admin user name [u] and password [p] configured: a login
    request whose [username] and [password] are exactly [u] and [p] is
    answered 200 with [success: true] and a [token] (and a message); the
    token is the base64 text of ["u:t"], where [t] is a clock reading
    within one second of the call, written in decimal; the token decodes
    to those bytes and [parseInt] reads [t] back.  Every
    other login request is answered 401 with
    [{success: false, error: "Invalid credentials"}], which has no
    [token]. *)
Theorem login_issues_token_or_refuses
    (e : Env) (w : World) (r : Request) (u p : string) :
  time_value (now w) ->
  ADMIN_USERNAME e = Some u ->
  ADMIN_PASSWORD e = Some p ->
  object_coercible (body r) = true ->
  let fx := serve admin_login e w r in
  let matching :=
    get (body r) "username" = String_ u /\ get (body r) "password" = String_ p in
  (matching ->
   exists token t,
     response fx
     = Some (200, Object [("success", Bool true);
                          ("token", String_ token);
                          ("message", String_ "Login successful")])
     /\ token = Buffer.toString_base64
                  (Buffer.from_utf8 (u ++ ":" ++ Str.of_Z t))
     /\ Z.abs (t - now w) < 1000
     /\ Buffer.from_base64 token = (u ++ ":" ++ Str.of_Z t)%string
     /\ parseInt_integer (Str.of_Z t) = Some t)
  /\ (~ matching ->
      exists refusal,
        response fx = Some (401, refusal)
        /\ refusal = Object [("success", Bool false);
                             ("error", String_ "Invalid credentials")]
        /\ get refusal "token" = Undefined).
Proof.
  intros Hw Hu Hp Hb fx matching. subst fx matching.
  rewrite (ServerFacts.login_run e w r Hw Hb), Hu, Hp. split.
  - intros [-> ->]. rewrite !ServerFacts.strict_eq_same. cbn [andb ToString].
    exists (Buffer.toString_base64 (Buffer.from_utf8 (u ++ ":" ++ Str.of_Z (now w)))),
      (now w).
    repeat split.
    + rewrite Z.sub_diag. reflexivity.
    + apply BufferFacts.from_base64_toString.
    + apply ParseFacts.parseInt_integer_of_Z.
  - intros Hno.
    assert (strict_eq (get (body r) "username") (Some u)
            && strict_eq (get (body r) "password") (Some p) = false) as ->.
    { destruct (strict_eq (get (body r) "username") (Some u)) eqn:E1;
        [|reflexivity].
      destruct (strict_eq (get (body r) "password") (Some p)) eqn:E2;
        [|reflexivity].
      elim Hno. clear Hno.
      destruct (get (body r) "username"); try discriminate.
      destruct (get (body r) "password"); try discriminate.
      apply ServerFacts.strict_eq_string in E1, E2.
      split; congruence. }
    eexists. repeat split.
Qed.

Lemma login_issues_token_or_refuses_witness :
  let fx := serve admin_login Demo.env (Demo.world Demo.new_year (Rejected (new_Error "unused")))
              Demo.login in
  exists token t,
    response fx
    = Some (200, Object [("success", Bool true);
                         ("token", String_ token);
                         ("message", String_ "Login successful")])
    /\ token = Buffer.toString_base64
                 (Buffer.from_utf8 ("admin" ++ ":" ++ Str.of_Z t))
    /\ Z.abs (t - Demo.new_year) < 1000
    /\ Buffer.from_base64 token = ("admin" ++ ":" ++ Str.of_Z t)%string
    /\ parseInt_integer (Str.of_Z t) = Some t.
Proof.
  refine (proj1 (login_issues_token_or_refuses Demo.env
                   (Demo.world Demo.new_year (Rejected (new_Error "unused")))
                   Demo.login "admin" "correct horse" _ _ _ _) _);
    try reflexivity.
  - unfold time_value, Demo.world, Demo.new_year. cbn [now]. lia.
  - split; reflexivity.
Defined.

(** ** [verifyAdminSession] *)


(** C6 (not what the code does).  The claim expects the message "Invalid
    session token" when the token cannot be decoded.  [Buffer.from] with
    ["base64"] decodes every string: a token made of characters outside
    the alphabet, here ["!!!!"], decodes to the empty buffer; the
    timestamp is then [undefined], the age [NaN], and the verifier
    answers 401 "Invalid or expired session", whatever the configuration
    and the clock. *)
Theorem undecodable_token_is_called_expired
    (next : M unit) (e : Env) (w : World) :
  let ctx := {| env := e; world := w; req := Demo.admin "!!!!" |} in
  verifyAdminSession next ctx initial = respond 401 expired_session ctx initial
  /\ response (snd (verifyAdminSession next ctx initial))
     = Some (401, Object [("error", String_ "Invalid or expired session")]).
Proof.
  intros ctx.
  assert (verifyAdminSession next ctx initial
          = respond 401 expired_session ctx initial) as Hrun.
  { rewrite (ServerFacts.verify_run next ctx initial "Bearer !!!!" "!!!!");
      try reflexivity.
    cbn [env world ctx].
    change (decoded "!!!!") with [EmptyString].
    now rewrite ServerFacts.admits_one_part. }
  split; [exact Hrun|]. now rewrite Hrun.
Qed.

(** The message "Invalid session token" is never sent by the verifier:
    with any header at all it answers "No valid session token" or
    "Invalid or expired session", or it runs the guarded operation. *)
Lemma verifier_outcomes (next : M unit) (ctx : Context) :
  verifyAdminSession next ctx initial = respond 401 no_session ctx initial
  \/ verifyAdminSession next ctx initial
     = respond 401 expired_session ctx initial
  \/ verifyAdminSession next ctx initial = dispatch next ctx initial.
Proof.
  destruct (assoc "authorization" (headers (req ctx))) as [h|] eqn:Hh.
  - destruct (Str.startsWith h "Bearer ") eqn:Hb.
    + destruct (ServerFacts.bearer_token h Hb) as (token & Htok & _).
      rewrite (ServerFacts.verify_run next ctx initial h token Hh Hb Htok).
      destruct (admits _ _ _); auto.
    + left. unfold verifyAdminSession, bind at 1, req_header, bind, ask, ret.
      rewrite Hh, Hb. cbn [negb]. now rewrite orb_true_r.
  - left. unfold verifyAdminSession, bind at 1, req_header, bind, ask, ret.
    now rewrite Hh.
Qed.

(** C9. A token issued by [/admin/login] for the admin user name [u]:
    if [u] has no [":"], the verifier accepts it at every time less than
    24 hours after the login; if [u] has a [":"], the verifier answers
    401.  ([u] is a JS string, that is well-formed UTF-8 here; the two
    clock readings are time values.) *)
Theorem issued_token_round_trip
    (next : M unit) (e : Env) (w0 w1 : World) (r0 r1 : Request)
    (u p : string) :
  time_value (now w0) ->
  time_value (now w1) ->
  ADMIN_USERNAME e = Some u ->
  ADMIN_PASSWORD e = Some p ->
  get (body r0) "username" = String_ u ->
  get (body r0) "password" = String_ p ->
  exists token,
    response (serve admin_login e w0 r0)
    = Some (200, Object [("success", Bool true);
                         ("token", String_ token);
                         ("message", String_ "Login successful")])
    /\ (assoc "authorization" (headers r1) = Some ("Bearer " ++ token)%string ->
        let ctx := {| env := e; world := w1; req := r1 |} in
        (Buffer.well_formed u = true ->
         Str.mem ":" u = false ->
         now w1 - now w0 < 24 * 60 * 60 * 1000 ->
         verifyAdminSession next ctx initial = dispatch next ctx initial)
        /\ (Str.mem ":" u = true ->
            verifyAdminSession next ctx initial
            = respond 401 expired_session ctx initial)).
Proof.
  intros Hw0 Hw1 Hu Hp Hbu Hbp.
  assert (object_coercible (body r0) = true) as Hco.
  { destruct (body r0); try reflexivity; discriminate. }
  exists (issue u (now w0)). split.
  - rewrite (ServerFacts.login_run e w0 r0 Hw0 Hco), Hu, Hp, Hbu, Hbp.
    now rewrite !ServerFacts.strict_eq_same.
  - intros Hh ctx.
    destruct (ServerFacts.bearer_token_of (issue u (now w0))
                (ServerFacts.issue_no_space u (now w0))) as [Hb Htok].
    rewrite (ServerFacts.verify_run next ctx initial _ _ Hh Hb Htok).
    cbn [env world ctx]. rewrite Hu. split.
    + intros Hwf Hc Hage.
      rewrite (ServerFacts.admits_issue u (now w1) (now w0) Hw1 Hwf Hc).
      now apply Z.ltb_lt in Hage as ->.
    + intros Hc. now rewrite (ServerFacts.admits_colon u (now w1) _ Hc).
Qed.


(** ** [GET /admin/usage] *)

(** C7 (as the code has it).  When the key-info call succeeds with
    numbers [usage] and [limit], the usage reader answers
    [used = usage], [limit = limit] (a zero of either sign as [0]),
    [remaining = Math.max(0, limit - usage)], [currency = "USD"], and
    for [percentage_used] the number [0] when [limit > 0] does not
    hold.  When it holds, [percentage_used] is a string made of
    [p = (usage / limit) * 100]: where [p] is finite and below [10^21]
    in magnitude, the sign and the text, with two decimals, of the one
    number of hundredths nearest to the magnitude of [p] (the larger
    one of two); ["0.00"] where [p] is zero; and the text of the number
    [p] itself, with an exponent, [Infinity] or [NaN], anywhere else.
    With usage 50 and limit 200 that is [remaining: 150] and
    [percentage_used: "25.00"]; with usage 250 and limit 200 it is
    [remaining: 0] and ["125.00"]; with usage 2 and limit 3 it is
    ["66.67"]. *)
Theorem usage_summary_arithmetic
    (e : Env) (w : World) (r : Request) (resp : FetchResponse)
    (data : value) (usage limit : Num.number) :
  upstream w (key_info_request (OPENROUTER_API_KEY e)) = Resolved resp ->
  200 <= response_status resp <= 299 ->
  response_json resp = Return data ->
  get (get data "data") "usage" = Number usage ->
  get (get data "data") "limit" = Number limit ->
  Num.is_nan usage = false ->
  Num.is_nan limit = false ->
  exists used lim remaining percentage,
    response (serve usage_handler e w r)
    = Some (200,
            Object
              [("success", Bool true);
               ("usage",
                Object
                  [("used", Number used);
                   ("limit", Number lim);
                   ("remaining", Number remaining);
                   ("percentage_used", percentage);
                   ("currency", String_ "USD")])])
    /\ used = match usage with S754_zero _ => S754_zero false | _ => usage end
    /\ lim = match limit with S754_zero _ => S754_zero false | _ => limit end
    /\ remaining = Num.max (S754_zero false) (Num.sub lim used)
    /\ (Num.ltb (S754_zero false) limit = false ->
        percentage = Number (S754_zero false))
    /\ (Num.ltb (S754_zero false) limit = true ->
        match Num.mul (Num.div used lim) (Num.of_Z 100) with
        | S754_finite s m x =>
            let sign := if s then "-" else EmptyString in
            if Hundredths.below_1e21 m x
            then exists n,
                   Hundredths.nearest m x n
                   /\ (forall n', Hundredths.nearest m x n' -> n' = n)
                   /\ percentage = String_ (sign ++ Hundredths.text n)
            else percentage
                 = String_ (sign ++ Num.toString (S754_finite false m x))
        | S754_zero _ => percentage = String_ "0.00"
        | S754_infinity s =>
            percentage = String_ (if s then "-Infinity" else "Infinity")
        | S754_nan => percentage = String_ "NaN"
        end)
    /\ (usage = Num.of_Z 50 -> limit = Num.of_Z 200 ->
        remaining = Num.of_Z 150 /\ percentage = String_ "25.00")
    /\ (usage = Num.of_Z 250 -> limit = Num.of_Z 200 ->
        remaining = S754_zero false /\ percentage = String_ "125.00")
    /\ (usage = Num.of_Z 2 -> limit = Num.of_Z 3 ->
        remaining = Num.of_Z 1 /\ percentage = String_ "66.67").
Proof.
  intros Hup Hs Hjson Hu Hl Hnu Hnl.
  assert (object_coercible data = true /\ object_coercible (get data "data") = true)
    as [Hco Hcd].
  { split.
    - destruct data; try reflexivity; discriminate.
    - destruct (get data "data"); try reflexivity; discriminate. }
  assert (forall x, Num.is_nan x = false ->
            or (Number x) (Number Num.zero)
            = Number match x with S754_zero _ => S754_zero false | _ => x end)
    as Hor.
  { intros x Hx. rewrite (ServerFacts.or_zero x Hx). now destruct x. }
  assert (Num.ltb Num.zero
            match limit with S754_zero _ => S754_zero false | _ => limit end
          = Num.ltb Num.zero limit) as Hpos.
  { now destruct limit as [[]| | |]. }
  pose proof (ServerFacts.usage_run e w r resp data Hup
                (ServerFacts.ok_range resp Hs) Hjson Hco) as Hrun.
  cbv zeta in Hrun. unfold get_optional in Hrun.
  rewrite Hcd, Hu, Hl, (Hor usage Hnu), (Hor limit Hnl) in Hrun.
  specialize (Hrun eq_refl eq_refl). rewrite Hrun. clear Hrun.
  unfold greater, minus, times, divide. cbn [ToNumber]. rewrite Hpos.
  change Num.zero with (S754_zero false).
  do 4 eexists. split; [reflexivity|].
  split; [reflexivity|]. split; [reflexivity|]. split; [reflexivity|].
  split; [intros H; now rewrite H|]. split.
  - intros H. rewrite H. clear H.
    set (p := Num.mul _ _). destruct p as [s|s| |s m x] eqn:E.
    + reflexivity.
    + now destruct s.
    + reflexivity.
    + cbv zeta. pose proof (FixedFacts.toFixed_2 s m x) as H.
      destruct (Hundredths.below_1e21 m x).
      * destruct H as (n & Hn & Huniq & ->). now exists n.
      * now rewrite H.
  - split; [|split]; intros -> ->; now vm_compute.
Qed.

(** C7 as it is worded fails where the percentage is [10^21] or more:
    with usage [1.5e22] and limit [7] the reader answers
    ["2.1428571428571428e+23"], the text of the number with its
    seventeen digits and an exponent, which is no number rounded to two
    decimals. *)
Lemma usage_percentage_beyond_1e21 :
  let data := Demo.key_info 15000000000000000000000 7 in
  let w := Demo.world Demo.new_year (Demo.answers 200 data) in
  exists summary,
    response (serve usage_handler Demo.env w (Demo.admin EmptyString))
    = Some (200, Object [("success", Bool true); ("usage", summary)])
    /\ get (get data "data") "usage"
       = Number (S754_finite false 7152557373046875 21)
    /\ get (get data "data") "limit" = Number (Num.of_Z 7)
    /\ get summary "percentage_used" = String_ "2.1428571428571428e+23"
    /\ forall (s : bool) (n : Z),
         "2.1428571428571428e+23"
         <> ((if s then "-" else EmptyString) ++ Hundredths.text n)%string.
Proof.
  eexists. split; [now vm_compute|].
  split; [now vm_compute|]. split; [reflexivity|]. split; [now vm_compute|].
  intros s n H.
  assert (Str.mem "e" "2.1428571428571428e+23" = true) as Hm by reflexivity.
  rewrite H, StrFacts.mem_app, FixedFacts.text_no_exponent in Hm.
  now destruct s.
Qed.

(** ** [GET /admin/account] *)




(** ** Instances *)


Lemma issued_token_round_trip_witness :
  exists token,
    response (serve admin_login Demo.env
                (Demo.world Demo.new_year (Demo.answers 200 Null)) Demo.login)
    = Some (200, Object [("success", Bool true);
                         ("token", String_ token);
                         ("message", String_ "Login successful")])
    /\ (assoc "authorization"
          (headers (Demo.admin "YWRtaW46MTczNTY4OTYwMDAwMA=="))
        = Some ("Bearer " ++ token)%string ->
        let ctx :=
          {| env := Demo.env;
             world := Demo.world (Demo.new_year + 3600000)
                        (Demo.answers 200 (Demo.key_info 50 200));
             req := Demo.admin "YWRtaW46MTczNTY4OTYwMDAwMA==" |} in
        (Buffer.well_formed "admin" = true ->
         Str.mem ":" "admin" = false ->
         Demo.new_year + 3600000 - Demo.new_year < 24 * 60 * 60 * 1000 ->
         verifyAdminSession usage_handler ctx initial
         = dispatch usage_handler ctx initial)
        /\ (Str.mem ":" "admin" = true ->
            verifyAdminSession usage_handler ctx initial
            = respond 401 expired_session ctx initial)).
Proof.
  apply (issued_token_round_trip usage_handler Demo.env
           (Demo.world Demo.new_year (Demo.answers 200 Null))
           (Demo.world (Demo.new_year + 3600000)
              (Demo.answers 200 (Demo.key_info 50 200)))
           Demo.login (Demo.admin "YWRtaW46MTczNTY4OTYwMDAwMA==")
           "admin" "correct horse");
    try reflexivity;
    unfold time_value, Demo.world, Demo.new_year; cbn [now]; lia.
Defined.


Lemma usage_summary_arithmetic_witness :
  let data := Demo.key_info 50 200 in
  let w := Demo.world Demo.new_year (Demo.answers 200 data) in
  response (serve usage_handler Demo.env w (Demo.admin EmptyString))
  = Some (200,
          Object
            [("success", Bool true);
             ("usage",
              Object
                [("used", Number (Num.of_Z 50));
                 ("limit", Number (Num.of_Z 200));
                 ("remaining", Number (Num.of_Z 150));
                 ("percentage_used", String_ "25.00");
                 ("currency", String_ "USD")])]).
Proof.
  intros data w.
  destruct (usage_summary_arithmetic Demo.env w (Demo.admin EmptyString)
              {| response_status := 200; response_json := Return data |}
              data (Num.of_Z 50) (Num.of_Z 200)
              eq_refl (conj (proj1 (Z.leb_le 200 200) eq_refl)
                            (proj1 (Z.leb_le 200 299) eq_refl))
              eq_refl eq_refl eq_refl eq_refl eq_refl)
    as (used & lim & remaining & percentage
        & Hr & Hused & Hlim & _ & _ & _ & Hex & _).
  destruct (Hex eq_refl eq_refl) as [Hrem Hp].
  rewrite Hr, Hused, Hlim, Hrem, Hp. reflexivity.
Defined.

(* ================================================================== *)
(** * Facts about whole requests *)
(* ================================================================== *)

Module RouteFacts.

Import JS Express Server Outcome.
Import StrFacts ParseFacts BufferFacts Binary64Facts ServerFacts.

(** ** The chat relay, every request *)

Lemma api_chat_effects (e : Env) (w : World) (r : Request) :
  serve api_chat e w r
  = if key_accepted e r
    then
      if object_coercible (body r)
      then
        match upstream_json w (chat_call e (body r)) with
        | Return data => answered 200 data [chat_call e (body r)] []
        | Throw err =>
            answered 500 internal_error [chat_call e (body r)]
              [chat_log_line (now w) err]
        end
      else
        answered 500 internal_error []
          [chat_log_line (now w)
             (new_Error ("Cannot destructure property 'messages' of 'req.body'"
                         ++ " as it is " ++ ToString (body r) ++ "."))]
    else answered 401 unauthorized [] [].
Proof.
  unfold key_accepted, upstream_json, answered, api_chat. run.
  destruct (negb (truthy _) || negb (strict_eq _ _)); cbn [negb]; run;
    [reflexivity|].
  destruct (object_coercible (body r)); run; [|reflexivity].
  fold (chat_call e (body r)).
  destruct (upstream w _) as [err|resp]; [reflexivity|].
  destruct (ok resp); cbn [negb]; [|reflexivity].
  now destruct (response_json resp).
Qed.

(** The key test, in words. *)
Lemma key_accepted_iff (e : Env) (r : Request) :
  key_accepted e r = true
  <-> exists k,
        assoc "x-api-key" (headers r) = Some k
        /\ FRONTEND_API_KEY e = Some k
        /\ k <> EmptyString.
Proof.
  unfold key_accepted.
  destruct (assoc "x-api-key" (headers r)) as [h|]; cbn [of_option].
  - destruct (String.eqb_spec h EmptyString) as [->|Hne].
    + split; [discriminate|]. intros (k & Hk & _ & Hne). congruence.
    + rewrite (truthy_string h Hne). cbn [negb orb]. rewrite negb_involutive.
      rewrite strict_eq_string. split.
      * intros ->. now exists h.
      * intros (k & Hk & -> & _). congruence.
  - split; [discriminate|]. intros (k & Hk & _). discriminate.
Qed.

(** ** The login, every request *)

Lemma admin_login_effects (e : Env) (w : World) (r : Request) :
  serve admin_login e w r
  = if object_coercible (body r)
    then
      if strict_eq (get (body r) "username") (ADMIN_USERNAME e)
         && strict_eq (get (body r) "password") (ADMIN_PASSWORD e)
      then
        answered 200
          (logged_in
             (Buffer.toString_base64
                (Buffer.from_utf8
                   (ToString (get (body r) "username") ++ ":"
                    ++ ToString (Number (Num.of_Z (now w)))))))
          [] []
      else answered 401 invalid_credentials [] []
    else
      {| statusCode := 200; sent := None; fetched := []; console := [];
         escaped :=
           [new_Error ("Cannot destructure property 'username' of 'req.body'"
                       ++ " as it is " ++ ToString (body r) ++ ".")] |}.
Proof.
  unfold answered, admin_login. run.
  destruct (object_coercible (body r)); run; [|reflexivity].
  now destruct (strict_eq _ _ && strict_eq _ _).
Qed.

(** ** The verifier without a usable header *)

Lemma verify_no_header (next : M unit) (ctx : Context) (st : Effects) :
  assoc "authorization" (headers (req ctx)) = None ->
  verifyAdminSession next ctx st = respond 401 no_session ctx st.
Proof.
  intros H. unfold verifyAdminSession, bind at 1, req_header, bind, ask, ret.
  now rewrite H.
Qed.

Lemma verify_no_bearer (next : M unit) (ctx : Context) (st : Effects)
    (h : string) :
  assoc "authorization" (headers (req ctx)) = Some h ->
  Str.startsWith h "Bearer " = false ->
  verifyAdminSession next ctx st = respond 401 no_session ctx st.
Proof.
  intros H Hb. unfold verifyAdminSession, bind at 1, req_header, bind, ask, ret.
  rewrite H, Hb. cbn [negb]. now rewrite orb_true_r.
Qed.

Lemma respond_initial (code : Z) (v : value) (ctx : Context) :
  respond code v ctx initial = (Return tt, answered code v [] []).
Proof. reflexivity. Qed.

(** What the verifier does with a request, whatever it is: one of two
    refusals, or the guarded operation. *)
Lemma verify_cases (next : M unit) (ctx : Context) :
  let token :=
    match assoc "authorization" (headers (req ctx)) with
    | Some h =>
        if Str.startsWith h "Bearer "
        then nth_error (Str.split " " h) 1 else None
    | None => None
    end in
  verifyAdminSession next ctx initial
  = match token with
    | None => (Return tt, answered 401 no_session [] [])
    | Some t =>
        if admits (ADMIN_USERNAME (env ctx)) (now (world ctx)) (decoded t)
        then dispatch next ctx initial
        else (Return tt, answered 401 expired_session [] [])
    end.
Proof.
  destruct (assoc "authorization" (headers (req ctx))) as [h|] eqn:Hh;
    cbn beta zeta.
  - destruct (Str.startsWith h "Bearer ") eqn:Hb.
    + destruct (bearer_token h Hb) as (token & Htok & _).
      rewrite Htok, (verify_run next ctx initial h token Hh Hb Htok).
      now destruct (admits _ _ _).
    + now rewrite (verify_no_bearer next ctx initial h Hh Hb).
  - now rewrite (verify_no_header next ctx initial Hh).
Qed.

(** ** The admin readers, every request *)

Lemma usage_handler_effects (e : Env) (w : World) (r : Request) :
  serve usage_handler e w r
  = match usage_data e w with
    | Return d =>
        answered 200
          (Object [("success", Bool true); ("usage", usage_summary d)])
          [key_info_request (OPENROUTER_API_KEY e)] []
    | Throw err =>
        answered 500 (failed "Failed to fetch usage info")
          [key_info_request (OPENROUTER_API_KEY e)]
          [[LogText "Admin Usage Error:"; LogText (message err)]]
    end.
Proof.
  unfold usage_data, key_info_data, upstream_json, answered, usage_summary.
  unfold usage_handler, serve, dispatch, try_catch.
  rewrite key_info_run.
  destruct (upstream w _) as [err|resp]; run; [reflexivity|].
  destruct (ok resp); cbn [negb]; run; [|reflexivity].
  destruct (response_json resp) as [data|err]; run; [|reflexivity].
  destruct (object_coercible data); run; [|reflexivity].
  destruct (converts (or (get_optional (get data "data") "limit") _));
    cbn [andb]; run; [|reflexivity].
  destruct (converts (or (get_optional (get data "data") "usage") _));
    run; reflexivity.
Qed.

(** A payload whose usage and limit are numbers, or are left out,
    passes the conversions. *)
Lemma usage_data_numbers (e : Env) (w : World) (d : value) :
  key_info_data e w = Return d ->
  converts (or (get_optional d "limit") (Number Num.zero)) = true ->
  converts (or (get_optional d "usage") (Number Num.zero)) = true ->
  usage_data e w = Return d.
Proof.
  intros Hd Hl Hu. unfold usage_data. now rewrite Hd, Hl, Hu.
Qed.

Lemma account_handler_effects (e : Env) (w : World) (r : Request) :
  serve account_handler e w r
  = match key_info_data e w with
    | Return d =>
        answered 200
          (Object
             [("success", Bool true);
              ("account",
               Object
                 [("label", or (get_optional d "label") (String_ "Unknown"));
                  ("usage", or (get_optional d "usage") (Number Num.zero));
                  ("limit", or (get_optional d "limit") (Number Num.zero));
                  ("is_free_tier",
                   or (get_optional d "is_free_tier") (Bool false));
                  ("rate_limit",
                   or (get_optional d "rate_limit") (Object []))])])
          [key_info_request (OPENROUTER_API_KEY e)] []
    | Throw err =>
        answered 500 (failed "Failed to fetch account info")
          [key_info_request (OPENROUTER_API_KEY e)]
          [[LogText "Admin Account Error:"; LogText (message err)]]
    end.
Proof.
  unfold key_info_data, upstream_json, answered.
  unfold account_handler, serve, dispatch, try_catch.
  rewrite key_info_run.
  destruct (upstream w _) as [err|resp]; run; [reflexivity|].
  destruct (ok resp); cbn [negb]; run; [|reflexivity].
  destruct (response_json resp) as [data|err]; run; [|reflexivity].
  destruct (object_coercible data); run; reflexivity.
Qed.

(** A route behind the verifier: the refusal, or the route itself. *)
Lemma guarded_effects (h : M unit) (e : Env) (w : World) (r : Request) :
  let token :=
    match assoc "authorization" (headers r) with
    | Some a =>
        if Str.startsWith a "Bearer "
        then nth_error (Str.split " " a) 1 else None
    | None => None
    end in
  serve (verifyAdminSession h) e w r
  = match token with
    | None => answered 401 no_session [] []
    | Some t =>
        if admits (ADMIN_USERNAME e) (now w) (decoded t)
        then serve h e w r
        else answered 401 expired_session [] []
    end.
Proof.
  intros token. unfold serve at 1, dispatch at 1.
  rewrite (verify_cases h {| env := e; world := w; req := r |}).
  cbn [req env world headers]. fold token.
  destruct token as [t|]; [|reflexivity].
  destruct (admits _ _ _); [|reflexivity].
  unfold serve, dispatch.
  now destruct (h _ initial) as [[] st'].
Qed.

End RouteFacts.

(** ** The age test over time *)

Module SessionFacts.

Import JS Express Server Outcome.
Import StrFacts ParseFacts BufferFacts Binary64Facts ServerFacts.

(** A token that passes at one clock reading passes at every earlier
    one. *)
Lemma admits_earlier (adm : option string) (t1 t2 : Z) (parts : list string) :
  time_value t1 -> time_value t2 -> t1 <= t2 ->
  admits adm t2 parts = true -> admits adm t1 parts = true.
Proof.
  intros H1 H2 Hle. unfold admits.
  rewrite (age_of_text t1 _ H1), (age_of_text t2 _ H2).
  intros H. apply andb_prop in H as [-> Hage]. cbn [andb].
  destruct (parseInt_integer _) as [issued|]; [|discriminate].
  apply Z.ltb_lt in Hage. apply Z.ltb_lt. lia.
Qed.

(** Without a configured admin user name nothing passes: the name read
    in a token is a string, the variable is [undefined]. *)
Lemma admits_unconfigured (t : Z) (token : string) :
  admits None t (decoded token) = false.
Proof.
  destruct (decoded_nonempty token) as (u & rest & -> & _).
  reflexivity.
Qed.

Lemma toString_ascii_app (a b : string) :
  Str.ascii_only a = true ->
  Buffer.toString (a ++ b) = (a ++ Buffer.toString b)%string.
Proof.
  induction a as [|c t IH]; simpl; [reflexivity|].
  intros H. apply andb_prop in H as [-> Ht]. now rewrite (IH Ht).
Qed.

(** What the verifier reads in a token with more text after the
    timestamp. *)
Lemma decoded_longer (u x : string) (t : Z) :
  Buffer.well_formed u = true ->
  Str.mem ":" u = false ->
  decoded (Buffer.toString_base64
             (Buffer.from_utf8 (u ++ ":" ++ Str.of_Z t ++ ":" ++ x)))
  = u :: Str.of_Z t :: Str.split ":" (Buffer.toString x).
Proof.
  intros Hwf Hc. unfold decoded.
  rewrite from_base64_toString. unfold Buffer.from_utf8.
  rewrite toString_app by exact Hwf.
  change (":" ++ Str.of_Z t ++ ":" ++ x)%string
    with (String ":" (Str.of_Z t ++ String ":" x)).
  change (Buffer.toString (String ":" (Str.of_Z t ++ String ":" x)))
    with (String ":" (Buffer.toString (Str.of_Z t ++ String ":" x))).
  rewrite toString_ascii_app by apply of_Z_ascii.
  change (Buffer.toString (String ":" x))
    with (String ":" (Buffer.toString x)).
  rewrite split_at by exact Hc.
  rewrite split_at; [reflexivity|].
  apply of_Z_mem. change (Str.code ":") with 58%N. lia.
Qed.

(** ** [Math.max(0, limit - usage)] *)

Lemma max_zero_not_negative (x : Num.number) :
  Num.ltb (Num.max Num.zero x) Num.zero = false.
Proof. destruct x as [[]|[]| |[] m e]; reflexivity. Qed.

Lemma max_zero_less_positive (u : Num.number) :
  Num.ltb Num.zero u = true ->
  Num.max Num.zero (Num.sub Num.zero u) = Num.zero.
Proof. destruct u as [[]|[]| |[] m e]; try discriminate; reflexivity. Qed.

Lemma positive_truthy (u : Num.number) :
  Num.ltb Num.zero u = true -> truthy (Number u) = true.
Proof. destruct u as [[]|[]| |[] m e]; try discriminate; reflexivity. Qed.

End SessionFacts.

(** ** Exact subtraction of integers *)

Module ExactFacts.

Import Num Binary64Facts.

Lemma small_unique (s : bool) (z : positive) (x y : number) :
  small s z x -> small s z y -> x = y.
Proof.
  intros (m & -> & Hm) (m' & -> & Hm'). f_equal.
  apply Pos2Z.inj. congruence.
Qed.

(** An integer below [2^53] in magnitude has one representation. *)
Lemma normalize_is_of_Z (z k : Z) :
  0 <= k <= 60 ->
  - 2 ^ 53 < z < 2 ^ 53 ->
  binary_normalize prec emax (z * 2 ^ k) (- k) false = Num.of_Z z.
Proof.
  intros Hk Hz. pose proof (normalize_int z k Hk) as H.
  pose proof (of_Z_class z) as H'.
  destruct z as [|p|p].
  - now rewrite H, H'.
  - assert ((Zpos p <? 2 ^ 53) = true) as E by (apply Z.ltb_lt; lia).
    rewrite E in H, H'. exact (small_unique _ _ _ _ H H').
  - assert ((Zpos p <? 2 ^ 53) = true) as E by (apply Z.ltb_lt; lia).
    rewrite E in H, H'. exact (small_unique _ _ _ _ H H').
Qed.

Lemma small_of_Z (s : bool) (p : positive) :
  Zpos p < 2 ^ 53 -> small s p (Num.of_Z (cond_Zopp s (Zpos p))).
Proof.
  intros Hp. apply Z.ltb_lt in Hp.
  destruct s; cbn [cond_Zopp].
  - pose proof (of_Z_class (Zneg p)) as H. cbv beta iota in H.
    now rewrite Hp in H.
  - pose proof (of_Z_class (Zpos p)) as H. cbv beta iota in H.
    now rewrite Hp in H.
Qed.

(** The difference of two integers below [2^53] in magnitude is the
    number of their difference, when that is below [2^53] too. *)
Lemma sub_of_Z (a b : Z) :
  - 2 ^ 53 < a < 2 ^ 53 ->
  - 2 ^ 53 < b < 2 ^ 53 ->
  - 2 ^ 53 < a - b < 2 ^ 53 ->
  sub (Num.of_Z a) (Num.of_Z b) = Num.of_Z (a - b).
Proof.
  intros Ha Hb Hab.
  assert (forall s p, Zpos p < 2 ^ 53 ->
            sub (S754_zero false) (Num.of_Z (cond_Zopp s (Zpos p)))
            = Num.of_Z (cond_Zopp (negb s) (Zpos p))) as Hneg.
  { intros s p Hp.
    apply (small_unique (negb s) p); [|now apply small_of_Z].
    destruct (small_of_Z s p Hp) as (m & -> & Hm).
    exists m. split; [reflexivity | exact Hm]. }
  assert (forall s p, Zpos p < 2 ^ 53 ->
            sub (Num.of_Z (cond_Zopp s (Zpos p))) (S754_zero false)
            = Num.of_Z (cond_Zopp s (Zpos p))) as Hzero.
  { intros s p Hp. now destruct (small_of_Z s p Hp) as (m & -> & Hm). }
  assert (forall sa p sb q, Zpos p < 2 ^ 53 -> Zpos q < 2 ^ 53 ->
            - 2 ^ 53 < cond_Zopp sa (Zpos p) - cond_Zopp sb (Zpos q) < 2 ^ 53 ->
            sub (Num.of_Z (cond_Zopp sa (Zpos p)))
              (Num.of_Z (cond_Zopp sb (Zpos q)))
            = Num.of_Z (cond_Zopp sa (Zpos p) - cond_Zopp sb (Zpos q))) as Hboth.
  { intros sa p sb q Hp Hq Hd.
    destruct (sub_small_small p q sa sb _ _
                (small_of_Z sa p Hp) (small_of_Z sb q Hq))
      as (k & Hk & ->); try (now apply digits_small).
    now apply normalize_is_of_Z. }
  change (Num.of_Z 0) with (S754_zero false) in *.
  destruct a as [|p|p], b as [|q|q]; try reflexivity.
  - apply (Hneg false q). lia.
  - apply (Hneg true q). lia.
  - apply (Hzero false p). lia.
  - apply (Hboth false p false q); cbn [cond_Zopp]; lia.
  - apply (Hboth false p true q); cbn [cond_Zopp]; lia.
  - apply (Hzero true p). lia.
  - apply (Hboth true p false q); cbn [cond_Zopp]; lia.
  - apply (Hboth true p true q); cbn [cond_Zopp]; lia.
Qed.

(** [Math.max(0, z)] on the number of an integer. *)
Lemma max_zero_of_Z (z : Z) :
  - 2 ^ 53 < z < 2 ^ 53 ->
  Num.max Num.zero (Num.of_Z z) = Num.of_Z (Z.max 0 z).
Proof.
  intros Hz. destruct z as [|p|p].
  - reflexivity.
  - rewrite Z.max_r by lia.
    destruct (small_of_Z false p) as (m & E & _); [lia|].
    cbn [cond_Zopp Z.opp] in E. rewrite E. clear E.
    repeat split.
  - rewrite Z.max_l by lia.
    destruct (small_of_Z true p) as (m & E & _); [lia|].
    cbn [cond_Zopp Z.opp] in E. rewrite E. clear E.
    repeat split.
Qed.

(** An integer is zero as a number only when it is [0]. *)
Lemma of_Z_is_zero (z : Z) :
  - 2 ^ 53 < z < 2 ^ 53 ->
  Num.is_zero (Num.of_Z z) = (z =? 0) /\ Num.is_nan (Num.of_Z z) = false.
Proof.
  intros Hz. destruct z as [|p|p].
  - now split.
  - destruct (small_of_Z false p) as (m & E & _); [lia|].
    cbn [cond_Zopp Z.opp] in E. rewrite E. clear E.
    repeat split.
  - destruct (small_of_Z true p) as (m & E & _); [lia|].
    cbn [cond_Zopp Z.opp] in E. rewrite E. clear E.
    repeat split.
Qed.

End ExactFacts.

(* ================================================================== *)
(** * Facts about the page *)
(* ================================================================== *)

Module PageFacts.

Import JS Express Server Outcome.
Import Page.

(** Runs a function of the script symbolically. *)
Ltac step :=
  repeat progress
    (unfold attempt, and_then, pure, raise, get_tab, set_authToken,
       localStorage_getItem, localStorage_setItem, localStorage_removeItem,
       update, fetch, fetch_both, json, prop, showDashboard, to_primitive;
     cbn [authToken adminToken document requests fst snd
          loginForm dashboard username password loginError accountInfo
          on_loginForm on_dashboard with_username with_password
          with_loginError with_accountInfo]).

(** ** Class lists *)

Lemma hidden_add (l : list string) : hidden (classList_add "hidden" l) = true.
Proof.
  unfold hidden, classList_add.
  destruct (existsb (String.eqb "hidden") l) eqn:E; [exact E|].
  rewrite existsb_app. cbn. apply orb_true_r.
Qed.

Lemma hidden_remove (l : list string) :
  hidden (classList_remove "hidden" l) = false.
Proof.
  unfold hidden, classList_remove.
  induction l as [|c l IH]; [reflexivity|]. cbn [filter].
  destruct (String.eqb c "hidden") eqn:E; cbn [negb]; [exact IH|].
  cbn [existsb]. rewrite IH, String.eqb_sym, E. reflexivity.
Qed.

(** ** [loadAccountInfo] *)

(** The substitutions of the card read the two values and nothing
    else. *)
Lemma account_details_pure (account usage : value) :
  exists r : result string,
    (forall net tab, account_details account usage net tab = (r, tab))
    /\ match r with
       | Return html => exists a b c d e f g, html = details a b c d e f g
       | Throw _ => True
       end.
Proof.
  unfold account_details, call_toFixed. step.
  destruct (object_coercible account); [|now eexists].
  destruct (converts (get account "label")); [|now eexists].
  destruct (object_coercible usage); [|now eexists].
  destruct (get usage "used"); try (now eexists).
  destruct (get usage "limit"); try (now eexists).
  destruct (get usage "remaining"); try (now eexists).
  destruct (converts (get usage "percentage_used")); [|now eexists].
  eexists. split; [reflexivity|]. cbv beta iota. now do 7 eexists.
Qed.

Lemma account_details_numbers
    (account usage : value) (used limit remaining : Num.number)
    (net : Net) (tab : Tab) :
  object_coercible account = true ->
  object_coercible usage = true ->
  converts (get account "label") = true ->
  converts (get usage "percentage_used") = true ->
  get usage "used" = Number used ->
  get usage "limit" = Number limit ->
  get usage "remaining" = Number remaining ->
  account_details account usage net tab
  = (Return
       (details (ToString (get account "label"))
          (if truthy (get account "is_free_tier") then "Free Tier" else "Paid")
          (Num.toFixed used 4) (Num.toFixed limit 2)
          (Num.toFixed remaining 4)
          (ToString (get usage "percentage_used"))
          (if greater (get usage "percentage_used") (Num.of_Z 80)
           then "#dc3545" else "#007bff")),
     tab).
Proof.
  intros Ha Hu Hl Hp H1 H2 H3. unfold account_details, call_toFixed. step.
  now rewrite Ha, Hl, Hu, H1, H2, H3, Hp.
Qed.

(** With a token that has a string, [loadAccountInfo] makes its two
    requests, writes the card and touches nothing else; it never
    throws. *)
Lemma load_frame (net : Net) (tab : Tab) :
  converts (authToken tab) = true ->
  exists html,
    loadAccountInfo net tab = (Return tt, loaded tab html)
    /\ (html = failed_card \/ html = error_card
        \/ exists a b c d e f g, html = details a b c d e f g).
Proof.
  intros Hc. unfold loadAccountInfo, loaded. step. rewrite Hc. step.
  destruct (net (admin_request "/admin/account" (authToken tab))) as [e1|r1];
    [destruct (net (admin_request "/admin/usage" (authToken tab)));
     eexists; (split; [reflexivity | auto])|].
  destruct (net (admin_request "/admin/usage" (authToken tab))) as [e2|r2];
    [eexists; (split; [reflexivity | auto])|].
  step.
  destruct (response_json r1) as [ad|e1]; step;
    [|eexists; (split; [reflexivity | auto])].
  destruct (response_json r2) as [ud|e2]; step;
    [|eexists; (split; [reflexivity | auto])].
  destruct (object_coercible ad) eqn:Had; step;
    [|eexists; (split; [reflexivity | auto])].
  destruct (truthy (get ad "success")) eqn:Hs; step.
  - destruct (object_coercible ud) eqn:Hud; step;
      [|eexists; (split; [reflexivity | auto])].
    destruct (truthy (get ud "success")); step;
      [|eexists; (split; [reflexivity | auto])].
    destruct (account_details_pure (get ad "account") (get ud "usage"))
      as (r & Hr & Hshape).
    rewrite Hr. destruct r as [html|err]; step;
      eexists; (split; [reflexivity | auto]).
  - rewrite Hs. step. eexists; (split; [reflexivity | auto]).
Qed.

(** With a token that has no string the header cannot be made:
    [loadAccountInfo] calls nothing and writes the error card. *)
Lemma load_without_header (net : Net) (tab : Tab) :
  converts (authToken tab) = false ->
  loadAccountInfo net tab = (Return tt, unsent tab).
Proof.
  intros Hc. unfold loadAccountInfo, unsent. step. rewrite Hc. step.
  reflexivity.
Qed.

(** The three ways to the card, by what the two answers hold. *)
Lemma load_refused (net : Net) (tab : Tab) (r1 r2 : FetchResponse)
    (ad ud : value) :
  converts (authToken tab) = true ->
  net (admin_request "/admin/account" (authToken tab)) = Resolved r1 ->
  net (admin_request "/admin/usage" (authToken tab)) = Resolved r2 ->
  response_json r1 = Return ad ->
  response_json r2 = Return ud ->
  object_coercible ad = true ->
  object_coercible ud = true ->
  truthy (get ad "success") && truthy (get ud "success") = false ->
  loadAccountInfo net tab = (Return tt, loaded tab failed_card).
Proof.
  intros Hc H1 H2 J1 J2 Ca Cu Hs. unfold loadAccountInfo, loaded. step.
  rewrite Hc. step. rewrite H1, H2. step. rewrite J1, J2. step. rewrite Ca. step.
  destruct (truthy (get ad "success")) eqn:E; step.
  - rewrite Cu. step. cbn [andb] in Hs. rewrite Hs. step. reflexivity.
  - rewrite E. step. reflexivity.
Qed.

Lemma load_details (net : Net) (tab : Tab) (r1 r2 : FetchResponse)
    (ad ud : value) (used limit remaining : Num.number) :
  converts (authToken tab) = true ->
  net (admin_request "/admin/account" (authToken tab)) = Resolved r1 ->
  net (admin_request "/admin/usage" (authToken tab)) = Resolved r2 ->
  response_json r1 = Return ad ->
  response_json r2 = Return ud ->
  truthy (get ad "success") = true ->
  truthy (get ud "success") = true ->
  object_coercible (get ad "account") = true ->
  object_coercible (get ud "usage") = true ->
  converts (get (get ad "account") "label") = true ->
  converts (get (get ud "usage") "percentage_used") = true ->
  get (get ud "usage") "used" = Number used ->
  get (get ud "usage") "limit" = Number limit ->
  get (get ud "usage") "remaining" = Number remaining ->
  loadAccountInfo net tab
  = (Return tt,
     loaded tab
       (details (ToString (get (get ad "account") "label"))
          (if truthy (get (get ad "account") "is_free_tier")
           then "Free Tier" else "Paid")
          (Num.toFixed used 4) (Num.toFixed limit 2)
          (Num.toFixed remaining 4)
          (ToString (get (get ud "usage") "percentage_used"))
          (if greater (get (get ud "usage") "percentage_used") (Num.of_Z 80)
           then "#dc3545" else "#007bff"))).
Proof.
  intros Hc H1 H2 J1 J2 Sa Su Ca Cu Ll Lp U1 U2 U3.
  assert (object_coercible ad = true) as Cad
      by (destruct ad; try reflexivity; discriminate).
  assert (object_coercible ud = true) as Cud
      by (destruct ud; try reflexivity; discriminate).
  unfold loadAccountInfo, loaded. step. rewrite Hc. step.
  rewrite H1, H2. step. rewrite J1, J2. step. rewrite Cad. step.
  rewrite Sa. step. rewrite Cud. step. rewrite Su. step.
  rewrite (account_details_numbers _ _ used limit remaining _ _
             Ca Cu Ll Lp U1 U2 U3).
  step. reflexivity.
Qed.

End PageFacts.

(* ================================================================== *)
(** * Facts about the page and the server together *)
(* ================================================================== *)

Module SiteFacts.

Import JS Express Server Outcome.
Import Page Site.
Import StrFacts ParseFacts BufferFacts Binary64Facts ServerFacts.

(** ** The JSON round trip *)

Lemma through_json_object (props : list (string * value)) :
  through_json (Object props) = Object (json_properties props).
Proof. reflexivity. Qed.

Lemma json_properties_cons (k : string) (x : value)
    (r : list (string * value)) :
  x <> Undefined ->
  json_properties ((k, x) :: r) = (k, through_json x) :: json_properties r.
Proof. intros H. destruct x; try reflexivity. now elim H. Qed.

Lemma json_properties_nil : json_properties [] = [].
Proof. reflexivity. Qed.

Lemma through_json_of_Z (z : Z) :
  - 2 ^ 53 < z < 2 ^ 53 ->
  through_json (Number (Num.of_Z z)) = Number (Num.of_Z z).
Proof.
  intros Hz. pose proof (of_Z_class z) as H.
  destruct z as [|p|p].
  - reflexivity.
  - assert ((Zpos p <? 2 ^ 53) = true) as E by (apply Z.ltb_lt; lia).
    rewrite E in H. destruct H as (m & -> & _). reflexivity.
  - assert ((Zpos p <? 2 ^ 53) = true) as E by (apply Z.ltb_lt; lia).
    rewrite E in H. destruct H as (m & -> & _). reflexivity.
Qed.

Lemma or_defined (x d : value) : d <> Undefined -> or x d <> Undefined.
Proof.
  intros Hd. unfold or. destruct (truthy x) eqn:E; [|exact Hd].
  now destruct x.
Qed.

(** ** What the page's requests reach *)

Lemma site_login (e : Env) (v : Visit) (u p : string) :
  site e v (login_request u p)
  = answer (serve admin_login e (at_login v)
              {| headers := [("content-type", "application/json")];
                 body := Object [("username", String_ u);
                                 ("password", String_ p)] |}).
Proof. reflexivity. Qed.

Lemma site_account (e : Env) (v : Visit) (token : value) :
  site e v (admin_request "/admin/account" token)
  = answer (serve admin_account e (at_account v)
              {| headers := [("authorization", "Bearer " ++ ToString token)%string];
                 body := Object [] |}).
Proof. reflexivity. Qed.

Lemma site_usage (e : Env) (v : Visit) (token : value) :
  site e v (admin_request "/admin/usage" token)
  = answer (serve admin_usage e (at_usage v)
              {| headers := [("authorization", "Bearer " ++ ToString token)%string];
                 body := Object [] |}).
Proof. reflexivity. Qed.

(** A guarded route for a request that carries the token of the
    login. *)
Lemma guarded_issue (h : M unit) (e : Env) (w : World) (u : string) (t : Z)
    (b : value) :
  time_value (now w) ->
  ADMIN_USERNAME e = Some u ->
  Buffer.well_formed u = true ->
  Str.mem ":" u = false ->
  serve (verifyAdminSession h) e w
    {| headers := [("authorization", "Bearer " ++ issue u t)%string];
       body := b |}
  = if now w - t <? 24 * 60 * 60 * 1000
    then serve h e w
           {| headers := [("authorization", "Bearer " ++ issue u t)%string];
              body := b |}
    else answered 401 expired_session [] [].
Proof.
  intros Hw Hu Hwf Hc. rewrite RouteFacts.guarded_effects.
  cbn [headers assoc String.eqb Ascii.eqb Bool.eqb].
  destruct (bearer_token_of (issue u t) (issue_no_space u t)) as [-> ->].
  now rewrite Hu, (admits_issue u (now w) t Hw Hwf Hc).
Qed.

Lemma issue_not_empty (u : string) (t : Z) : issue u t <> EmptyString.
Proof.
  assert (forall a r, Buffer.toString_base64 (String a r) <> EmptyString) as H.
  { intros a [|b [|c r]]; discriminate. }
  unfold issue, Buffer.from_utf8. destruct u as [|a r]; apply H.
Qed.

(** ** What the readers send back *)

Lemma answer_object (code : Z) (props : list (string * value))
    (calls : list FetchRequest) (lines : list (list LogArg)) :
  answer (answered code (Object props) calls lines)
  = Resolved {| response_status := code;
                response_json := Return (Object (json_properties props)) |}.
Proof. reflexivity. Qed.

(** Both admin routes answer every request with a JSON object. *)
Lemma admin_routes_answer_objects (e : Env) (w : World) (r : Request) :
  (exists code props,
      answer (serve admin_account e w r)
      = Resolved {| response_status := code;
                    response_json := Return (Object props) |})
  /\ (exists code props,
         answer (serve admin_usage e w r)
         = Resolved {| response_status := code;
                       response_json := Return (Object props) |}).
Proof.
  unfold admin_account, admin_usage. rewrite !RouteFacts.guarded_effects.
  rewrite RouteFacts.account_handler_effects, RouteFacts.usage_handler_effects.
  split.
  - destruct (assoc "authorization" (headers r)) as [h|];
      [|now do 2 eexists].
    destruct (Str.startsWith h "Bearer "); [|now do 2 eexists].
    destruct (nth_error _ 1) as [t|]; [|now do 2 eexists].
    destruct (admits _ _ _); [|now do 2 eexists].
    destruct (key_info_data e w); now do 2 eexists.
  - destruct (assoc "authorization" (headers r)) as [h|];
      [|now do 2 eexists].
    destruct (Str.startsWith h "Bearer "); [|now do 2 eexists].
    destruct (nth_error _ 1) as [t|]; [|now do 2 eexists].
    destruct (admits _ _ _); [|now do 2 eexists].
    destruct (usage_data e w); now do 2 eexists.
Qed.

(** The usage summary of a payload of integers, and what the page
    receives of it. *)
Lemma usage_summary_integers (d : value) (usage limit : Z) :
  get_optional d "usage" = Number (Num.of_Z usage) ->
  get_optional d "limit" = Number (Num.of_Z limit) ->
  0 <= usage < 2 ^ 53 ->
  0 <= limit < 2 ^ 53 ->
  exists percentage,
    usage_summary d
    = Object
        [("used", Number (Num.of_Z usage));
         ("limit", Number (Num.of_Z limit));
         ("remaining", Number (Num.of_Z (Z.max 0 (limit - usage))));
         ("percentage_used", percentage);
         ("currency", String_ "USD")]
    /\ through_json percentage = percentage
    /\ percentage <> Undefined
    /\ converts percentage = true.
Proof.
  intros Hu Hl Ha Hb.
  assert (forall z, 0 <= z < 2 ^ 53 ->
            or (Number (Num.of_Z z)) (Number Num.zero) = Number (Num.of_Z z))
    as Hor.
  { intros z Hz. unfold or, truthy.
    destruct (ExactFacts.of_Z_is_zero z) as [-> ->]; [lia|].
    rewrite orb_false_r.
    destruct (Z.eqb_spec z 0) as [->|_]; reflexivity. }
  unfold usage_summary. rewrite Hu, Hl, (Hor usage Ha), (Hor limit Hb).
  unfold minus. cbn [ToNumber].
  rewrite ExactFacts.sub_of_Z, ExactFacts.max_zero_of_Z by lia.
  eexists. split; [reflexivity|].
  destruct (greater _ _); repeat split; discriminate.
Qed.

(** A payload whose usage and limit are numbers passes the
    conversions of the usage reader. *)
Lemma usage_data_of_numbers (e : Env) (w : World) (d : value)
    (usage limit : Num.number) :
  key_info_data e w = Return d ->
  get_optional d "usage" = Number usage ->
  get_optional d "limit" = Number limit ->
  usage_data e w = Return d.
Proof.
  intros Hd Hu Hl. apply (RouteFacts.usage_data_numbers e w d Hd).
  - rewrite Hl. unfold or. now destruct (truthy (Number limit)).
  - rewrite Hu. unfold or. now destruct (truthy (Number usage)).
Qed.

Lemma usage_data_failure (e : Env) (w : World) (err : Error) :
  key_info_data e w = Throw err -> usage_data e w = Throw err.
Proof. intros H. unfold usage_data. now rewrite H. Qed.

Lemma json_usage_summary (usage limit : Z) (percentage : value) :
  0 <= usage < 2 ^ 53 ->
  0 <= limit < 2 ^ 53 ->
  through_json percentage = percentage ->
  percentage <> Undefined ->
  through_json
    (Object
       [("used", Number (Num.of_Z usage));
        ("limit", Number (Num.of_Z limit));
        ("remaining", Number (Num.of_Z (Z.max 0 (limit - usage))));
        ("percentage_used", percentage);
        ("currency", String_ "USD")])
  = Object
      [("used", Number (Num.of_Z usage));
       ("limit", Number (Num.of_Z limit));
       ("remaining", Number (Num.of_Z (Z.max 0 (limit - usage))));
       ("percentage_used", percentage);
       ("currency", String_ "USD")].
Proof.
  intros Ha Hb Hp Hd.
  rewrite through_json_object.
  rewrite !json_properties_cons by (discriminate || exact Hd).
  rewrite json_properties_nil, Hp.
  now rewrite !through_json_of_Z by lia.
Qed.

(** The account the page receives: its label is the label of the
    payload when that is a string that is not empty. *)
Lemma json_account (d : value) (l : string) :
  get_optional d "label" = String_ l ->
  l <> EmptyString ->
  exists rest,
    through_json
      (Object
         [("label", or (get_optional d "label") (String_ "Unknown"));
          ("usage", or (get_optional d "usage") (Number Num.zero));
          ("limit", or (get_optional d "limit") (Number Num.zero));
          ("is_free_tier", or (get_optional d "is_free_tier") (Bool false));
          ("rate_limit", or (get_optional d "rate_limit") (Object []))])
    = Object (("label", String_ l) :: rest).
Proof.
  intros Hl Hne. rewrite through_json_object.
  rewrite json_properties_cons by (apply or_defined; discriminate).
  rewrite Hl. unfold or at 1. rewrite (truthy_string l Hne).
  now eexists.
Qed.

End SiteFacts.

Import Outcome.

(* ================================================================== *)
(** * Further properties of the routes *)
(* ================================================================== *)

(** ** [POST /api/chat]: errors and edges *)

(** X1. The relay answers every request, whatever the configuration,
    the upstream provider and the request: it sends 401 "Unauthorized"
    having called and logged nothing, or 200 with one upstream call and
    nothing logged, or 500 "Internal server error" with one log line and
    at most one upstream call.  No exception leaves the handler. *)
Theorem chat_answers_every_request (e : Env) (w : World) (r : Request) :
  let fx := serve api_chat e w r in
  escaped fx = []
  /\ (fx = answered 401 unauthorized [] []
      \/ (exists data, fx = answered 200 data [chat_call e (body r)] [])
      \/ (exists err calls,
            fx = answered 500 internal_error calls [chat_log_line (now w) err]
            /\ (calls = [] \/ calls = [chat_call e (body r)]))).
Proof.
  cbn zeta. rewrite RouteFacts.api_chat_effects.
  destruct (key_accepted e r); [|split; [reflexivity | now left]].
  destruct (object_coercible (body r)).
  - destruct (upstream_json w _) as [data|err]; (split; [reflexivity|]).
    + right. left. now exists data.
    + right. right. exists err, [chat_call e (body r)]. split; [reflexivity|].
      now right.
  - split; [reflexivity|]. right. right. eexists. exists []. split; [reflexivity|].
    now left.
Qed.

(** X2. When the shared secret is not configured, or is the empty
    string, the relay refuses every request with 401 and calls nothing:
    an absent or empty header is falsy, and a non-empty one differs from
    the secret. *)
Theorem chat_is_closed_without_secret (e : Env) (w : World) (r : Request) :
  FRONTEND_API_KEY e = None \/ FRONTEND_API_KEY e = Some EmptyString ->
  serve api_chat e w r = answered 401 unauthorized [] [].
Proof.
  intros H. rewrite RouteFacts.api_chat_effects.
  destruct (key_accepted e r) eqn:E; [|reflexivity].
  apply RouteFacts.key_accepted_iff in E as (k & _ & Hk & Hne).
  destruct H as [H|H]; congruence.
Qed.

Lemma chat_is_closed_without_secret_witness :
  serve api_chat
    {| FRONTEND_API_KEY := Some EmptyString;
       API_URL := API_URL Demo.env;
       OPENROUTER_API_KEY := OPENROUTER_API_KEY Demo.env;
       MODEL := MODEL Demo.env;
       ADMIN_USERNAME := None;
       ADMIN_PASSWORD := None |}
    (Demo.world Demo.new_year (Demo.answers 200 Demo.completion))
    {| headers := [("x-api-key", EmptyString)]; body := body Demo.chat |}
  = answered 401 unauthorized [] [].
Proof.
  apply chat_is_closed_without_secret. right. reflexivity.
Defined.

(** X3. Behind the key check, when the upstream call fails (the call is
    rejected, the status is not a success, or the body does not parse),
    the relay answers 500 "Internal server error" after exactly that one
    call and logs one line: the fixed label, the clock reading, the
    message of the error and its status or ["unknown"].  Nothing else
    is logged. *)
Theorem chat_upstream_failure_is_logged
    (e : Env) (w : World) (r : Request) (err : Error) :
  key_accepted e r = true ->
  object_coercible (body r) = true ->
  upstream_json w (chat_call e (body r)) = Throw err ->
  serve api_chat e w r
  = answered 500 internal_error [chat_call e (body r)]
      [[LogText "API Proxy Error (no user data logged):";
        LogRecord
          [("timestamp", LogISODate (now w));
           ("error", LogValue (String_ (message err)));
           ("status", LogValue (or (status err) (String_ "unknown")))]]].
Proof.
  intros Hk Hb Hup. now rewrite RouteFacts.api_chat_effects, Hk, Hb, Hup.
Qed.

Lemma chat_upstream_failure_is_logged_witness :
  serve api_chat Demo.env
    (Demo.world Demo.new_year (Demo.answers 503 Null)) Demo.chat
  = answered 500 internal_error [chat_call Demo.env (body Demo.chat)]
      [[LogText "API Proxy Error (no user data logged):";
        LogRecord
          [("timestamp", LogISODate Demo.new_year);
           ("error", LogValue (String_ "OpenRouter API error: 503"));
           ("status", LogValue (String_ "unknown"))]]].
Proof.
  apply (chat_upstream_failure_is_logged Demo.env
           (Demo.world Demo.new_year (Demo.answers 503 Null)) Demo.chat
           (new_Error "OpenRouter API error: 503"));
    reflexivity.
Defined.

(** X4. A request with the right key and no body ([req.body] is
    [undefined] or [null]) is answered 500 "Internal server error": the
    destructuring throws inside the [try], no upstream call is made and
    the error is logged. *)
Theorem chat_without_body_is_an_internal_error
    (e : Env) (w : World) (r : Request) :
  key_accepted e r = true ->
  object_coercible (body r) = false ->
  exists err,
    serve api_chat e w r
    = answered 500 internal_error [] [chat_log_line (now w) err].
Proof.
  intros Hk Hb. rewrite RouteFacts.api_chat_effects, Hk, Hb. now eexists.
Qed.

Lemma chat_without_body_is_an_internal_error_witness :
  exists err,
    serve api_chat Demo.env
      (Demo.world Demo.new_year (Demo.answers 200 Demo.completion))
      {| headers := headers Demo.chat; body := Undefined |}
    = answered 500 internal_error [] [chat_log_line Demo.new_year err].
Proof.
  apply (chat_without_body_is_an_internal_error Demo.env
           (Demo.world Demo.new_year (Demo.answers 200 Demo.completion))
           {| headers := headers Demo.chat; body := Undefined |});
    reflexivity.
Defined.

(** X5. The relay forwards [messages], [temperature] and [top_p] and
    nothing else of the request: two accepted requests that agree on
    these three properties make the same upstream call, whatever their
    other body properties and their headers. *)
Theorem chat_forwards_nothing_else
    (e : Env) (w : World) (r1 r2 : Request) :
  key_accepted e r1 = true ->
  key_accepted e r2 = true ->
  object_coercible (body r1) = true ->
  object_coercible (body r2) = true ->
  get (body r1) "messages" = get (body r2) "messages" ->
  get (body r1) "temperature" = get (body r2) "temperature" ->
  get (body r1) "top_p" = get (body r2) "top_p" ->
  fetched (serve api_chat e w r1) = fetched (serve api_chat e w r2)
  /\ exists call, fetched (serve api_chat e w r1) = [call].
Proof.
  intros K1 K2 B1 B2 Hm Ht Hp.
  rewrite !RouteFacts.api_chat_effects, K1, K2, B1, B2.
  assert (chat_call e (body r1) = chat_call e (body r2)) as <-.
  { unfold chat_call. now rewrite Hm, Ht, Hp. }
  split.
  - now destruct (upstream_json w _).
  - exists (chat_call e (body r1)). now destruct (upstream_json w _).
Qed.

Lemma chat_forwards_nothing_else_witness :
  let w := Demo.world Demo.new_year (Demo.answers 200 Demo.completion) in
  let r2 :=
    {| headers := [("x-api-key", "frontend-secret");
                   ("cookie", "session=1")];
       body := Object [("user", String_ "raymond");
                       ("temperature", Number (Num.of_ratio 2 10));
                       ("messages", Demo.messages)] |} in
  fetched (serve api_chat Demo.env w Demo.chat)
  = fetched (serve api_chat Demo.env w r2)
  /\ exists call, fetched (serve api_chat Demo.env w Demo.chat) = [call].
Proof.
  intros w r2.
  apply (chat_forwards_nothing_else Demo.env w Demo.chat r2); reflexivity.
Defined.

(** ** [POST /admin/login]: errors and edges *)

(** X6. The login calls no upstream service and logs nothing, whatever
    the request.  With a body it answers 200 or 401; with no body
    ([undefined] or [null]) it sends nothing, and the exception of the
    destructuring reaches Express. *)
Theorem login_is_local (e : Env) (w : World) (r : Request) :
  let fx := serve admin_login e w r in
  fetched fx = [] /\ console fx = []
  /\ if object_coercible (body r)
     then escaped fx = []
          /\ exists v, response fx = Some (200, v) \/ response fx = Some (401, v)
     else response fx = None /\ exists err, escaped fx = [err].
Proof.
  cbn zeta. rewrite RouteFacts.admin_login_effects.
  destruct (object_coercible (body r)).
  - destruct (strict_eq _ _ && strict_eq _ _);
      (split; [reflexivity|]; split; [reflexivity|]; split; [reflexivity|]);
      eexists; [left | right]; reflexivity.
  - repeat split. now eexists.
Qed.

(** X7. An unset credential is matched by an absent property:
    [undefined === undefined].  When [ADMIN_PASSWORD] is not configured
    a login request without [password] is accepted with the right user
    name; when [ADMIN_USERNAME] is not configured either, a request with
    neither property is accepted, and gets the token of the name
    ["undefined"]. *)
Theorem login_is_open_without_credentials
    (e : Env) (w : World) (r : Request) :
  time_value (now w) ->
  ADMIN_PASSWORD e = None ->
  object_coercible (body r) = true ->
  get (body r) "password" = Undefined ->
  (ADMIN_USERNAME e = None ->
   get (body r) "username" = Undefined ->
   serve admin_login e w r
   = answered 200 (logged_in (issue "undefined" (now w))) [] [])
  /\ (forall u,
        ADMIN_USERNAME e = Some u ->
        get (body r) "username" = String_ u ->
        serve admin_login e w r
        = answered 200 (logged_in (issue u (now w))) [] []).
Proof.
  intros Hw Hp Hb Hbp. rewrite RouteFacts.admin_login_effects, Hb, Hp, Hbp.
  rewrite (ServerFacts.ToString_clock (now w) Hw). split.
  - intros -> ->. reflexivity.
  - intros u -> ->. now rewrite ServerFacts.strict_eq_same.
Qed.

Lemma login_is_open_without_credentials_witness :
  let e := {| FRONTEND_API_KEY := FRONTEND_API_KEY Demo.env;
              API_URL := API_URL Demo.env;
              OPENROUTER_API_KEY := OPENROUTER_API_KEY Demo.env;
              MODEL := MODEL Demo.env;
              ADMIN_USERNAME := None;
              ADMIN_PASSWORD := None |} in
  let w := Demo.world Demo.new_year (Demo.answers 200 Null) in
  serve admin_login e w {| headers := []; body := Object [] |}
  = answered 200 (logged_in "dW5kZWZpbmVkOjE3MzU2ODk2MDAwMDA=") [] [].
Proof.
  intros e w.
  refine (proj1 (login_is_open_without_credentials e w
                   {| headers := []; body := Object [] |} _ eq_refl eq_refl
                   eq_refl) eq_refl eq_refl).
  unfold time_value, w, Demo.world, Demo.new_year. cbn [now]. lia.
Defined.

(** ** [verifyAdminSession]: errors and edges *)

(** X8. When [ADMIN_USERNAME] is not configured the verifier lets no
    request through: whatever the header and the clock, it answers 401
    and the guarded operation does not run.  (The name read in a token is
    a string and never [=== undefined]; so the token the login gives out
    in that configuration is refused as well.) *)
Theorem verifier_is_closed_without_admin_name
    (next : M unit) (e : Env) (w : World) (r : Request) :
  ADMIN_USERNAME e = None ->
  let ctx := {| env := e; world := w; req := r |} in
  verifyAdminSession next ctx initial
  = (Return tt, answered 401 no_session [] [])
  \/ verifyAdminSession next ctx initial
     = (Return tt, answered 401 expired_session [] []).
Proof.
  intros He ctx. rewrite (RouteFacts.verify_cases next ctx).
  cbn [env world req ctx]. rewrite He.
  destruct (assoc "authorization" (headers r)) as [h|]; [|now left].
  destruct (Str.startsWith h "Bearer "); [|now left].
  destruct (nth_error _ 1) as [t|]; [|now left].
  rewrite SessionFacts.admits_unconfigured. now right.
Qed.

Lemma verifier_is_closed_without_admin_name_witness :
  let e := {| FRONTEND_API_KEY := None; API_URL := None;
              OPENROUTER_API_KEY := None; MODEL := None;
              ADMIN_USERNAME := None; ADMIN_PASSWORD := None |} in
  let ctx := {| env := e;
                world := Demo.world Demo.new_year
                           (Demo.answers 200 (Demo.key_info 50 200));
                req := Demo.admin (issue "undefined" Demo.new_year) |} in
  verifyAdminSession usage_handler ctx initial
  = (Return tt, answered 401 no_session [] [])
  \/ verifyAdminSession usage_handler ctx initial
     = (Return tt, answered 401 expired_session [] []).
Proof.
  intros e ctx.
  apply (verifier_is_closed_without_admin_name usage_handler e
           (world ctx) (req ctx)).
  reflexivity.
Defined.

(** X9. Without an [Authorization] header, or with one that does not
    start with ["Bearer "] (the empty header, another scheme, a
    lower-case ["bearer "]), the verifier answers 401 "No valid session
    token" and the guarded operation does not run. *)
Theorem verifier_requires_a_bearer_header
    (next : M unit) (e : Env) (w : World) (r : Request) :
  (assoc "authorization" (headers r) = None
   \/ exists h, assoc "authorization" (headers r) = Some h
                /\ Str.startsWith h "Bearer " = false) ->
  let ctx := {| env := e; world := w; req := r |} in
  verifyAdminSession next ctx initial
  = (Return tt,
     answered 401 (Object [("error", String_ "No valid session token")]) [] []).
Proof.
  intros H ctx. destruct H as [H|(h & H & Hb)].
  - now rewrite (RouteFacts.verify_no_header next ctx initial H).
  - now rewrite (RouteFacts.verify_no_bearer next ctx initial h H Hb).
Qed.

Lemma verifier_requires_a_bearer_header_witness :
  let ctx := {| env := Demo.env;
                world := Demo.world Demo.new_year
                           (Demo.answers 200 (Demo.key_info 50 200));
                req := {| headers :=
                            [("authorization",
                              "bearer YWRtaW46MTczNTY4OTYwMDAwMA==")];
                          body := Object [] |} |} in
  verifyAdminSession usage_handler ctx initial
  = (Return tt,
     answered 401 (Object [("error", String_ "No valid session token")]) [] []).
Proof.
  intros ctx.
  apply (verifier_requires_a_bearer_header usage_handler
           (env ctx) (world ctx) (req ctx)).
  right. eexists. split; reflexivity.
Defined.

(** ** The admin routes behind the verifier *)

(** X10. A request to [/admin/account] or [/admin/usage] either does
    exactly what the reader alone does, or is answered 401 by the
    verifier, and then no upstream call is made and nothing is logged:
    no request that fails the verifier reaches the provider. *)
Theorem admin_routes_are_guarded (e : Env) (w : World) (r : Request) :
  (serve admin_account e w r = serve account_handler e w r
   \/ serve admin_account e w r = answered 401 no_session [] []
   \/ serve admin_account e w r = answered 401 expired_session [] [])
  /\ (serve admin_usage e w r = serve usage_handler e w r
      \/ serve admin_usage e w r = answered 401 no_session [] []
      \/ serve admin_usage e w r = answered 401 expired_session [] []).
Proof.
  unfold admin_account, admin_usage.
  rewrite !RouteFacts.guarded_effects.
  destruct (assoc "authorization" (headers r)) as [h|]; [|now split; right; left].
  destruct (Str.startsWith h "Bearer "); [|now split; right; left].
  destruct (nth_error _ 1) as [t|]; [|now split; right; left].
  destruct (admits _ _ _); split; auto.
Qed.

(** X11. Each admin reader makes exactly one upstream call, the [GET]
    of the key-info endpoint with the server-held key, and always sends
    a response, 200 or 500; no exception leaves it.  It reads nothing of
    the request: every request gets the same result. *)
Theorem readers_call_the_key_endpoint_once
    (e : Env) (w : World) (r r' : Request) :
  let call :=
    {| url := Some "https://openrouter.ai/api/v1/auth/key";
       method := "GET";
       request_headers :=
         [("Authorization",
           "Bearer " ++ ToString (of_option (OPENROUTER_API_KEY e)));
          ("Content-Type", "application/json")];
       request_body := None |} in
  (fetched (serve account_handler e w r) = [call]
   /\ escaped (serve account_handler e w r) = []
   /\ (exists v, response (serve account_handler e w r) = Some (200, v)
                 \/ response (serve account_handler e w r) = Some (500, v))
   /\ serve account_handler e w r = serve account_handler e w r')
  /\ (fetched (serve usage_handler e w r) = [call]
      /\ escaped (serve usage_handler e w r) = []
      /\ (exists v, response (serve usage_handler e w r) = Some (200, v)
                    \/ response (serve usage_handler e w r) = Some (500, v))
      /\ serve usage_handler e w r = serve usage_handler e w r').
Proof.
  cbn zeta.
  rewrite !RouteFacts.account_handler_effects, !RouteFacts.usage_handler_effects.
  destruct (key_info_data e w) as [d|err]; destruct (usage_data e w);
    repeat split; try (eexists; (left; reflexivity) || (right; reflexivity)).
Qed.

(** X12. When the key-info call fails (the call is rejected, the status
    is not a success, the body does not parse, or the payload is [null]),
    the account reader answers 500
    [{success: false, error: "Failed to fetch account info"}] and the
    usage reader 500 [{success: false, error: "Failed to fetch usage
    info"}]; each logs its label and the message of the error, and
    nothing of the upstream status or body is in the response. *)
Theorem key_info_failure_is_generic
    (e : Env) (w : World) (r : Request) (err : Error) :
  key_info_data e w = Throw err ->
  serve account_handler e w r
  = answered 500
      (Object [("success", Bool false);
               ("error", String_ "Failed to fetch account info")])
      [key_info_request (OPENROUTER_API_KEY e)]
      [[LogText "Admin Account Error:"; LogText (message err)]]
  /\ serve usage_handler e w r
     = answered 500
         (Object [("success", Bool false);
                  ("error", String_ "Failed to fetch usage info")])
         [key_info_request (OPENROUTER_API_KEY e)]
         [[LogText "Admin Usage Error:"; LogText (message err)]].
Proof.
  intros H.
  rewrite RouteFacts.account_handler_effects, RouteFacts.usage_handler_effects.
  unfold usage_data. now rewrite H.
Qed.

Lemma key_info_failure_is_generic_witness :
  let w := Demo.world Demo.new_year (Demo.answers 200 Null) in
  let r := Demo.admin EmptyString in
  serve account_handler Demo.env w r
  = answered 500
      (Object [("success", Bool false);
               ("error", String_ "Failed to fetch account info")])
      [key_info_request (OPENROUTER_API_KEY Demo.env)]
      [[LogText "Admin Account Error:";
        LogText "Cannot read properties of null (reading 'data')"]]
  /\ serve usage_handler Demo.env w r
     = answered 500
         (Object [("success", Bool false);
                  ("error", String_ "Failed to fetch usage info")])
         [key_info_request (OPENROUTER_API_KEY Demo.env)]
         [[LogText "Admin Usage Error:";
           LogText "Cannot read properties of null (reading 'data')"]].
Proof.
  intros w r.
  apply (key_info_failure_is_generic Demo.env w r
           (new_Error "Cannot read properties of null (reading 'data')")).
  reflexivity.
Defined.

(** ** [GET /admin/usage]: edges of the arithmetic *)

(** X13. When the key-info payload has no limit (the property is
    absent, [null], [0], or there is no [data] at all) and the usage is
    absent or a positive number, the usage reader reports
    [limit: 0], [remaining: 0] and [percentage_used: 0] (the number), and
    the usage as it came: it takes "no limit" for a limit of zero. *)
Theorem usage_without_limit
    (e : Env) (w : World) (r : Request) (d : value) :
  key_info_data e w = Return d ->
  truthy (get_optional d "limit") = false ->
  (truthy (get_optional d "usage") = false
   \/ exists u, get_optional d "usage" = Number u
                /\ Num.ltb Num.zero u = true) ->
  response (serve usage_handler e w r)
  = Some (200,
          Object
            [("success", Bool true);
             ("usage",
              Object
                [("used", or (get_optional d "usage") (Number Num.zero));
                 ("limit", Number Num.zero);
                 ("remaining", Number Num.zero);
                 ("percentage_used", Number Num.zero);
                 ("currency", String_ "USD")])]).
Proof.
  intros Hd Hl Hu.
  assert (or (get_optional d "limit") (Number Num.zero) = Number Num.zero)
    as El by (unfold or; now rewrite Hl).
  assert (converts (or (get_optional d "usage") (Number Num.zero)) = true)
    as Cu.
  { unfold or. destruct Hu as [Hu|(u & Hu & _)]; rewrite Hu; [reflexivity|].
    now destruct (truthy (Number u)). }
  rewrite RouteFacts.usage_handler_effects,
    (RouteFacts.usage_data_numbers e w d Hd); [| now rewrite El | exact Cu].
  unfold answered, response, usage_summary. cbn [sent statusCode].
  rewrite El.
  unfold greater, minus. cbn [ToNumber].
  change (Num.ltb Num.zero Num.zero) with false. cbv iota.
  destruct Hu as [Hu|(u & Hu & Hpos)].
  - assert (or (get_optional d "usage") (Number Num.zero) = Number Num.zero)
      as -> by (unfold or; now rewrite Hu).
    reflexivity.
  - assert (or (get_optional d "usage") (Number Num.zero) = Number u)
      as -> by (unfold or; now rewrite Hu, (SessionFacts.positive_truthy u Hpos)).
    cbn [ToNumber]. now rewrite (SessionFacts.max_zero_less_positive u Hpos).
Qed.

Lemma usage_without_limit_witness :
  let data :=
    Object [("data", Object [("label", String_ "key");
                             ("usage", Number (Num.of_ratio 5 2));
                             ("limit", Null)])] in
  response (serve usage_handler Demo.env
              (Demo.world Demo.new_year (Demo.answers 200 data))
              (Demo.admin EmptyString))
  = Some (200,
          Object
            [("success", Bool true);
             ("usage",
              Object
                [("used", Number (Num.of_ratio 5 2));
                 ("limit", Number Num.zero);
                 ("remaining", Number Num.zero);
                 ("percentage_used", Number Num.zero);
                 ("currency", String_ "USD")])]).
Proof.
  intros data.
  apply (usage_without_limit Demo.env
           (Demo.world Demo.new_year (Demo.answers 200 data))
           (Demo.admin EmptyString)
           (Object [("label", String_ "key");
                    ("usage", Number (Num.of_ratio 5 2));
                    ("limit", Null)])).
  - reflexivity.
  - reflexivity.
  - right. eexists. split; reflexivity.
Defined.

(** X14. Whatever the key-info payload holds, when the usage reader
    answers 200 its [remaining] is a number that is not below zero (it
    is [NaN] when the payload does not hold numbers). *)
Theorem usage_remaining_is_never_negative
    (e : Env) (w : World) (r : Request) (v : value) :
  response (serve usage_handler e w r) = Some (200, v) ->
  exists x,
    get (get v "usage") "remaining" = Number x
    /\ Num.ltb x Num.zero = false.
Proof.
  rewrite RouteFacts.usage_handler_effects.
  destruct (usage_data e w) as [d|err]; [|discriminate].
  unfold answered, response. cbn [sent statusCode].
  intros H. injection H as <-.
  eexists. split; [reflexivity|].
  apply SessionFacts.max_zero_not_negative.
Qed.

Lemma usage_remaining_is_never_negative_witness :
  exists x,
    get (get (Object [("success", Bool true);
                      ("usage", usage_summary (get (Demo.key_info 250 200) "data"))])
           "usage") "remaining" = Number x
    /\ Num.ltb x Num.zero = false.
Proof.
  apply (usage_remaining_is_never_negative Demo.env
           (Demo.world Demo.new_year (Demo.answers 200 (Demo.key_info 250 200)))
           (Demo.admin EmptyString)).
  reflexivity.
Defined.

(** ** Sessions over time *)

(** X15. A refusal is permanent: when [/admin/usage] or
    [/admin/account] answers 401 to a request at one clock reading, it
    answers the same 401 to that request at every later one, whatever
    the provider does. *)
Theorem refused_session_stays_refused
    (e : Env) (w1 w2 : World) (r : Request) (v : value) :
  time_value (now w1) ->
  time_value (now w2) ->
  now w1 <= now w2 ->
  (response (serve admin_usage e w1 r) = Some (401, v) ->
   serve admin_usage e w2 r = answered 401 v [] [])
  /\ (response (serve admin_account e w1 r) = Some (401, v) ->
      serve admin_account e w2 r = answered 401 v [] []).
Proof.
  intros H1 H2 Hle. unfold admin_usage, admin_account.
  rewrite !RouteFacts.guarded_effects.
  destruct (assoc "authorization" (headers r)) as [h|];
    [|split; intros H; now injection H as <-].
  destruct (Str.startsWith h "Bearer ");
    [|split; intros H; now injection H as <-].
  destruct (nth_error _ 1) as [t|];
    [|split; intros H; now injection H as <-].
  destruct (admits (ADMIN_USERNAME e) (now w2) (decoded t)) eqn:E2.
  - rewrite (SessionFacts.admits_earlier _ _ _ _ H1 H2 Hle E2).
    rewrite RouteFacts.usage_handler_effects,
      RouteFacts.account_handler_effects.
    split; [destruct (usage_data e w1) | destruct (key_info_data e w1)];
        discriminate.
  - destruct (admits (ADMIN_USERNAME e) (now w1) (decoded t)).
    + rewrite RouteFacts.usage_handler_effects,
        RouteFacts.account_handler_effects.
      split; [destruct (usage_data e w1) | destruct (key_info_data e w1)];
        discriminate.
    + split; intros H; now injection H as <-.
Qed.

Lemma refused_session_stays_refused_witness :
  let token := issue "admin" (Demo.new_year - 86400000) in
  let w1 := Demo.world Demo.new_year (Demo.answers 200 (Demo.key_info 50 200)) in
  let w2 := Demo.world (Demo.new_year + 1)
              (Demo.answers 200 (Demo.key_info 50 200)) in
  serve admin_usage Demo.env w2 (Demo.admin token)
  = answered 401 expired_session [] [].
Proof.
  intros token w1 w2.
  refine (proj1 (refused_session_stays_refused Demo.env w1 w2
                   (Demo.admin token) expired_session _ _ _) _).
  - unfold time_value, w1, Demo.world, Demo.new_year. cbn [now]. lia.
  - unfold time_value, w2, Demo.world, Demo.new_year. cbn [now]. lia.
  - unfold w1, w2, Demo.world, Demo.new_year. cbn [now]. lia.
  - now vm_compute.
Defined.

(** X16. From the login to the readers: the token that [/admin/login]
    gives for the admin user name [u] (without [":"]) opens
    [/admin/account] and [/admin/usage] at every time less than 24 hours
    later; the request then gets exactly what the reader gives. *)
Theorem login_token_opens_the_readers
    (e : Env) (w0 w1 : World) (r0 r1 : Request) (u p : string) :
  time_value (now w0) ->
  time_value (now w1) ->
  ADMIN_USERNAME e = Some u ->
  ADMIN_PASSWORD e = Some p ->
  get (body r0) "username" = String_ u ->
  get (body r0) "password" = String_ p ->
  Buffer.well_formed u = true ->
  Str.mem ":" u = false ->
  now w1 - now w0 < 24 * 60 * 60 * 1000 ->
  exists token,
    serve admin_login e w0 r0 = answered 200 (logged_in token) [] []
    /\ (assoc "authorization" (headers r1) = Some ("Bearer " ++ token)%string ->
        serve admin_account e w1 r1 = serve account_handler e w1 r1
        /\ serve admin_usage e w1 r1 = serve usage_handler e w1 r1).
Proof.
  intros Hw0 Hw1 Hu Hp Hbu Hbp Hwf Hc Hage.
  assert (object_coercible (body r0) = true) as Hco.
  { destruct (body r0); try reflexivity; discriminate. }
  exists (issue u (now w0)). split.
  - rewrite RouteFacts.admin_login_effects, Hco, Hu, Hp, Hbu, Hbp.
    rewrite !ServerFacts.strict_eq_same.
    now rewrite (ServerFacts.ToString_clock (now w0) Hw0).
  - intros Hh. unfold admin_account, admin_usage.
    rewrite !RouteFacts.guarded_effects, Hh.
    destruct (ServerFacts.bearer_token_of (issue u (now w0))
                (ServerFacts.issue_no_space u (now w0))) as [-> ->].
    rewrite Hu, (ServerFacts.admits_issue u (now w1) (now w0) Hw1 Hwf Hc).
    apply Z.ltb_lt in Hage as ->. now split.
Qed.

Lemma login_token_opens_the_readers_witness :
  let w0 := Demo.world Demo.new_year (Demo.answers 200 Null) in
  let w1 := Demo.world (Demo.new_year + 3600000)
              (Demo.answers 200 (Demo.key_info 50 200)) in
  let r1 := Demo.admin "YWRtaW46MTczNTY4OTYwMDAwMA==" in
  exists token,
    serve admin_login Demo.env w0 Demo.login
    = answered 200 (logged_in token) [] []
    /\ (assoc "authorization" (headers r1) = Some ("Bearer " ++ token)%string ->
        serve admin_account Demo.env w1 r1 = serve account_handler Demo.env w1 r1
        /\ serve admin_usage Demo.env w1 r1 = serve usage_handler Demo.env w1 r1).
Proof.
  intros w0 w1 r1.
  apply (login_token_opens_the_readers Demo.env w0 w1 Demo.login r1
           "admin" "correct horse");
    try reflexivity;
    unfold time_value, w0, w1, Demo.world, Demo.new_year; cbn [now]; lia.
Defined.

(** X17. The token of the login expires on the millisecond: presented
    [86400000] milliseconds or more after the login, it is answered 401
    "Invalid or expired session" by both admin routes, which then call
    nothing. *)
Theorem login_token_expires_after_a_day
    (e : Env) (w0 w1 : World) (r0 r1 : Request) (u p : string) :
  time_value (now w0) ->
  time_value (now w1) ->
  ADMIN_USERNAME e = Some u ->
  ADMIN_PASSWORD e = Some p ->
  get (body r0) "username" = String_ u ->
  get (body r0) "password" = String_ p ->
  Buffer.well_formed u = true ->
  Str.mem ":" u = false ->
  86400000 <= now w1 - now w0 ->
  exists token,
    serve admin_login e w0 r0 = answered 200 (logged_in token) [] []
    /\ (assoc "authorization" (headers r1) = Some ("Bearer " ++ token)%string ->
        serve admin_account e w1 r1 = answered 401 expired_session [] []
        /\ serve admin_usage e w1 r1 = answered 401 expired_session [] []).
Proof.
  intros Hw0 Hw1 Hu Hp Hbu Hbp Hwf Hc Hage.
  assert (object_coercible (body r0) = true) as Hco.
  { destruct (body r0); try reflexivity; discriminate. }
  exists (issue u (now w0)). split.
  - rewrite RouteFacts.admin_login_effects, Hco, Hu, Hp, Hbu, Hbp.
    rewrite !ServerFacts.strict_eq_same.
    now rewrite (ServerFacts.ToString_clock (now w0) Hw0).
  - intros Hh. unfold admin_account, admin_usage.
    rewrite !RouteFacts.guarded_effects, Hh.
    destruct (ServerFacts.bearer_token_of (issue u (now w0))
                (ServerFacts.issue_no_space u (now w0))) as [-> ->].
    rewrite Hu, (ServerFacts.admits_issue u (now w1) (now w0) Hw1 Hwf Hc).
    assert ((now w1 - now w0 <? 24 * 60 * 60 * 1000) = false) as ->
        by (apply Z.ltb_ge; lia).
    now split.
Qed.

Lemma login_token_expires_after_a_day_witness :
  let w0 := Demo.world Demo.new_year (Demo.answers 200 Null) in
  let w1 := Demo.world (Demo.new_year + 86400000)
              (Demo.answers 200 (Demo.key_info 50 200)) in
  let r1 := Demo.admin "YWRtaW46MTczNTY4OTYwMDAwMA==" in
  exists token,
    serve admin_login Demo.env w0 Demo.login
    = answered 200 (logged_in token) [] []
    /\ (assoc "authorization" (headers r1) = Some ("Bearer " ++ token)%string ->
        serve admin_account Demo.env w1 r1 = answered 401 expired_session [] []
        /\ serve admin_usage Demo.env w1 r1 = answered 401 expired_session [] []).
Proof.
  intros w0 w1 r1.
  apply (login_token_expires_after_a_day Demo.env w0 w1 Demo.login r1
           "admin" "correct horse");
    try reflexivity;
    unfold time_value, w0, w1, Demo.world, Demo.new_year; cbn [now]; lia.
Defined.

(** ** The text of a session token *)

(** X18. The token codec loses nothing: the base64 text of a buffer
    decodes to the bytes of the buffer, so what the verifier decodes from
    a token made by the login is the text the login encoded, for every
    user name and every clock reading. *)
Theorem session_text_round_trip (s : string) :
  Buffer.from_base64 (Buffer.toString_base64 (Buffer.from_utf8 s)) = s
  /\ (Buffer.well_formed s = true ->
      Buffer.toString
        (Buffer.from_base64 (Buffer.toString_base64 (Buffer.from_utf8 s)))
      = s).
Proof.
  split.
  - apply BufferFacts.from_base64_toString.
  - intros H. rewrite BufferFacts.from_base64_toString.
    now apply BufferFacts.toString_from_utf8.
Qed.

Lemma session_text_round_trip_witness :
  Buffer.toString
    (Buffer.from_base64
       (Buffer.toString_base64 (Buffer.from_utf8 "admin:1735689600000")))
  = "admin:1735689600000".
Proof.
  apply (proj2 (session_text_round_trip "admin:1735689600000")).
  reflexivity.
Defined.

(** X19. The verifier reads the first two parts of the decoded text
    only: a token whose text goes on after the timestamp with [":"] and
    anything at all is accepted exactly like the token of the login. *)
Theorem text_after_the_timestamp_is_ignored
    (next : M unit) (e : Env) (w : World) (r : Request)
    (u x : string) (t : Z) :
  time_value (now w) ->
  ADMIN_USERNAME e = Some u ->
  Buffer.well_formed u = true ->
  Str.mem ":" u = false ->
  assoc "authorization" (headers r)
  = Some ("Bearer "
          ++ Buffer.toString_base64
               (Buffer.from_utf8 (u ++ ":" ++ Str.of_Z t ++ ":" ++ x)))%string ->
  let ctx := {| env := e; world := w; req := r |} in
  verifyAdminSession next ctx initial
  = if now w - t <? 24 * 60 * 60 * 1000
    then dispatch next ctx initial
    else (Return tt, answered 401 expired_session [] []).
Proof.
  intros Hw Hu Hwf Hc Hh ctx.
  rewrite (RouteFacts.verify_cases next ctx).
  cbn [env world req ctx]. rewrite Hh.
  destruct (ServerFacts.bearer_token_of
              (Buffer.toString_base64
                 (Buffer.from_utf8 (u ++ ":" ++ Str.of_Z t ++ ":" ++ x)))
              (BufferFacts.toString_base64_no_space _)) as [-> ->].
  rewrite (SessionFacts.decoded_longer u x t Hwf Hc), Hu.
  rewrite <- (ServerFacts.admits_issue u (now w) t Hw Hwf Hc).
  rewrite (ServerFacts.decoded_issue u t Hwf Hc).
  reflexivity.
Qed.

Lemma text_after_the_timestamp_is_ignored_witness :
  let token :=
    Buffer.toString_base64
      (Buffer.from_utf8 ("admin" ++ ":" ++ Str.of_Z Demo.new_year
                         ++ ":" ++ "anything: at all")) in
  let ctx := {| env := Demo.env;
                world := Demo.world (Demo.new_year + 1000)
                           (Demo.answers 200 (Demo.key_info 50 200));
                req := Demo.admin token |} in
  verifyAdminSession usage_handler ctx initial
  = dispatch usage_handler ctx initial.
Proof.
  intros token ctx.
  refine (text_after_the_timestamp_is_ignored usage_handler
            (env ctx) (world ctx) (req ctx) "admin" "anything: at all"
            Demo.new_year _ eq_refl eq_refl eq_refl eq_refl).
  unfold time_value, ctx, Demo.world, Demo.new_year. cbn [now world]. lia.
Defined.

(** ** Numbers and their texts *)

(** X20. The timestamp survives the text: the template literal writes
    the clock reading [Date.now()] as its decimal digits, and [parseInt]
    reads those digits back as the same number, for every clock
    reading. *)
Theorem timestamp_text_round_trip (t : Z) :
  time_value t ->
  ToString (Number (Num.of_Z t)) = Str.of_Z t
  /\ parseInt (ToString (Number (Num.of_Z t))) = Num.of_Z t.
Proof.
  intros Ht. rewrite (ServerFacts.ToString_clock t Ht).
  split; [reflexivity | apply ParseFacts.parseInt_of_Z].
Qed.

Lemma timestamp_text_round_trip_witness :
  ToString (Number (Num.of_Z Demo.new_year)) = Str.of_Z Demo.new_year
  /\ parseInt (ToString (Number (Num.of_Z Demo.new_year)))
     = Num.of_Z Demo.new_year.
Proof.
  apply timestamp_text_round_trip. unfold time_value, Demo.new_year. lia.
Defined.

(** X21. Rounding never changes the verdict of the age test: for every
    clock reading and every text of a timestamp, the binary64 computation
    [Date.now() - parseInt(timestamp) < maxAge] holds exactly when the
    text starts with an integer [issued], however large, and
    [now - issued < 86400000] holds for the integers; a text without an
    integer gives [NaN] and fails the test. *)
Theorem age_test_is_the_integer_test (t : Z) (timestamp : string) :
  time_value t ->
  Num.ltb (Num.sub (Num.of_Z t) (parseInt timestamp)) maxAge
  = match parseInt_integer timestamp with
    | Some issued => t - issued <? 86400000
    | None => false
    end.
Proof.
  intros Ht. now rewrite (ServerFacts.age_of_text t timestamp Ht).
Qed.

Lemma age_test_is_the_integer_test_witness :
  Num.ltb
    (Num.sub (Num.of_Z Demo.new_year)
       (parseInt "99999999999999999999999999999999999999"))
    maxAge
  = match parseInt_integer "99999999999999999999999999999999999999" with
    | Some issued => Demo.new_year - issued <? 86400000
    | None => false
    end.
Proof.
  apply age_test_is_the_integer_test. unfold time_value, Demo.new_year. lia.
Defined.

(** ** [GET /admin/usage]: the types and the integers *)

(** X22. [percentage_used] has two types: whenever the usage reader
    answers 200 it is a string, made by [toFixed(2)], or the number [0],
    whatever the payload holds. *)
Theorem usage_percentage_is_text_or_zero
    (e : Env) (w : World) (r : Request) (v : value) :
  response (serve usage_handler e w r) = Some (200, v) ->
  (exists x, get (get v "usage") "percentage_used"
             = String_ (Num.toFixed x 2))
  \/ get (get v "usage") "percentage_used" = Number Num.zero.
Proof.
  rewrite RouteFacts.usage_handler_effects.
  destruct (usage_data e w) as [d|err]; [|discriminate].
  unfold answered, response. cbn [sent statusCode].
  intros H. injection H as <-.
  unfold usage_summary.
  change (get (get (Object [("success", Bool true); ("usage", ?s)]) "usage")
            "percentage_used")
    with (get s "percentage_used").
  cbn [get lookup String.eqb Ascii.eqb Bool.eqb].
  destruct (greater _ _); [left; now eexists | now right].
Qed.

Lemma usage_percentage_is_text_or_zero_witness :
  (exists x,
      get (get (Object [("success", Bool true);
                        ("usage",
                         usage_summary (get (Demo.key_info 50 200) "data"))])
             "usage") "percentage_used"
      = String_ (Num.toFixed x 2))
  \/ get (get (Object [("success", Bool true);
                       ("usage",
                        usage_summary (get (Demo.key_info 50 200) "data"))])
            "usage") "percentage_used"
     = Number Num.zero.
Proof.
  apply (usage_percentage_is_text_or_zero Demo.env
           (Demo.world Demo.new_year (Demo.answers 200 (Demo.key_info 50 200)))
           (Demo.admin EmptyString)).
  reflexivity.
Defined.

(** X23. On whole numbers the usage arithmetic is exact: when the
    payload holds the integers [usage] and [limit], both from 0 to
    [2^53], the reader answers [used: usage], [limit: limit] and
    [remaining: max(0, limit - usage)], the integer computed without
    rounding. *)
Theorem usage_on_integers_is_exact
    (e : Env) (w : World) (r : Request) (d : value) (usage limit : Z) :
  key_info_data e w = Return d ->
  get_optional d "usage" = Number (Num.of_Z usage) ->
  get_optional d "limit" = Number (Num.of_Z limit) ->
  0 <= usage < 2 ^ 53 ->
  0 <= limit < 2 ^ 53 ->
  exists summary,
    response (serve usage_handler e w r)
    = Some (200, Object [("success", Bool true); ("usage", summary)])
    /\ get summary "used" = Number (Num.of_Z usage)
    /\ get summary "limit" = Number (Num.of_Z limit)
    /\ get summary "remaining" = Number (Num.of_Z (Z.max 0 (limit - usage))).
Proof.
  intros Hd Hu Hl Ha Hb.
  assert (forall z, 0 <= z < 2 ^ 53 ->
            or (Number (Num.of_Z z)) (Number Num.zero) = Number (Num.of_Z z))
    as Hor.
  { intros z Hz. unfold or, truthy.
    destruct (ExactFacts.of_Z_is_zero z) as [-> ->]; [lia|].
    rewrite orb_false_r.
    destruct (Z.eqb_spec z 0) as [->|_]; reflexivity. }
  rewrite RouteFacts.usage_handler_effects,
    (RouteFacts.usage_data_numbers e w d Hd);
    [| now rewrite Hl, (Hor limit Hb) | now rewrite Hu, (Hor usage Ha)].
  unfold answered, response. cbn [sent statusCode].
  eexists. split; [reflexivity|].
  unfold usage_summary. rewrite Hu, Hl, (Hor usage Ha), (Hor limit Hb).
  unfold minus. cbn [ToNumber].
  rewrite ExactFacts.sub_of_Z, ExactFacts.max_zero_of_Z by lia.
  repeat split.
Qed.

Lemma usage_on_integers_is_exact_witness :
  exists summary,
    response (serve usage_handler Demo.env
                (Demo.world Demo.new_year
                   (Demo.answers 200 (Demo.key_info 1234567 9007199254740991)))
                (Demo.admin EmptyString))
    = Some (200, Object [("success", Bool true); ("usage", summary)])
    /\ get summary "used" = Number (Num.of_Z 1234567)
    /\ get summary "limit" = Number (Num.of_Z 9007199254740991)
    /\ get summary "remaining"
       = Number (Num.of_Z (Z.max 0 (9007199254740991 - 1234567))).
Proof.
  apply (usage_on_integers_is_exact Demo.env _ _
           (get (Demo.key_info 1234567 9007199254740991) "data"));
    try reflexivity; lia.
Defined.

(* ================================================================== *)
(** * Properties of the admin dashboard *)
(* ================================================================== *)

(** X24. [logout()] ends the session in the browser and nowhere else:
    the token is gone from the variable and from [localStorage], the
    login form is shown, the dashboard hidden, the inputs and the error
    line are emptied; no request is made, so the server is not told and
    the token stays valid there.  The account card keeps the markup it
    had.  A page loaded afterwards stays on the login form and makes no
    request. *)
Theorem logout_ends_the_session_in_the_browser
    (net : Page.Net) (tab : Page.Tab) :
  let after := snd (Page.logout net tab) in
  fst (Page.logout net tab) = Return tt
  /\ Page.authToken after = Null
  /\ Page.adminToken after = None
  /\ Page.requests after = Page.requests tab
  /\ Page.hidden (Page.loginForm (Page.document after)) = false
  /\ Page.hidden (Page.dashboard (Page.document after)) = true
  /\ Page.username (Page.document after) = EmptyString
  /\ Page.password (Page.document after) = EmptyString
  /\ Page.loginError (Page.document after) = EmptyString
  /\ Page.accountInfo (Page.document after)
     = Page.accountInfo (Page.document tab)
  /\ (let reloaded :=
        snd (Page.script net (Page.opened (Page.adminToken after))) in
      Page.requests reloaded = []
      /\ Page.hidden (Page.dashboard (Page.document reloaded)) = true).
Proof.
  cbn zeta. unfold Page.logout. PageFacts.step.
  repeat split.
  - apply PageFacts.hidden_remove.
  - apply PageFacts.hidden_add.
Qed.

(** X25. [login()] does what the answer says.  When the call fails, the
    answer is not JSON or is [null], the error line reads "Login
    failed".  When the answer has no truthy [success], the error line
    shows its [error] and nothing is stored; an [error] that has no
    string (an object with a [toString] property of its own, which is
    no function) leaves "Login failed" instead.  When [success] is
    truthy, the [token] of the answer is kept in the variable.  A token
    that has a string becomes the session: its string is stored in
    [localStorage], the dashboard replaces the login form, and the two
    admin requests are made with [Authorization: Bearer <token>].  A
    token that has no string stays in the variable and that is all:
    [localStorage.setItem] throws, nothing is stored, the login form
    stays with "Login failed", and no admin request is made. *)
Theorem login_follows_the_answer (net : Page.Net) (tab : Page.Tab) :
  let q := Page.login_request (Page.username (Page.document tab))
             (Page.password (Page.document tab)) in
  let after := snd (Page.login net tab) in
  let failed_with (token : value) :=
    {| Page.authToken := token;
       Page.adminToken := Page.adminToken tab;
       Page.document :=
         Page.with_loginError "Login failed" (Page.document tab);
       Page.requests := Page.requests tab ++ [q] |} in
  ((exists err, net q = Rejected err)
   \/ (exists r err, net q = Resolved r /\ response_json r = Throw err)
   \/ (exists r data, net q = Resolved r /\ response_json r = Return data
                      /\ (data = Null \/ data = Undefined)) ->
   after = failed_with (Page.authToken tab))
  /\ (forall r data,
        net q = Resolved r ->
        response_json r = Return data ->
        object_coercible data = true ->
        (truthy (get data "success") = false ->
         (converts (get data "error") = true ->
          after
          = {| Page.authToken := Page.authToken tab;
               Page.adminToken := Page.adminToken tab;
               Page.document :=
                 Page.with_loginError (Page.text_of (get data "error"))
                   (Page.document tab);
               Page.requests := Page.requests tab ++ [q] |})
         /\ (converts (get data "error") = false ->
             after = failed_with (Page.authToken tab)))
        /\ (truthy (get data "success") = true ->
            (converts (get data "token") = true ->
             Page.authToken after = get data "token"
             /\ Page.adminToken after = Some (ToString (get data "token"))
             /\ Page.hidden (Page.loginForm (Page.document after)) = true
             /\ Page.hidden (Page.dashboard (Page.document after)) = false
             /\ Page.requests after
                = (Page.requests tab
                   ++ [q;
                       Page.admin_request "/admin/account" (get data "token");
                       Page.admin_request "/admin/usage" (get data "token")])%list)
            /\ (converts (get data "token") = false ->
                after = failed_with (get data "token"))))
  /\ (forall s, converts (String_ s) = true)
  /\ (forall props x,
        lookup "toString" props = Some x -> converts (Object props) = false).
Proof.
  cbn zeta. split; [|split; [|split]].
  - intros [(err & H)|[(r & err & H & J)|(r & data & H & J & Hd)]];
      unfold Page.login; PageFacts.step; rewrite H; PageFacts.step;
      [reflexivity | |].
    + rewrite J. PageFacts.step. reflexivity.
    + rewrite J. PageFacts.step. now destruct Hd as [-> | ->].
  - intros r data H J Hco. split; intros Hs; split; intros Hc.
    + unfold Page.login. PageFacts.step. rewrite H. PageFacts.step.
      rewrite J. PageFacts.step. rewrite Hco. PageFacts.step.
      rewrite Hs. PageFacts.step. try rewrite Hco. PageFacts.step.
      rewrite Hc. PageFacts.step. reflexivity.
    + unfold Page.login. PageFacts.step. rewrite H. PageFacts.step.
      rewrite J. PageFacts.step. rewrite Hco. PageFacts.step.
      rewrite Hs. PageFacts.step. try rewrite Hco. PageFacts.step.
      rewrite Hc. PageFacts.step. reflexivity.
    + unfold Page.login. PageFacts.step. rewrite H. PageFacts.step.
      rewrite J. PageFacts.step. rewrite Hco. PageFacts.step.
      rewrite Hs. PageFacts.step. try rewrite Hco. PageFacts.step.
      rewrite Hc. PageFacts.step.
      match goal with
      | |- context [Page.loadAccountInfo net ?t] =>
          destruct (PageFacts.load_frame net t Hc) as (html & -> & _)
      end.
      cbn [fst snd Page.loaded Page.authToken Page.adminToken Page.document
           Page.requests Page.with_accountInfo Page.loginForm Page.dashboard].
      repeat split.
      * apply PageFacts.hidden_add.
      * apply PageFacts.hidden_remove.
      * now rewrite <- app_assoc.
    + unfold Page.login. PageFacts.step. rewrite H. PageFacts.step.
      rewrite J. PageFacts.step. rewrite Hco. PageFacts.step.
      rewrite Hs. PageFacts.step. try rewrite Hco. PageFacts.step.
      rewrite Hc. PageFacts.step. reflexivity.
  - reflexivity.
  - intros props x H. cbn [converts]. now rewrite H.
Qed.

Lemma login_follows_the_answer_witness :
  let tab := Page.typed "admin" "correct horse" (Page.opened None) in
  (let net : Page.Net :=
     fun _ => Demo.answers 200
                (Object [("success", Bool true); ("token", String_ "abc")]) in
   let after := snd (Page.login net tab) in
   Page.authToken after = String_ "abc"
   /\ Page.adminToken after = Some "abc"
   /\ Page.hidden (Page.loginForm (Page.document after)) = true
   /\ Page.hidden (Page.dashboard (Page.document after)) = false
   /\ Page.requests after
      = [Page.login_request "admin" "correct horse";
         {| url := Some "/admin/account";
            method := "GET";
            request_headers := [("Authorization", "Bearer abc")];
            request_body := None |};
         {| url := Some "/admin/usage";
            method := "GET";
            request_headers := [("Authorization", "Bearer abc")];
            request_body := None |}])
  /\ (let token := Object [("toString", Number (Num.of_Z 1))] in
      let net : Page.Net :=
        fun _ => Demo.answers 200
                   (Object [("success", Bool true); ("token", token)]) in
      snd (Page.login net tab)
      = {| Page.authToken := token;
           Page.adminToken := None;
           Page.document :=
             {| Page.loginForm := ["login-form"];
                Page.dashboard := ["dashboard"; "hidden"];
                Page.username := "admin";
                Page.password := "correct horse";
                Page.loginError := "Login failed";
                Page.accountInfo := Page.initial_card |};
           Page.requests := [Page.login_request "admin" "correct horse"] |}).
Proof.
  intros tab. split.
  - intros net.
    refine (proj1 (proj2 (proj1 (proj2 (login_follows_the_answer net tab))
                     _ (Object [("success", Bool true); ("token", String_ "abc")])
                     eq_refl eq_refl eq_refl) eq_refl) eq_refl).
  - intros token net.
    refine (proj2 (proj2 (proj1 (proj2 (login_follows_the_answer net tab))
                     _ (Object [("success", Bool true); ("token", token)])
                     eq_refl eq_refl eq_refl) eq_refl) eq_refl).
Defined.

(** X26. [loadAccountInfo()] keeps the session whatever the server
    answers, and never throws.  With a token that has a string it makes
    its two requests, replaces the markup of the account card (by the
    details, by "Failed to load account info" or by "Error loading
    account info") and changes nothing else: a token that the server
    refuses stays in the variable and in [localStorage], and the
    dashboard stays in view.  With a token that has no string (an
    object with a [toString] property of its own) the header cannot be
    made: no request is sent, the card reads "Error loading account
    info", and nothing else changes. *)
Theorem loadAccountInfo_keeps_the_session (net : Page.Net) (tab : Page.Tab) :
  let carded (html : string) (sent : list FetchRequest) :=
    {| Page.authToken := Page.authToken tab;
       Page.adminToken := Page.adminToken tab;
       Page.document :=
         {| Page.loginForm := Page.loginForm (Page.document tab);
            Page.dashboard := Page.dashboard (Page.document tab);
            Page.username := Page.username (Page.document tab);
            Page.password := Page.password (Page.document tab);
            Page.loginError := Page.loginError (Page.document tab);
            Page.accountInfo := html |};
       Page.requests := (Page.requests tab ++ sent)%list |} in
  (converts (Page.authToken tab) = true ->
   exists html,
     Page.loadAccountInfo net tab
     = (Return tt,
        carded html
          [Page.admin_request "/admin/account" (Page.authToken tab);
           Page.admin_request "/admin/usage" (Page.authToken tab)])
     /\ (html = Page.failed_card \/ html = Page.error_card
         \/ exists a b c d e f g, html = Page.details a b c d e f g))
  /\ (converts (Page.authToken tab) = false ->
      Page.loadAccountInfo net tab = (Return tt, carded Page.error_card []))
  /\ (forall s, Page.authToken tab = String_ s ->
        converts (Page.authToken tab) = true)
  /\ (forall props x,
        Page.authToken tab = Object props ->
        lookup "toString" props = Some x ->
        converts (Page.authToken tab) = false).
Proof.
  cbn zeta. split; [|split; [|split]].
  - intros Hc.
    destruct (PageFacts.load_frame net tab Hc) as (html & H & Hshape).
    exists html. split; [exact H | exact Hshape].
  - intros Hc. rewrite (PageFacts.load_without_header net tab Hc).
    unfold Page.unsent. now rewrite app_nil_r.
  - now intros s ->.
  - intros props x -> H. cbn [converts]. now rewrite H.
Qed.

Lemma loadAccountInfo_keeps_the_session_witness :
  let net : Page.Net :=
    fun _ => Demo.answers 401
               (Object [("error", String_ "Invalid or expired session")]) in
  let stale := snd (Page.script net (Page.opened (Some "abc"))) in
  let broken :=
    {| Page.authToken := Object [("toString", Number (Num.of_Z 1))];
       Page.adminToken := None;
       Page.document := Page.document (Page.opened None);
       Page.requests := [] |} in
  Page.loadAccountInfo net stale
  = (Return tt,
     {| Page.authToken := String_ "abc";
        Page.adminToken := Some "abc";
        Page.document :=
          {| Page.loginForm := ["login-form"; "hidden"];
             Page.dashboard := ["dashboard"];
             Page.username := EmptyString;
             Page.password := EmptyString;
             Page.loginError := EmptyString;
             Page.accountInfo := Page.failed_card |};
        Page.requests :=
          let call path :=
            {| url := Some path;
               method := "GET";
               request_headers := [("Authorization", "Bearer abc")];
               request_body := None |} in
          [call "/admin/account"; call "/admin/usage";
           call "/admin/account"; call "/admin/usage"] |})
  /\ Page.loadAccountInfo net broken
     = (Return tt,
        {| Page.authToken := Object [("toString", Number (Num.of_Z 1))];
           Page.adminToken := None;
           Page.document :=
             {| Page.loginForm := ["login-form"];
                Page.dashboard := ["dashboard"; "hidden"];
                Page.username := EmptyString;
                Page.password := EmptyString;
                Page.loginError := EmptyString;
                Page.accountInfo := Page.error_card |};
           Page.requests := [] |}).
Proof.
  intros net stale broken. split.
  - destruct (proj1 (loadAccountInfo_keeps_the_session net stale) eq_refl)
      as (html & H & _).
    pose proof H as E. vm_compute in E. injection E as E.
    rewrite H, <- E. reflexivity.
  - exact (proj1 (proj2 (loadAccountInfo_keeps_the_session net broken))
             eq_refl).
Defined.

(** ** The dashboard and the server together *)

(** X27. With the session token of the login, less than 24 hours old,
    [loadAccountInfo()] shows what the server reports.  When the
    key-info call of one of the readers fails, the card reads "Failed to
    load account info".  When the payload holds a label that is not
    empty and the integers [usage] and [limit], the card shows the label
    as it came, put into the markup without escaping, and the amounts
    [usage], [limit] and [max(0, limit - usage)] with 4, 2 and 4
    decimals. *)
Theorem card_shows_what_the_server_reports
    (e : Env) (v : Site.Visit) (tab : Page.Tab) (u : string) (t : Z) :
  Page.authToken tab = String_ (issue u t) ->
  ADMIN_USERNAME e = Some u ->
  Buffer.well_formed u = true ->
  Str.mem ":" u = false ->
  time_value (now (Site.at_account v)) ->
  time_value (now (Site.at_usage v)) ->
  now (Site.at_account v) - t < 24 * 60 * 60 * 1000 ->
  now (Site.at_usage v) - t < 24 * 60 * 60 * 1000 ->
  ((exists err, key_info_data e (Site.at_account v) = Throw err)
   \/ (exists err, key_info_data e (Site.at_usage v) = Throw err) ->
   Page.loadAccountInfo (Site.site e v) tab
   = (Return tt, Page.loaded tab Page.failed_card))
  /\ (forall da du l usage limit,
        key_info_data e (Site.at_account v) = Return da ->
        key_info_data e (Site.at_usage v) = Return du ->
        get_optional da "label" = String_ l ->
        l <> EmptyString ->
        get_optional du "usage" = Number (Num.of_Z usage) ->
        get_optional du "limit" = Number (Num.of_Z limit) ->
        0 <= usage < 2 ^ 53 ->
        0 <= limit < 2 ^ 53 ->
        exists account_type percentage colour,
          Page.loadAccountInfo (Site.site e v) tab
          = (Return tt,
             Page.loaded tab
               (Page.details l account_type
                  (Num.toFixed (Num.of_Z usage) 4)
                  (Num.toFixed (Num.of_Z limit) 2)
                  (Num.toFixed (Num.of_Z (Z.max 0 (limit - usage))) 4)
                  percentage colour))).
Proof.
  intros Htok Hu Hwf Hc Hwa Hwu Haa Hau.
  apply Z.ltb_lt in Haa, Hau.
  assert (converts (Page.authToken tab) = true) as Hct by now rewrite Htok.
  assert (Site.site e v (Page.admin_request "/admin/account" (Page.authToken tab))
          = Site.answer
              (serve account_handler e (Site.at_account v)
                 {| headers := [("authorization", "Bearer " ++ issue u t)%string];
                    body := Object [] |})) as Hqa.
  { rewrite SiteFacts.site_account, Htok. cbn [ToString]. unfold admin_account.
    now rewrite (SiteFacts.guarded_issue _ e _ u t _ Hwa Hu Hwf Hc), Haa. }
  assert (Site.site e v (Page.admin_request "/admin/usage" (Page.authToken tab))
          = Site.answer
              (serve usage_handler e (Site.at_usage v)
                 {| headers := [("authorization", "Bearer " ++ issue u t)%string];
                    body := Object [] |})) as Hqu.
  { rewrite SiteFacts.site_usage, Htok. cbn [ToString]. unfold admin_usage.
    now rewrite (SiteFacts.guarded_issue _ e _ u t _ Hwu Hu Hwf Hc), Hau. }
  rewrite RouteFacts.account_handler_effects in Hqa.
  rewrite RouteFacts.usage_handler_effects in Hqu.
  split.
  - intros Hfail.
    assert ((exists err, key_info_data e (Site.at_account v) = Throw err)
            \/ (exists err, usage_data e (Site.at_usage v) = Throw err))
      as Hfail'.
    { destruct Hfail as [H|(err & H)]; [now left | right].
      exists err. now apply SiteFacts.usage_data_failure. }
    clear Hfail.
    destruct (key_info_data e (Site.at_account v)) as [da|ea] eqn:Ea;
      destruct (usage_data e (Site.at_usage v)) as [du|eu] eqn:Eu;
      try (destruct Hfail' as [(err & H)|(err & H)]; discriminate);
      unfold failed in Hqa, Hqu; rewrite SiteFacts.answer_object in Hqa, Hqu;
      apply (PageFacts.load_refused _ _ _ _ _ _ Hct Hqa Hqu eq_refl eq_refl);
      reflexivity.
  - intros da du l usage limit Ea Eu Hl Hne Husage Hlimit Ha Hb.
    rewrite Ea in Hqa.
    rewrite (SiteFacts.usage_data_of_numbers _ _ du _ _ Eu Husage Hlimit)
      in Hqu.
    destruct (SiteFacts.usage_summary_integers du usage limit
                Husage Hlimit Ha Hb) as (pct & Hsum & Hpct & Hdef & Hcp).
    destruct (SiteFacts.json_account da l Hl Hne) as (rest & Hacc).
    rewrite Hsum in Hqu.
    rewrite SiteFacts.answer_object in Hqa, Hqu.
    rewrite !SiteFacts.json_properties_cons in Hqa, Hqu by discriminate.
    rewrite SiteFacts.json_properties_nil in Hqa, Hqu.
    rewrite Hacc in Hqa.
    rewrite (SiteFacts.json_usage_summary usage limit pct Ha Hb Hpct Hdef) in Hqu.
    cbn [Site.through_json] in Hqa, Hqu.
    do 3 eexists.
    rewrite (PageFacts.load_details _ _ _ _ _ _
               (Num.of_Z usage) (Num.of_Z limit)
               (Num.of_Z (Z.max 0 (limit - usage)))
               Hct Hqa Hqu eq_refl eq_refl);
      first [reflexivity | exact Hcp].
Qed.

Lemma card_shows_what_the_server_reports_witness :
  let v := {| Site.at_login := Demo.world Demo.new_year (Demo.answers 200 Null);
              Site.at_account :=
                Demo.world (Demo.new_year + 5)
                  (Demo.answers 200 (Demo.key_info 50 200));
              Site.at_usage :=
                Demo.world (Demo.new_year + 6)
                  (Demo.answers 200 (Demo.key_info 50 200)) |} in
  let tab :=
    {| Page.authToken := String_ (issue "admin" Demo.new_year);
       Page.adminToken := Some (issue "admin" Demo.new_year);
       Page.document := Page.document (Page.opened None);
       Page.requests := [] |} in
  exists account_type percentage colour,
    Page.loadAccountInfo (Site.site Demo.env v) tab
    = (Return tt,
       Page.loaded tab
         (Page.details "sk-or-v1-000...000" account_type
            (Num.toFixed (Num.of_Z 50) 4)
            (Num.toFixed (Num.of_Z 200) 2)
            (Num.toFixed (Num.of_Z (Z.max 0 (200 - 50))) 4)
            percentage colour)).
Proof.
  intros v tab.
  refine (proj2 (card_shows_what_the_server_reports Demo.env v tab
                   "admin" Demo.new_year eq_refl eq_refl eq_refl eq_refl
                   _ _ _ _)
            (get (Demo.key_info 50 200) "data")
            (get (Demo.key_info 50 200) "data")
            "sk-or-v1-000...000" 50 200 eq_refl eq_refl eq_refl _
            eq_refl eq_refl _ _);
    try discriminate;
    unfold time_value, v, Demo.world, Demo.new_year;
    cbn [now Site.at_account Site.at_usage]; lia.
Defined.

(** X28. From the page to the server and back.  With the configured
    credentials typed, [login()] keeps the token that the server issues
    at its clock reading, stores it in [localStorage], shows the
    dashboard and presents the token to both admin routes.  With any
    other credentials typed, the error line reads "Invalid credentials",
    nothing is stored, the login form stays, and no admin request is
    made. *)
Theorem dashboard_login_against_the_server
    (e : Env) (v : Site.Visit) (tab : Page.Tab) (u p : string) :
  time_value (now (Site.at_login v)) ->
  ADMIN_USERNAME e = Some u ->
  ADMIN_PASSWORD e = Some p ->
  let typed_u := Page.username (Page.document tab) in
  let typed_p := Page.password (Page.document tab) in
  let after := snd (Page.login (Site.site e v) tab) in
  (typed_u = u /\ typed_p = p ->
   let token := issue u (now (Site.at_login v)) in
   Page.authToken after = String_ token
   /\ Page.adminToken after = Some token
   /\ Page.hidden (Page.loginForm (Page.document after)) = true
   /\ Page.hidden (Page.dashboard (Page.document after)) = false
   /\ Page.requests after
      = (Page.requests tab
         ++ [Page.login_request u p;
             Page.admin_request "/admin/account" (String_ token);
             Page.admin_request "/admin/usage" (String_ token)])%list)
  /\ (typed_u <> u \/ typed_p <> p ->
      after
      = {| Page.authToken := Page.authToken tab;
           Page.adminToken := Page.adminToken tab;
           Page.document :=
             Page.with_loginError "Invalid credentials" (Page.document tab);
           Page.requests :=
             Page.requests tab ++ [Page.login_request typed_u typed_p] |}).
Proof.
  intros Hw Hu Hp. cbn zeta.
  pose proof (SiteFacts.site_login e v (Page.username (Page.document tab))
                (Page.password (Page.document tab))) as Hq.
  rewrite RouteFacts.admin_login_effects in Hq.
  cbn [body object_coercible get lookup String.eqb Ascii.eqb Bool.eqb] in Hq.
  rewrite Hu, Hp, (ServerFacts.ToString_clock _ Hw) in Hq.
  split.
  - intros [Eu Ep]. rewrite Eu, Ep in Hq.
    rewrite !ServerFacts.strict_eq_same in Hq. cbn [andb ToString] in Hq.
    unfold logged_in in Hq. rewrite SiteFacts.answer_object in Hq.
    rewrite !SiteFacts.json_properties_cons in Hq by discriminate.
    rewrite SiteFacts.json_properties_nil in Hq. cbn [Site.through_json] in Hq.
    fold (issue u (now (Site.at_login v))) in Hq.
    unfold Page.login. PageFacts.step. rewrite Eu, Ep, Hq. PageFacts.step.
    cbn [response_json object_coercible get lookup String.eqb Ascii.eqb
         Bool.eqb truthy converts].
    PageFacts.step.
    match goal with
    | |- context [Page.loadAccountInfo ?n ?t] =>
        destruct (PageFacts.load_frame n t eq_refl) as (html & -> & _)
    end.
    cbn [fst snd Page.loaded Page.authToken Page.adminToken Page.document
         Page.requests Page.with_accountInfo Page.loginForm Page.dashboard
         ToString].
    repeat split.
    + apply PageFacts.hidden_add.
    + apply PageFacts.hidden_remove.
    + now rewrite <- app_assoc.
  - intros Hne.
    assert (strict_eq (String_ (Page.username (Page.document tab))) (Some u)
            && strict_eq (String_ (Page.password (Page.document tab))) (Some p)
            = false) as E.
    { destruct (strict_eq (String_ (Page.username (Page.document tab)))
                  (Some u)) eqn:E1; [|reflexivity].
      destruct (strict_eq (String_ (Page.password (Page.document tab)))
                  (Some p)) eqn:E2; [|reflexivity].
      apply ServerFacts.strict_eq_string in E1, E2.
      destruct Hne as [H|H]; elim H; congruence. }
    rewrite E in Hq. unfold invalid_credentials in Hq.
    rewrite SiteFacts.answer_object in Hq.
    rewrite !SiteFacts.json_properties_cons in Hq by discriminate.
    rewrite SiteFacts.json_properties_nil in Hq. cbn [Site.through_json] in Hq.
    unfold Page.login. PageFacts.step. rewrite Hq. PageFacts.step.
    cbn [response_json object_coercible get lookup String.eqb Ascii.eqb
         Bool.eqb truthy].
    PageFacts.step. reflexivity.
Qed.

Lemma dashboard_login_against_the_server_witness :
  let v := {| Site.at_login := Demo.world Demo.new_year (Demo.answers 200 Null);
              Site.at_account :=
                Demo.world (Demo.new_year + 5)
                  (Demo.answers 200 (Demo.key_info 50 200));
              Site.at_usage :=
                Demo.world (Demo.new_year + 6)
                  (Demo.answers 200 (Demo.key_info 50 200)) |} in
  let tab := Page.typed "admin" "correct horse" (Page.opened None) in
  let after := snd (Page.login (Site.site Demo.env v) tab) in
  Page.authToken after = String_ "YWRtaW46MTczNTY4OTYwMDAwMA=="
  /\ Page.adminToken after = Some "YWRtaW46MTczNTY4OTYwMDAwMA=="
  /\ Page.hidden (Page.loginForm (Page.document after)) = true
  /\ Page.hidden (Page.dashboard (Page.document after)) = false
  /\ Page.requests after
     = [Page.login_request "admin" "correct horse";
        Page.admin_request "/admin/account"
          (String_ "YWRtaW46MTczNTY4OTYwMDAwMA==");
        Page.admin_request "/admin/usage"
          (String_ "YWRtaW46MTczNTY4OTYwMDAwMA==")].
Proof.
  intros v tab.
  refine (proj1 (dashboard_login_against_the_server Demo.env v tab
                   "admin" "correct horse" _ eq_refl eq_refl)
            (conj eq_refl eq_refl)).
  unfold time_value, v, Demo.world, Demo.new_year. cbn [now Site.at_login]. lia.
Defined.

(** X29. A page loaded with an expired token in [localStorage] opens
    the dashboard all the same: the script shows the dashboard before it
    asks the server, the server answers 401, the card reads "Failed to
    load account info", and the token stays in [localStorage]; the login
    form remains hidden. *)
Theorem expired_token_still_opens_the_dashboard
    (e : Env) (v : Site.Visit) (u : string) (t : Z) :
  ADMIN_USERNAME e = Some u ->
  Buffer.well_formed u = true ->
  Str.mem ":" u = false ->
  time_value (now (Site.at_account v)) ->
  86400000 <= now (Site.at_account v) - t ->
  exists after,
    Page.script (Site.site e v) (Page.opened (Some (issue u t)))
    = (Return tt, after)
    /\ Page.adminToken after = Some (issue u t)
    /\ Page.authToken after = String_ (issue u t)
    /\ Page.hidden (Page.dashboard (Page.document after)) = false
    /\ Page.hidden (Page.loginForm (Page.document after)) = true
    /\ Page.accountInfo (Page.document after) = Page.failed_card.
Proof.
  intros Hu Hwf Hc Hw Hage.
  assert (issue u t <> EmptyString) as Hne.
  { apply SiteFacts.issue_not_empty. }
  assert (Site.site e v (Page.admin_request "/admin/account"
                           (String_ (issue u t)))
          = Resolved {| response_status := 401;
                        response_json := Return expired_session |}) as Hqa.
  { rewrite SiteFacts.site_account. cbn [ToString]. unfold admin_account.
    rewrite (SiteFacts.guarded_issue _ e _ u t _ Hw Hu Hwf Hc).
    assert ((now (Site.at_account v) - t <? 24 * 60 * 60 * 1000) = false) as ->
        by (apply Z.ltb_ge; lia).
    reflexivity. }
  destruct (SiteFacts.admin_routes_answer_objects e (Site.at_usage v)
              {| headers := [("authorization", "Bearer " ++ issue u t)%string];
                 body := Object [] |}) as [_ (code & props & Hqu)].
  pose proof (SiteFacts.site_usage e v (String_ (issue u t))) as Hs.
  cbn [ToString] in Hs. rewrite <- Hs in Hqu. clear Hs.
  unfold Page.script. PageFacts.step.
  cbn [Page.opened Page.adminToken truthy].
  apply String.eqb_neq in Hne. rewrite Hne. cbn [negb]. PageFacts.step.
  match goal with
  | |- context [Page.loadAccountInfo ?n ?tab] =>
      rewrite (PageFacts.load_refused n tab _ _ expired_session (Object props)
                 eq_refl Hqa Hqu eq_refl eq_refl eq_refl eq_refl eq_refl)
  end.
  eexists. split; [reflexivity|].
  cbn [Page.loaded Page.adminToken Page.authToken Page.document
       Page.with_accountInfo Page.dashboard Page.loginForm Page.accountInfo].
  repeat split.
Qed.

Lemma expired_token_still_opens_the_dashboard_witness :
  let v := {| Site.at_login := Demo.world Demo.new_year (Demo.answers 200 Null);
              Site.at_account :=
                Demo.world (Demo.new_year + 86400000)
                  (Demo.answers 200 (Demo.key_info 50 200));
              Site.at_usage :=
                Demo.world (Demo.new_year + 86400000)
                  (Demo.answers 200 (Demo.key_info 50 200)) |} in
  exists after,
    Page.script (Site.site Demo.env v)
      (Page.opened (Some (issue "admin" Demo.new_year)))
    = (Return tt, after)
    /\ Page.adminToken after = Some (issue "admin" Demo.new_year)
    /\ Page.authToken after = String_ (issue "admin" Demo.new_year)
    /\ Page.hidden (Page.dashboard (Page.document after)) = false
    /\ Page.hidden (Page.loginForm (Page.document after)) = true
    /\ Page.accountInfo (Page.document after) = Page.failed_card.
Proof.
  intros v.
  apply (expired_token_still_opens_the_dashboard Demo.env v "admin"
           Demo.new_year eq_refl eq_refl eq_refl);
    unfold time_value, v, Demo.world, Demo.new_year;
    cbn [now Site.at_account]; lia.
Defined.
